(** * Ocean Networks Canada assistant: a shallow embedding of the web API,
      the ONC client, the conversation manager, the keyword router and the
      temporal-reference parser, with the properties the specification
      states about them.

    Python values are modelled as the code uses them: [str] as [string]
    (one [ascii] per character), [dict] as [gmap], Mongo collections as
    finite maps keyed by [_id], exceptions as explicit outcomes, and
    [float] as binary64 ([PrimFloat]) where a claim depends on the value. *)

From Stdlib Require Import ZArith List String Ascii Lia Bool.
From Stdlib Require Import PrimFloat DecimalString.
From Stdlib Require Uint63.
From stdpp Require Import gmap strings list fin_maps sorting.

Local Open Scope Z_scope.
Local Open Scope string_scope.

(** ** Python string helpers *)

(** [s[:n]] on a [str]. *)
Fixpoint py_prefix (n : nat) (s : string) : string :=
  match n, s with
  | S n', String c s' => String c (py_prefix n' s')
  | _, _ => EmptyString
  end.

Lemma py_prefix_all (n : nat) (t : string) :
  (String.length t <= n)%nat -> py_prefix n t = t.
Proof.
  revert n; induction t as [|c t IH]; intros [|n] Hn; simpl in *; try reflexivity; try lia.
  rewrite IH by lia. reflexivity.
Qed.

Lemma py_prefix_length (n : nat) (t : string) :
  (n <= String.length t)%nat -> String.length (py_prefix n t) = n.
Proof.
  revert t; induction n as [|n IH]; intros [|c t] Hn; simpl in *; try reflexivity; try lia.
  rewrite IH by lia. reflexivity.
Qed.

Lemma py_prefix_is_prefix (n : nat) (t : string) :
  exists rest, t = py_prefix n t ++ rest.
Proof.
  revert t; induction n as [|n IH]; intros t.
  - exists t. destruct t; reflexivity.
  - destruct t as [|c t]; [exists ""; reflexivity|].
    destruct (IH t) as [rest Hr]. exists rest. change (String c t = String c (py_prefix n t ++ rest)). congruence.
Qed.

Lemma append_empty_r (t : string) : t ++ "" = t.
Proof.
  induction t as [|c t IH]; [reflexivity|].
  change (String c (t ++ "") = String c t). congruence.
Qed.

(** [s.startswith(p)] *)
Fixpoint startswith (p s : string) : bool :=
  match p, s with
  | EmptyString, _ => true
  | String a p', String b s' => Ascii.eqb a b && startswith p' s'
  | String _ _, EmptyString => false
  end.

(** [needle in haystack] on two [str] *)
Fixpoint py_in (needle haystack : string) : bool :=
  startswith needle haystack ||
  match haystack with
  | EmptyString => false
  | String _ rest => py_in needle rest
  end.

(** * The web API (backend/app/routes) *)

Module WebAPI.

(** JSON / BSON scalar values as they travel through request bodies and
    stored documents.  [VTime] is a [datetime] (microseconds since the
    epoch, UTC). *)
Inductive value :=
| VNull
| VBool (b : bool)
| VInt (z : Z)
| VStr (s : string)
| VTime (t : Z).

#[global] Instance value_eq_dec : EqDecision value.
Proof. solve_decision. Defined.

(** What a route handler does: it returns, raises [HTTPException], or lets
    another exception escape (which the framework turns into a 500). *)
Inductive outcome (A : Type) :=
| Return (a : A)
| HTTPException (status_code : Z) (detail : string)
| Raise (exc : string).
Arguments Return {A} a.
Arguments HTTPException {A} status_code detail.
Arguments Raise {A} exc.

Section Store.

(** [bson.ObjectId] is an external type: its values are taken abstractly,
    and its constructor on a [str] is a parameter ([None] when it raises
    [InvalidId]). *)
Context {oid : Type} `{Countable oid}.
Variable ObjectId_of_str : string -> option oid.

(** [ObjectId(None)] makes up a new id: the one it comes up with. *)
Variable ObjectId_new : oid.

(** [datetime.fromisoformat], [None] when it raises [ValueError]. *)
Variable fromisoformat : string -> option Z.

(** How Python prints the set [required_keys]; the order of its elements
    changes from one run of the server to the next. *)
Variable required_keys_text : string.

(** A stored document is a dict of fields; a collection maps [_id] to the
    rest of the document. *)
Record DB := mkDB {
  chats_collection : gmap oid (gmap string value);
  messages_collection : gmap oid (gmap string value)
}.

(** Handlers run against the database; the state reached is kept when an
    exception is raised (there is no transaction). *)
Definition handler (A : Type) : Type := DB -> DB * outcome A.

Definition ret {A} (a : A) : handler A := fun db => (db, Return a).
Definition raise_http {A} (code : Z) (detail : string) : handler A :=
  fun db => (db, HTTPException code detail).
Definition raise_exc {A} (e : string) : handler A := fun db => (db, Raise e).
Definition bind {A B} (m : handler A) (k : A -> handler B) : handler B :=
  fun db =>
    match m db with
    | (db', Return a) => k a db'
    | (db', HTTPException c d) => (db', HTTPException c d)
    | (db', Raise e) => (db', Raise e)
    end.

Notation "'let!' x ':=' m 'in' k" := (bind m (fun x => k))
  (at level 10, x pattern, m at level 100, k at level 200).

(** [ObjectId(v)]: a new id for [None], [InvalidId] for a string that is
    not an object id, [TypeError] for a value that is neither. *)
Definition ObjectId (v : value) : handler oid :=
  match v with
  | VStr s =>
      match ObjectId_of_str s with
      | Some o => ret o
      | None => raise_exc "InvalidId"
      end
  | VNull => ret ObjectId_new
  | _ => raise_exc "TypeError"
  end.

(** *** Collection operations (the Motor calls the routes make) *)

(** [messages_collection.delete_many({"chat_id": chat_id})]; returns the
    deleted count. *)
Definition messages_delete_many_chat_id (chat_id : string) : handler nat :=
  fun db =>
    let doomed := filter (fun kv => kv.2 !! "chat_id" = Some (VStr chat_id))
                         (messages_collection db) in
    let kept := filter (fun kv => kv.2 !! "chat_id" <> Some (VStr chat_id))
                       (messages_collection db) in
    (mkDB (chats_collection db) kept, Return (size doomed)).

(** [chats_collection.delete_one({"_id": o})]; returns [deleted_count]. *)
Definition chats_delete_one (o : oid) : handler nat :=
  fun db =>
    match chats_collection db !! o with
    | Some _ => (mkDB (delete o (chats_collection db)) (messages_collection db), Return 1%nat)
    | None => (db, Return 0%nat)
    end.

(** [chats_collection.update_one({"_id": o}, {"$set": update_data})];
    returns [matched_count]. *)
Definition chats_update_one_set (o : oid) (update_data : gmap string value) : handler nat :=
  fun db =>
    match chats_collection db !! o with
    | Some doc =>
        (mkDB (<[o := update_data ∪ doc]> (chats_collection db)) (messages_collection db),
         Return 1%nat)
    | None => (db, Return 0%nat)
    end.

(** [messages_collection.update_one({"_id": o}, {"$set": {"rating": r}})]. *)
Definition messages_update_one_set (o : oid) (update_data : gmap string value) : handler nat :=
  fun db =>
    match messages_collection db !! o with
    | Some doc =>
        (mkDB (chats_collection db) (<[o := update_data ∪ doc]> (messages_collection db)),
         Return 1%nat)
    | None => (db, Return 0%nat)
    end.

(** [messages_collection.insert_one(doc)]: the driver draws the new [_id];
    a collision raises [DuplicateKeyError]. *)
Definition messages_insert_one (new_id : oid) (doc : gmap string value) : handler oid :=
  fun db =>
    match messages_collection db !! new_id with
    | Some _ => (db, Raise "DuplicateKeyError")
    | None => (mkDB (chats_collection db) (<[new_id := doc]> (messages_collection db)),
               Return new_id)
    end.

(** *** chat_history.py *)

Definition allowed_fields : list string := ["summary"; "last_timestamp"].

(** [update_chat(chat_id, updates)] *)
Definition update_chat (chat_id : value) (updates : gmap string value) : handler string :=
  let update_data := filter (fun kv => kv.1 ∈ allowed_fields) updates in
  let! update_data :=
    match update_data !! "last_timestamp" with
    | Some (VStr s) =>
        match fromisoformat s with
        | Some t => ret (<["last_timestamp" := VTime t]> update_data)
        | None => raise_exc "ValueError"
        end
    | _ => ret update_data
    end in
  let! o := ObjectId chat_id in
  let! matched_count := chats_update_one_set o update_data in
  if (matched_count =? 0)%nat then raise_http 404 "Chat not found"
  else ret "Chat updated".

(** [delete_chat(chat_id)] *)
Definition delete_chat (chat_id : string) : handler string :=
  let! chat_obj_id := ObjectId (VStr chat_id) in
  let! _ := messages_delete_many_chat_id chat_id in
  let! deleted_count := chats_delete_one chat_obj_id in
  if (deleted_count =? 0)%nat then raise_http 404 "Chat not found"
  else ret "Chat and related messages deleted".

(** *** message_routes.py *)

(** [data[key]] on a request body: [KeyError] when the key is absent. *)
Definition getitem (data : gmap string value) (key : string) : handler value :=
  match data !! key with
  | Some v => ret v
  | None => raise_exc "KeyError"
  end.

(** [rating not in [-1, 0, 1]] *)
Definition rating_not_in (rating : Z) : bool :=
  negb (existsb (Z.eqb rating) [-1; 0; 1]).

(** [update_message_rating(message_id, rating)] *)
Definition update_message_rating (message_id : string) (rating : Z) : handler string :=
  if rating_not_in rating then raise_http 400 "Rating must be -1, 0, or 1"
  else
    let! o := ObjectId (VStr message_id) in
    let! matched_count := messages_update_one_set o {["rating" := VInt rating]} in
    if (matched_count =? 0)%nat then raise_http 404 "Message not found"
    else ret "Rating updated".

Definition required_keys : list string := ["text"; "chat_id"; "user_id"].

(** [text[:100] + ("..." if len(text) > 100 else "")]; anything but a
    [str] fails with [TypeError] (slicing, or adding a [str] to it). *)
Definition summary (text : value) : handler string :=
  match text with
  | VStr t =>
      ret (py_prefix 100 t ++ (if (100 <? String.length t)%nat then "..." else ""))
  | _ => raise_exc "TypeError"
  end.

(** [create_message(data)].  [new_id] is the [_id] the driver draws for the
    inserted message, [now_message] and [now_chat] the two readings of the
    clock. *)
Definition create_message (new_id : oid) (now_message now_chat : Z)
    (data : gmap string value) : handler (oid * string) :=
  if negb (forallb (fun k => bool_decide (is_Some (data !! k))) required_keys)
  then raise_http 400 ("Missing one of: " ++ required_keys_text)
  else
    let! chat_id := getitem data "chat_id" in
    let! user_id := getitem data "user_id" in
    let! text := getitem data "text" in
    let message_data : gmap string value :=
      {[ "chat_id" := chat_id; "user_id" := user_id; "text" := text;
         "rating" := VInt 0; "timestamp" := VTime now_message ]} in
    let! inserted_id := messages_insert_one new_id message_data in
    let! text' := getitem data "text" in
    let! summary := summary text' in
    let! chat_id' := getitem data "chat_id" in
    let! _ := update_chat chat_id'
                {[ "summary" := VStr summary; "last_timestamp" := VTime now_chat ]} in
    ret (inserted_id, "Message created").

(** The timestamp a listing is sorted by. *)
Definition timestamp_of (msg : oid * gmap string value) : Z :=
  match msg.2 !! "timestamp" with
  | Some (VTime t) => t
  | _ => 0
  end.

Definition timestamp_le (a b : oid * gmap string value) : Prop :=
  timestamp_of a <= timestamp_of b.

#[local] Instance timestamp_le_dec : RelDecision timestamp_le.
Proof. intros a b. unfold timestamp_le. apply _. Defined.

(** [get_messages_by_rating(rating)]: the matching documents, ascending by
    timestamp. *)
Definition get_messages_by_rating (rating : Z) : handler (list (oid * gmap string value)) :=
  if rating_not_in rating then raise_http 400 "Rating must be -1, 0, or 1"
  else fun db =>
    let found := filter (fun kv => kv.2 !! "rating" = Some (VInt rating))
                        (messages_collection db) in
    (db, Return (merge_sort timestamp_le (map_to_list found))).

(** *** Facts about the collection operations *)

Lemma delete_many_lookup (chat_id : string) (db : DB) k m :
  messages_collection (messages_delete_many_chat_id chat_id db).1 !! k = Some m
  <-> messages_collection db !! k = Some m /\ m !! "chat_id" <> Some (VStr chat_id).
Proof.
  unfold messages_delete_many_chat_id; simpl.
  rewrite map_lookup_filter_Some. reflexivity.
Qed.

Lemma delete_many_size (chat_id : string) (db : DB) :
  (size (messages_collection (messages_delete_many_chat_id chat_id db).1)
   + size (filter (fun kv => kv.2 !! "chat_id" = Some (VStr chat_id))
                  (messages_collection db))
   = size (messages_collection db))%nat.
Proof.
  unfold messages_delete_many_chat_id; simpl.
  set (P := fun kv : oid * gmap string value => kv.2 !! "chat_id" = Some (VStr chat_id)).
  rewrite <- (map_filter_union_complement P (messages_collection db)) at 3.
  rewrite map_size_disj_union by apply map_disjoint_filter_complement.
  apply Nat.add_comm.
Qed.

Lemma delete_many_chats (chat_id : string) (db : DB) :
  chats_collection (messages_delete_many_chat_id chat_id db).1 = chats_collection db.
Proof. reflexivity. Qed.

(** What [delete_chat] does on a well-formed id, step by step. *)
Lemma delete_chat_unfold (chat_id : string) (o : oid) (db : DB) :
  ObjectId_of_str chat_id = Some o ->
  delete_chat chat_id db =
    let db1 := (messages_delete_many_chat_id chat_id db).1 in
    match chats_collection db !! o with
    | Some _ =>
        ((chats_delete_one o db1).1, Return "Chat and related messages deleted")
    | None => (db1, HTTPException 404 "Chat not found")
    end.
Proof.
  intros Hid. unfold delete_chat, bind, ObjectId, ret, raise_http. rewrite Hid. simpl.
  unfold chats_delete_one. simpl.
  destruct (chats_collection db !! o); reflexivity.
Qed.

(** A malformed id stops [delete_chat] before anything is deleted. *)
Lemma delete_chat_invalid_id (chat_id : string) (db : DB) :
  ObjectId_of_str chat_id = None ->
  delete_chat chat_id db = (db, Raise "InvalidId").
Proof.
  intros Hid. unfold delete_chat, bind, ObjectId, raise_exc. rewrite Hid. reflexivity.
Qed.

(** A stored message belongs to chat [o] when its [chat_id] field is a
    text of the object id [o]. *)
Definition belongs_to (o : oid) (m : gmap string value) : Prop :=
  exists s, m !! "chat_id" = Some (VStr s) /\ ObjectId_of_str s = Some o.


(** C3: for a chat id that is not in the chats collection, [delete_chat]
    has already deleted every message whose [chat_id] equals that id when
    it reports 404: the state it leaves is the state after the cascade. *)
Theorem delete_chat_missing_still_cascades (chat_id : string) (o : oid) (db : DB)
    (Hid : ObjectId_of_str chat_id = Some o)
    (Hmissing : chats_collection db !! o = None) :
  let (db', result) := delete_chat chat_id db in
  result = HTTPException 404 "Chat not found"
  /\ db' = (messages_delete_many_chat_id chat_id db).1
  /\ chats_collection db' = chats_collection db
  /\ (forall k m, messages_collection db' !! k = Some m <->
                  messages_collection db !! k = Some m
                  /\ m !! "chat_id" <> Some (VStr chat_id))
  /\ (size (messages_collection db')
       + size (filter (fun kv => kv.2 !! "chat_id" = Some (VStr chat_id))
                      (messages_collection db))
       = size (messages_collection db))%nat.
Proof.
  rewrite (delete_chat_unfold chat_id o db Hid), Hmissing. cbv zeta.
  split; [reflexivity|]. split; [reflexivity|]. split; [reflexivity|].
  split; [intros k m; apply delete_many_lookup|apply delete_many_size].
Qed.

(** [update_chat] on an existing chat, when no string timestamp needs
    parsing: the allowed fields are [$set] on the stored document. *)
Lemma update_chat_existing (cid : string) (o : oid) (updates doc : gmap string value)
    (db : DB) :
  ObjectId_of_str cid = Some o ->
  chats_collection db !! o = Some doc ->
  (forall s, updates !! "last_timestamp" <> Some (VStr s)) ->
  update_chat (VStr cid) updates db =
    (mkDB (<[o := filter (fun kv => kv.1 ∈ allowed_fields) updates ∪ doc]>
             (chats_collection db))
          (messages_collection db),
     Return "Chat updated").
Proof.
  intros Hid Hchat Hts. unfold update_chat.
  set (update_data := filter _ updates).
  assert (Hnostr : forall s, update_data !! "last_timestamp" <> Some (VStr s)).
  { intros s Hs. apply map_lookup_filter_Some in Hs as [Hs _]. exact (Hts s Hs). }
  unfold bind.
  destruct (update_data !! "last_timestamp") as [[| | |s|]|] eqn:Hl;
    try (exfalso; exact (Hnostr s eq_refl));
    unfold ret at 1; unfold ObjectId; rewrite Hid; unfold ret at 1;
    unfold chats_update_one_set; cbn [chats_collection messages_collection];
    rewrite Hchat; reflexivity.
Qed.

Lemma summary_updates_allowed (s : string) (t : Z) :
  filter (fun kv : string * value => kv.1 ∈ allowed_fields)
         ({[ "summary" := VStr s; "last_timestamp" := VTime t ]} : gmap string value)
  = {[ "summary" := VStr s; "last_timestamp" := VTime t ]}.
Proof.
  apply map_filter_id. intros i x Hix. simpl.
  apply lookup_insert_Some in Hix as [[<- _]|[_ Hix]].
  - unfold allowed_fields. set_solver.
  - apply lookup_singleton_Some in Hix as [<- _]. unfold allowed_fields. set_solver.
Qed.

(** C5: creating a message sets the parent chat's summary to the first
    100 characters of the text followed by "..." when the text is longer
    than 100 characters, and to the text unchanged (no ellipsis) when its
    length is at most 100. *)
Theorem create_message_sets_summary (new_id : oid) (t1 t2 : Z)
    (data : gmap string value) (text cid : string) (o : oid)
    (doc : gmap string value) (db : DB)
    (Htext : data !! "text" = Some (VStr text))
    (Hcid : data !! "chat_id" = Some (VStr cid))
    (Huser : is_Some (data !! "user_id"))
    (Hid : ObjectId_of_str cid = Some o)
    (Hchat : chats_collection db !! o = Some doc)
    (Hfresh : messages_collection db !! new_id = None) :
  let (db', result) := create_message new_id t1 t2 data db in
  result = Return (new_id, "Message created")
  /\ exists doc', chats_collection db' !! o = Some doc'
     /\ ((100 < String.length text)%nat ->
         doc' !! "summary" = Some (VStr (py_prefix 100 text ++ "..."))
         /\ String.length (py_prefix 100 text) = 100%nat
         /\ exists rest, text = py_prefix 100 text ++ rest)
     /\ ((String.length text <= 100)%nat ->
         doc' !! "summary" = Some (VStr text)).
Proof.
  destruct Huser as [u Hu].
  unfold create_message.
  replace (forallb _ required_keys) with true
    by (simpl; rewrite Htext, Hcid, Hu; reflexivity).
  cbn [negb]. unfold bind, getitem. rewrite Htext, Hcid, Hu. unfold ret at 1 2 3.
  unfold messages_insert_one. rewrite Hfresh. unfold ret at 1. cbn [summary].
  unfold ret at 1 2.
  erewrite update_chat_existing; [| exact Hid | exact Hchat |].
  2:{ intros s Hs. rewrite lookup_insert_ne in Hs by discriminate.
      rewrite lookup_singleton_eq in Hs. discriminate. }
  unfold ret. split; [reflexivity|].
  eexists. cbn [chats_collection]. split; [apply lookup_insert_eq|].
  rewrite summary_updates_allowed.
  split; intros Hlen.
  - split; [|split].
    + apply lookup_union_Some_l. rewrite lookup_insert_eq.
      apply Nat.ltb_lt in Hlen. rewrite Hlen. reflexivity.
    + apply py_prefix_length. lia.
    + apply py_prefix_is_prefix.
  - apply lookup_union_Some_l. rewrite lookup_insert_eq.
    rewrite (proj2 (Nat.ltb_ge _ _) Hlen).
    rewrite py_prefix_all by exact Hlen.
    rewrite append_empty_r. reflexivity.
Qed.

(** *** Rating validation *)

Lemma rating_not_in_false (r : Z) :
  rating_not_in r = false <-> r = -1 \/ r = 0 \/ r = 1.
Proof. unfold rating_not_in. simpl. lia. Qed.

Lemma rating_not_in_true (r : Z) :
  rating_not_in r = true <-> ~ (r = -1 \/ r = 0 \/ r = 1).
Proof. unfold rating_not_in. simpl. lia. Qed.

(** The request body's own "rating" entry plays no part in
    [create_message]. *)
Lemma create_message_ignores_rating (new_id : oid) (t1 t2 : Z)
    (data : gmap string value) (v : value) (db : DB) :
  create_message new_id t1 t2 (<["rating" := v]> data) db
  = create_message new_id t1 t2 data db.
Proof.
  unfold create_message, getitem. simpl.
  rewrite !lookup_insert_ne by discriminate. reflexivity.
Qed.

(** [update_chat] never touches the messages collection. *)
Lemma update_chat_messages (chat_id : value) (updates : gmap string value) (db : DB) :
  messages_collection (update_chat chat_id updates db).1 = messages_collection db.
Proof.
  unfold update_chat, bind.
  destruct (filter _ updates !! "last_timestamp") as [[| | |s|]|];
    try destruct (fromisoformat s);
    unfold ret at 1; unfold raise_exc; try reflexivity;
    (unfold ObjectId;
     destruct chat_id as [| | |c|]; try destruct (ObjectId_of_str c);
     unfold ret, raise_exc; try reflexivity;
     unfold chats_update_one_set;
     match goal with |- context [chats_collection db !! ?o] =>
       destruct (chats_collection db !! o) end; reflexivity).
Qed.

(** [create_message] once the required keys are known to be present and
    the drawn id is fresh: the message is stored first, with rating 0,
    and only then are the summary and the chat update attempted. *)
Lemma create_message_unfold (new_id : oid) (t1 t2 : Z)
    (data : gmap string value) (c u t : value) (db : DB) :
  data !! "chat_id" = Some c ->
  data !! "user_id" = Some u ->
  data !! "text" = Some t ->
  messages_collection db !! new_id = None ->
  create_message new_id t1 t2 data db =
    let db1 := mkDB (chats_collection db)
                    (<[new_id := {[ "chat_id" := c; "user_id" := u; "text" := t;
                                    "rating" := VInt 0; "timestamp" := VTime t1 ]}]>
                       (messages_collection db)) in
    match summary t db1 with
    | (_, Return s) =>
        match update_chat c {[ "summary" := VStr s; "last_timestamp" := VTime t2 ]} db1 with
        | (db2, Return _) => (db2, Return (new_id, "Message created"))
        | (db2, HTTPException code d) => (db2, HTTPException code d)
        | (db2, Raise e) => (db2, Raise e)
        end
    | (_, HTTPException code d) => (db1, HTTPException code d)
    | (_, Raise e) => (db1, Raise e)
    end.
Proof.
  intros Hc Hu Ht Hfresh. unfold create_message.
  replace (forallb _ required_keys) with true
    by (simpl; rewrite Hc, Hu, Ht; reflexivity).
  cbn [negb]. unfold bind, getitem. rewrite Hc, Hu, Ht. unfold ret at 1 2 3.
  unfold messages_insert_one. rewrite Hfresh. unfold ret at 1.
  destruct t; cbn [summary]; unfold raise_exc, ret; try reflexivity.
Qed.

(** A message that [create_message] stores carries rating 0, whatever the
    request body says. *)
Lemma create_message_stores_rating_0 (new_id : oid) (t1 t2 : Z)
    (data : gmap string value) (db : DB) (r : oid * string) :
  (create_message new_id t1 t2 data db).2 = Return r ->
  exists msg,
    messages_collection (create_message new_id t1 t2 data db).1 !! new_id = Some msg
    /\ msg !! "rating" = Some (VInt 0).
Proof.
  destruct (data !! "chat_id") as [c|] eqn:Hc.
  2:{ unfold create_message. simpl. rewrite Hc.
      rewrite (bool_decide_eq_false_2 (is_Some None)) by (intros [? ?]; discriminate).
      simpl. rewrite !andb_false_r. simpl. discriminate. }
  destruct (data !! "user_id") as [u|] eqn:Hu.
  2:{ unfold create_message. simpl. rewrite Hu.
      rewrite (bool_decide_eq_false_2 (is_Some None)) by (intros [? ?]; discriminate).
      simpl. rewrite !andb_false_r. simpl. discriminate. }
  destruct (data !! "text") as [t|] eqn:Ht.
  2:{ unfold create_message. simpl. rewrite Ht.
      rewrite (bool_decide_eq_false_2 (is_Some None)) by (intros [? ?]; discriminate).
      simpl. discriminate. }
  destruct (messages_collection db !! new_id) as [old|] eqn:Hfresh.
  { unfold create_message.
    replace (forallb _ required_keys) with true
      by (simpl; rewrite Hc, Hu, Ht; reflexivity).
    cbn [negb]. unfold bind, getitem. rewrite Hc, Hu, Ht. unfold ret at 1 2 3.
    unfold messages_insert_one. rewrite Hfresh. simpl. discriminate. }
  rewrite (create_message_unfold new_id t1 t2 data c u t db Hc Hu Ht Hfresh).
  cbv zeta.
  remember ({[ "chat_id" := c; "user_id" := u; "text" := t;
               "rating" := VInt 0; "timestamp" := VTime t1 ]} : gmap string value)
    as doc eqn:Hdoc.
  remember (mkDB (chats_collection db) (<[new_id := doc]> (messages_collection db)))
    as db1 eqn:Hdb1.
  destruct t as [| | |txt|]; cbn [summary]; unfold raise_exc, ret.
  1-3, 5: (lazy beta iota delta [snd]; intros Hx; discriminate Hx).
  match goal with |- context [update_chat ?a ?b ?d] =>
    pose proof (update_chat_messages a b d) as Hm;
    destruct (update_chat a b d) as [db2 [x| |]] end;
    cbn [fst snd]; intros Hx; try discriminate Hx.
  clear Hx. cbn [fst snd] in Hm. rewrite Hm, Hdb1. cbn [messages_collection].
  exists doc. split; [apply lookup_insert_eq|].
  rewrite Hdoc. rewrite !lookup_insert_ne by discriminate. apply lookup_insert_eq.
Qed.

(** C4 (as amended): a rating outside {-1, 0, 1} makes
    [update_message_rating] and [get_messages_by_rating] answer 400 and
    leave the database alone, so either succeeds only for a rating in
    {-1, 0, 1}; [create_message] takes no rating: an entry "rating" in the
    request body changes nothing, and a stored message has rating 0. *)
Theorem rating_validation (r : Z) (message_id : string) (v : value)
    (new_id : oid) (t1 t2 : Z) (data : gmap string value) (db : DB) :
  (~ (r = -1 \/ r = 0 \/ r = 1) ->
     update_message_rating message_id r db
     = (db, HTTPException 400 "Rating must be -1, 0, or 1"))
  /\ (forall a, (update_message_rating message_id r db).2 = Return a ->
                r = -1 \/ r = 0 \/ r = 1)
  /\ (~ (r = -1 \/ r = 0 \/ r = 1) ->
        get_messages_by_rating r db
        = (db, HTTPException 400 "Rating must be -1, 0, or 1"))
  /\ (forall l, (get_messages_by_rating r db).2 = Return l ->
                r = -1 \/ r = 0 \/ r = 1)
  /\ create_message new_id t1 t2 (<["rating" := v]> data) db
     = create_message new_id t1 t2 data db
  /\ (forall a, (create_message new_id t1 t2 data db).2 = Return a ->
        exists msg,
          messages_collection (create_message new_id t1 t2 data db).1 !! new_id
          = Some msg
          /\ msg !! "rating" = Some (VInt 0)).
Proof.
  split; [|split; [|split; [|split; [|split]]]].
  - intros Hr. unfold update_message_rating.
    rewrite (proj2 (rating_not_in_true r) Hr). reflexivity.
  - intros a. unfold update_message_rating.
    destruct (rating_not_in r) eqn:Hr; [discriminate|].
    intros _. apply rating_not_in_false. exact Hr.
  - intros Hr. unfold get_messages_by_rating.
    rewrite (proj2 (rating_not_in_true r) Hr). reflexivity.
  - intros l. unfold get_messages_by_rating.
    destruct (rating_not_in r) eqn:Hr; [discriminate|].
    intros _. apply rating_not_in_false. exact Hr.
  - apply create_message_ignores_rating.
  - intros a. apply create_message_stores_rating_0.
Qed.

(** *** Further behaviour of the routes *)

(** [update_chat] on a well-formed id that no chat has: 404, and nothing
    is written. *)
Lemma update_chat_missing (cid : string) (o : oid) (updates : gmap string value)
    (db : DB) :
  ObjectId_of_str cid = Some o ->
  chats_collection db !! o = None ->
  (forall s, updates !! "last_timestamp" <> Some (VStr s)) ->
  update_chat (VStr cid) updates db = (db, HTTPException 404 "Chat not found").
Proof.
  intros Hid Hchat Hts. unfold update_chat.
  set (update_data := filter _ updates).
  assert (Hnostr : forall s, update_data !! "last_timestamp" <> Some (VStr s)).
  { intros s Hs. apply map_lookup_filter_Some in Hs as [Hs _]. exact (Hts s Hs). }
  unfold bind.
  destruct (update_data !! "last_timestamp") as [[| | |s|]|] eqn:Hl;
    try (exfalso; exact (Hnostr s eq_refl));
    unfold ret at 1; unfold ObjectId; rewrite Hid; unfold ret at 1;
    unfold chats_update_one_set; cbn [chats_collection messages_collection];
    rewrite Hchat; reflexivity.
Qed.

(** A message posted to a chat that does not exist is answered with 404
    "Chat not found", and is stored all the same: the insert comes before
    the chat update and is not undone. *)
Theorem create_message_orphan (new_id : oid) (t1 t2 : Z)
    (data : gmap string value) (text cid : string) (u : value) (o : oid) (db : DB) :
  data !! "text" = Some (VStr text) ->
  data !! "chat_id" = Some (VStr cid) ->
  data !! "user_id" = Some u ->
  ObjectId_of_str cid = Some o ->
  chats_collection db !! o = None ->
  messages_collection db !! new_id = None ->
  let (db', result) := create_message new_id t1 t2 data db in
  result = HTTPException 404 "Chat not found"
  /\ chats_collection db' = chats_collection db
  /\ messages_collection db'
     = <[new_id := {[ "chat_id" := VStr cid; "user_id" := u; "text" := VStr text;
                      "rating" := VInt 0; "timestamp" := VTime t1 ]}]>
         (messages_collection db)
  /\ size (messages_collection db') = S (size (messages_collection db)).
Proof.
  intros Htext Hcid Hu Hid Hchat Hfresh.
  rewrite (create_message_unfold new_id t1 t2 data (VStr cid) u (VStr text) db
             Hcid Hu Htext Hfresh).
  cbv zeta. cbn [summary]. unfold ret at 1.
  remember ({[ "chat_id" := VStr cid; "user_id" := u; "text" := VStr text;
               "rating" := VInt 0; "timestamp" := VTime t1 ]} : gmap string value)
    as doc eqn:Hdoc.
  rewrite (update_chat_missing cid o).
  - split; [reflexivity|]. split; [reflexivity|]. split; [reflexivity|].
    cbn [messages_collection]. apply map_size_insert_None, Hfresh.
  - exact Hid.
  - exact Hchat.
  - intros s Hs. rewrite lookup_insert_ne in Hs by discriminate.
    rewrite lookup_singleton_eq in Hs. discriminate Hs.
Qed.

(** A valid rating on an existing message is written to that message and
    to nothing else. *)
Theorem update_message_rating_found (message_id : string) (rating : Z) (o : oid)
    (doc : gmap string value) (db : DB) :
  rating = -1 \/ rating = 0 \/ rating = 1 ->
  ObjectId_of_str message_id = Some o ->
  messages_collection db !! o = Some doc ->
  let (db', result) := update_message_rating message_id rating db in
  result = Return "Rating updated"
  /\ chats_collection db' = chats_collection db
  /\ messages_collection db' !! o = Some (<["rating" := VInt rating]> doc)
  /\ (forall k, k <> o -> messages_collection db' !! k = messages_collection db !! k)
  /\ (forall field, field <> "rating" ->
        <["rating" := VInt rating]> doc !! field = doc !! field).
Proof.
  intros Hr Hid Hmsg. unfold update_message_rating.
  rewrite (proj2 (rating_not_in_false rating) Hr).
  unfold bind, ObjectId. rewrite Hid. unfold ret at 1.
  unfold messages_update_one_set. rewrite Hmsg. cbn [Nat.eqb]. unfold ret.
  cbn [chats_collection messages_collection].
  split; [reflexivity|]. split; [reflexivity|].
  split; [rewrite lookup_insert_eq, insert_union_singleton_l; reflexivity|].
  split.
  - intros k Hk. apply lookup_insert_ne. congruence.
  - intros field Hf. apply lookup_insert_ne. congruence.
Qed.

(** Whatever its arguments, [update_message_rating] neither adds nor
    removes a message, and leaves the chats alone. *)
Theorem update_message_rating_keeps_ids (message_id : string) (rating : Z) (db : DB) :
  chats_collection (update_message_rating message_id rating db).1 = chats_collection db
  /\ dom (messages_collection (update_message_rating message_id rating db).1)
     = dom (messages_collection db).
Proof.
  unfold update_message_rating.
  destruct (rating_not_in rating); [split; reflexivity|].
  unfold bind, ObjectId, ret, raise_exc, raise_http, messages_update_one_set.
  destruct (ObjectId_of_str message_id) as [o|]; [|split; reflexivity].
  destruct (messages_collection db !! o) as [doc|] eqn:Hmsg; [|split; reflexivity].
  cbn [Nat.eqb fst chats_collection messages_collection].
  split; [reflexivity|].
  rewrite dom_insert_L. apply subseteq_union_1_L, singleton_subseteq_l.
  apply elem_of_dom_2 in Hmsg. exact Hmsg.
Qed.

(** A field outside [allowed_fields] in the request body of [update_chat]
    is dropped: the call behaves as if it had not been sent. *)
Theorem update_chat_drops_other_fields (chat_id : value) (updates : gmap string value)
    (field : string) (v : value) (db : DB) :
  field <> "summary" -> field <> "last_timestamp" ->
  update_chat chat_id (<[field := v]> updates) db
  = update_chat chat_id (delete field updates) db.
Proof.
  intros Hs Hl. unfold update_chat.
  assert (filter (fun kv : string * value => kv.1 ∈ allowed_fields) (<[field := v]> updates)
          = filter (fun kv : string * value => kv.1 ∈ allowed_fields) (delete field updates))
    as ->; [|reflexivity].
  apply map_filter_insert_False. cbn [fst]. unfold allowed_fields.
  rewrite !elem_of_cons, elem_of_nil. intros [-> | [-> | []]]; congruence.
Qed.

#[local] Instance timestamp_le_total : Total timestamp_le.
Proof. intros a b. unfold timestamp_le. lia. Qed.

(** The listing by rating holds exactly the stored messages that carry the
    rating, in ascending order of timestamp, and reads only. *)
Theorem get_messages_by_rating_listing (rating : Z) (db : DB) :
  rating = -1 \/ rating = 0 \/ rating = 1 ->
  exists l,
    get_messages_by_rating rating db = (db, Return l)
    /\ Sorted timestamp_le l
    /\ NoDup l
    /\ forall k msg, (k, msg) ∈ l <->
         messages_collection db !! k = Some msg /\ msg !! "rating" = Some (VInt rating).
Proof.
  intros Hr. unfold get_messages_by_rating.
  rewrite (proj2 (rating_not_in_false rating) Hr).
  eexists. split; [reflexivity|].
  split; [apply (Sorted_merge_sort timestamp_le)|].
  split.
  - rewrite merge_sort_Permutation. apply NoDup_map_to_list.
  - intros k msg. rewrite merge_sort_Permutation, elem_of_map_to_list.
    rewrite map_lookup_filter_Some. reflexivity.
Qed.

(** Deleting a chat a second time finds nothing left to delete: 404, and
    the database stays as the first call left it. *)
Theorem delete_chat_twice (chat_id : string) (o : oid) (doc : gmap string value)
    (db : DB) :
  ObjectId_of_str chat_id = Some o ->
  chats_collection db !! o = Some doc ->
  let db1 := (delete_chat chat_id db).1 in
  (delete_chat chat_id db).2 = Return "Chat and related messages deleted"
  /\ delete_chat chat_id db1 = (db1, HTTPException 404 "Chat not found").
Proof.
  intros Hid Hchat. cbv zeta.
  rewrite (delete_chat_unfold chat_id o db Hid). cbv zeta. rewrite Hchat.
  cbn [fst snd]. split; [reflexivity|].
  assert ((chats_delete_one o (messages_delete_many_chat_id chat_id db).1).1
          = mkDB (delete o (chats_collection db))
                 (filter (fun kv => kv.2 !! "chat_id" <> Some (VStr chat_id))
                         (messages_collection db))) as ->.
  { unfold chats_delete_one, messages_delete_many_chat_id.
    cbn [fst chats_collection messages_collection]. rewrite Hchat. reflexivity. }
  rewrite (delete_chat_unfold chat_id o _ Hid). cbv zeta.
  cbn [chats_collection]. rewrite lookup_delete_eq. f_equal.
  unfold messages_delete_many_chat_id. cbn [fst chats_collection messages_collection].
  f_equal. apply map_filter_id. intros k m Hk.
  apply map_lookup_filter_Some in Hk. cbn [snd]. exact (proj2 Hk).
Qed.

End Store.

(** A concrete reading of [ObjectId(str)] for the examples: the text form
    of an object id is 24 hexadecimal digits, and the value is that text
    with its letters in lower case. *)
Definition is_hex (c : ascii) : bool :=
  let n := nat_of_ascii c in
  ((48 <=? n) && (n <=? 57) || (97 <=? n) && (n <=? 102) || (65 <=? n) && (n <=? 70))%nat.

Definition lower_ascii (c : ascii) : ascii :=
  let n := nat_of_ascii c in
  if ((65 <=? n) && (n <=? 90))%nat then ascii_of_nat (n + 32) else c.

Definition hex24 (s : string) : option string :=
  let cs := list_ascii_of_string s in
  if (length cs =? 24)%nat && forallb is_hex cs
  then Some (string_of_list_ascii (map lower_ascii cs))
  else None.

Definition no_iso (s : string) : option Z := None.

(** The id made up for [ObjectId(None)], and one print of [required_keys]. *)
Definition new_oid : string := "999999999999999999999999".
Definition keys_text : string := "{'text', 'chat_id', 'user_id'}".


(** *** A small database for the examples *)

Definition chat_a : string := "aaaaaaaaaaaaaaaaaaaaaaaa".
Definition chat_b : string := "bbbbbbbbbbbbbbbbbbbbbbbb".
Definition msg_1 : string := "111111111111111111111111".
Definition msg_2 : string := "222222222222222222222222".
Definition msg_3 : string := "333333333333333333333333".
Definition msg_4 : string := "444444444444444444444444".

Definition message_doc (chat_id text : string) (ts : Z) : gmap string value :=
  {[ "chat_id" := VStr chat_id; "user_id" := VStr "u1"; "text" := VStr text;
     "rating" := VInt 0; "timestamp" := VTime ts ]}.

(** Chat [chat_a] with two messages, and one message left behind by a chat
    [chat_b] that no longer exists. *)
Definition db0 : DB (oid := string) :=
  mkDB {[ chat_a := {[ "summary" := VStr "hello"; "user_id" := VStr "u1";
                       "last_timestamp" := VTime 5 ]} ]}
       {[ msg_1 := message_doc chat_a "hello" 1;
          msg_2 := message_doc chat_a "again" 2;
          msg_3 := message_doc chat_b "orphan" 3 ]}.


(** C2, counterexamples.  [chat_a] written in capitals is the same object
    id: deleting by that text removes the chat and reports success, and
    both messages of the chat are still there.  And a text that is no
    object id, for which no chat exists, is answered with [InvalidId], not
    with 404. *)
Definition chat_a_capitals : string := "AAAAAAAAAAAAAAAAAAAAAAAA".


(** Deleting the missing [chat_b] from [db0]: the hypotheses of
    [delete_chat_missing_still_cascades] hold and the theorem applies. *)
Lemma delete_chat_missing_witness :
  hex24 chat_b = Some chat_b
  /\ chats_collection db0 !! chat_b = None
  /\ let (db', result) := delete_chat hex24 new_oid chat_b db0 in
     result = HTTPException 404 "Chat not found"
     /\ db' = (messages_delete_many_chat_id chat_b db0).1.
Proof.
  split; [vm_compute; reflexivity|].
  split; [vm_compute; reflexivity|].
  pose proof (delete_chat_missing_still_cascades hex24 new_oid chat_b chat_b db0 eq_refl eq_refl)
    as Hw.
  destruct (delete_chat hex24 new_oid chat_b db0) as [db' result].
  destruct Hw as (Hr & Hdb & _).
  exact (conj Hr Hdb).
Defined.

(** On [db0] the 404 answer has cost a message: the one that carried the
    missing chat's id was there before the call and is gone after it. *)
Example delete_chat_404_removed_message :
  (delete_chat hex24 new_oid chat_b db0).2 = HTTPException 404 "Chat not found"
  /\ messages_collection db0 !! msg_3 = Some (message_doc chat_b "orphan" 3)
  /\ messages_collection (delete_chat hex24 new_oid chat_b db0).1 !! msg_3 = None
  /\ size (messages_collection (delete_chat hex24 new_oid chat_b db0).1) = 2%nat.
Proof. repeat split; vm_compute; reflexivity. Qed.

(** A text of 120 characters. *)
Definition long_text : string := string_of_list_ascii (repeat "x"%char 120).

Definition new_message (text : string) : gmap string value :=
  {[ "text" := VStr text; "chat_id" := VStr chat_a; "user_id" := VStr "u1" ]}.

(** Creating a 120-character message in [chat_a]: the hypotheses of
    [create_message_sets_summary] hold and the theorem applies. *)
Lemma create_message_sets_summary_witness :
  let (db', result) := create_message hex24 new_oid no_iso keys_text msg_4 10 11 (new_message long_text) db0 in
  result = Return (msg_4, "Message created")
  /\ exists doc', chats_collection db' !! chat_a = Some doc'
     /\ ((100 < String.length long_text)%nat ->
         doc' !! "summary" = Some (VStr (py_prefix 100 long_text ++ "..."))
         /\ String.length (py_prefix 100 long_text) = 100%nat
         /\ exists rest, long_text = py_prefix 100 long_text ++ rest)
     /\ ((String.length long_text <= 100)%nat ->
         doc' !! "summary" = Some (VStr long_text)).
Proof.
  refine (create_message_sets_summary hex24 new_oid no_iso keys_text msg_4 10 11 (new_message long_text)
            long_text chat_a chat_a _ db0 _ _ _ _ _ _).
  - vm_compute; reflexivity.
  - vm_compute; reflexivity.
  - exists (VStr "u1"). vm_compute; reflexivity.
  - vm_compute; reflexivity.
  - vm_compute; reflexivity.
  - vm_compute; reflexivity.
Defined.

(** C4, counterexample: a creation request that carries rating 2 is not
    rejected; the message is created, and stored with rating 0. *)
Lemma create_message_accepts_rating_2 :
  let data := <["rating" := VInt 2]> (new_message "hi") in
  let run := create_message hex24 new_oid no_iso keys_text msg_4 10 11 data db0 in
  data !! "rating" = Some (VInt 2)
  /\ ~ (2 = -1 \/ 2 = 0 \/ 2 = 1)
  /\ run.2 = Return (msg_4, "Message created")
  /\ run.2 <> HTTPException 400 "Rating must be -1, 0, or 1"
  /\ exists msg, messages_collection run.1 !! msg_4 = Some msg
                 /\ msg !! "rating" = Some (VInt 0).
Proof.
  cbv zeta.
  split; [vm_compute; reflexivity|]. split; [lia|].
  split; [vm_compute; reflexivity|].
  split; [vm_compute; discriminate|].
  eexists. split; vm_compute; reflexivity.
Qed.

(** A request whose [chat_id] is null: [ObjectId(None)] makes up an id
    that no chat has, so the answer is 404, after the message was stored. *)
Example create_message_null_chat_id :
  let data : gmap string value :=
    {[ "text" := VStr "hi"; "chat_id" := VNull; "user_id" := VStr "u1" ]} in
  let run := create_message hex24 new_oid no_iso keys_text msg_4 10 11 data db0 in
  run.2 = HTTPException 404 "Chat not found"
  /\ is_Some (messages_collection run.1 !! msg_4).
Proof.
  cbv zeta. split; [vm_compute; reflexivity|].
  eexists. vm_compute. reflexivity.
Qed.

(** *** The further behaviour, on [db0] *)

Lemma delete_chat_invalid_id_witness :
  hex24 "not-an-object-id" = None
  /\ delete_chat hex24 new_oid "not-an-object-id" db0 = (db0, Raise "InvalidId").
Proof.
  split; [vm_compute; reflexivity|].
  apply (delete_chat_invalid_id hex24 new_oid). vm_compute; reflexivity.
Defined.

(** A message for the missing [chat_b]: refused with 404, and stored. *)
Definition orphan_message : gmap string value :=
  {[ "text" := VStr "hi"; "chat_id" := VStr chat_b; "user_id" := VStr "u1" ]}.

Lemma create_message_orphan_witness :
  let (db', result) := create_message hex24 new_oid no_iso keys_text msg_4 10 11 orphan_message db0 in
  result = HTTPException 404 "Chat not found"
  /\ chats_collection db' = chats_collection db0
  /\ size (messages_collection db') = S (size (messages_collection db0)).
Proof.
  pose proof (create_message_orphan hex24 new_oid no_iso keys_text msg_4 10 11 orphan_message
                "hi" chat_b (VStr "u1") chat_b db0) as Hw.
  destruct (create_message hex24 new_oid no_iso keys_text msg_4 10 11 orphan_message db0) as [db' result].
  destruct Hw as (Hr & Hc & _ & Hs).
  - vm_compute; reflexivity.
  - vm_compute; reflexivity.
  - vm_compute; reflexivity.
  - vm_compute; reflexivity.
  - vm_compute; reflexivity.
  - vm_compute; reflexivity.
  - exact (conj Hr (conj Hc Hs)).
Defined.

Lemma update_message_rating_found_witness :
  let (db', result) := update_message_rating hex24 new_oid msg_1 1 db0 in
  result = Return "Rating updated"
  /\ messages_collection db' !! msg_1
     = Some (<["rating" := VInt 1]> (message_doc chat_a "hello" 1))
  /\ messages_collection db' !! msg_2 = messages_collection db0 !! msg_2.
Proof.
  pose proof (update_message_rating_found hex24 new_oid msg_1 1 msg_1
                (message_doc chat_a "hello" 1) db0) as Hw.
  destruct (update_message_rating hex24 new_oid msg_1 1 db0) as [db' result].
  destruct Hw as (Hr & _ & Hm & Hothers & _).
  - right; right; reflexivity.
  - vm_compute; reflexivity.
  - vm_compute; reflexivity.
  - split; [exact Hr|]. split; [exact Hm|].
    apply Hothers. intros E; discriminate E.
Defined.

Lemma update_chat_drops_other_fields_witness :
  let updates : gmap string value := {[ "summary" := VStr "renamed" ]} in
  update_chat hex24 new_oid no_iso (VStr chat_a) (<["user_id" := VStr "u2"]> updates) db0
  = update_chat hex24 new_oid no_iso (VStr chat_a) (delete "user_id" updates) db0.
Proof.
  cbv zeta. apply (update_chat_drops_other_fields hex24 new_oid no_iso);
    intros E; discriminate E.
Defined.

Lemma get_messages_by_rating_listing_witness :
  exists l,
    get_messages_by_rating 0 db0 = (db0, Return l)
    /\ Sorted timestamp_le l
    /\ NoDup l
    /\ forall k msg, (k, msg) ∈ l <->
         messages_collection db0 !! k = Some msg /\ msg !! "rating" = Some (VInt 0).
Proof.
  apply (get_messages_by_rating_listing 0 db0). right; left; reflexivity.
Defined.

Lemma delete_chat_twice_witness :
  let db1 := (delete_chat hex24 new_oid chat_a db0).1 in
  (delete_chat hex24 new_oid chat_a db0).2 = Return "Chat and related messages deleted"
  /\ delete_chat hex24 new_oid chat_a db1 = (db1, HTTPException 404 "Chat not found").
Proof.
  refine (delete_chat_twice hex24 new_oid chat_a chat_a _ db0 _ _); vm_compute; reflexivity.
Defined.

End WebAPI.

(** * The ONC API client (src/database_search/onc_api_client.py) *)

Module ONCClient.

#[local] Set Warnings "-register-all".

(** Values decoded from JSON, and the dicts and lists the client builds.
    A [JDict] holds each key once, in insertion order. *)
Inductive json :=
| JNone
| JBool (b : bool)
| JInt (z : Z)
| JFloat (f : float)
| JStr (s : string)
| JList (l : list json)
| JDict (d : list (string * json)).

(** A call either returns or lets an exception escape. *)
Inductive py (A : Type) :=
| Ok (a : A)
| Exc (e : string).
Arguments Ok {A} a.
Arguments Exc {A} e.

Definition py_bind {A B} (m : py A) (k : A -> py B) : py B :=
  match m with
  | Ok a => k a
  | Exc e => Exc e
  end.

Notation "'try!' x ':=' m 'in' k" := (py_bind m (fun x => k))
  (at level 10, x pattern, m at level 100, k at level 200).

(** [for x in xs: ...] collecting results, stopping at the first exception. *)
Fixpoint py_for {A B} (f : A -> py B) (xs : list A) : py (list B) :=
  match xs with
  | [] => Ok []
  | x :: xs' =>
      try! y := f x in
      try! ys := py_for f xs' in
      Ok (y :: ys)
  end.

(** *** dict operations *)

Fixpoint assoc (k : string) (d : list (string * json)) : option json :=
  match d with
  | [] => None
  | (k', v) :: d' => if String.eqb k k' then Some v else assoc k d'
  end.

(** [d[k] = v] *)
Fixpoint dict_set (k : string) (v : json) (d : list (string * json))
    : list (string * json) :=
  match d with
  | [] => [(k, v)]
  | (k', v') :: d' =>
      if String.eqb k k' then (k, v) :: d' else (k', v') :: dict_set k v d'
  end.

(** [k in x] for a dict [x] *)
Definition has_key (k : string) (d : list (string * json)) : bool :=
  match assoc k d with
  | Some _ => true
  | None => false
  end.

(** [x.get(k, default)]: [AttributeError] unless [x] is a dict. *)
Definition get (x : json) (k : string) (default : json) : py json :=
  match x with
  | JDict d =>
      match assoc k d with
      | Some v => Ok v
      | None => Ok default
      end
  | _ => Exc "AttributeError"
  end.

(** Truth value of an object ([not x] is its negation). *)
Definition truthy (x : json) : bool :=
  match x with
  | JNone => false
  | JBool b => b
  | JInt z => negb (z =? 0)%Z
  | JFloat f => negb (PrimFloat.eqb f 0%float)
  | JStr s => negb (String.eqb s "")
  | JList l => match l with [] => false | _ => true end
  | JDict d => match d with [] => false | _ => true end
  end.

(** [x == 0] *)
Definition eq_zero (x : json) : bool :=
  match x with
  | JBool b => negb b
  | JInt z => (z =? 0)%Z
  | JFloat f => PrimFloat.eqb f 0%float
  | _ => false
  end.

Definition one_char (c : ascii) : string := String c EmptyString.

(** [x[-1]] on an object whose truth value is true. *)
Definition last_item (x : json) : py json :=
  match x with
  | JList l =>
      match List.last (map Some l) None with
      | Some v => Ok v
      | None => Exc "IndexError"
      end
  | JStr s =>
      match List.last (map Some (list_ascii_of_string s)) None with
      | Some c => Ok (JStr (one_char c))
      | None => Exc "IndexError"
      end
  | JDict d => Exc "KeyError"
  | _ => Exc "TypeError"
  end.

(** [len(x)] *)
Definition len (x : json) : py Z :=
  match x with
  | JList l => Ok (Z.of_nat (length l))
  | JStr s => Ok (Z.of_nat (String.length s))
  | JDict d => Ok (Z.of_nat (length d))
  | _ => Exc "TypeError"
  end.

(** [x == s] for a [str] [s] *)
Definition eq_str (x : json) (s : string) : bool :=
  match x with
  | JStr s' => String.eqb s' s
  | _ => false
  end.

(** [isinstance(x, list)] *)
Definition isinstance_list (x : json) : bool :=
  match x with
  | JList _ => true
  | _ => false
  end.

(** [k in x]: key membership for a dict, element membership for a list,
    substring test for a [str], [TypeError] otherwise. *)
Definition contains (x : json) (k : string) : py bool :=
  match x with
  | JDict d => Ok (has_key k d)
  | JList l => Ok (existsb (fun y => eq_str y k) l)
  | JStr s => Ok (py_in k s)
  | _ => Exc "TypeError"
  end.

(** What the HTTP session answers to one GET.  [body] is
    [response.json()], with [Exc] for a body that does not decode (with
    requests 2.27 or later that failure is itself a [RequestException]
    and arrives as one). *)
Inductive http_reply :=
| Response (status_code : Z) (text : string) (body : py json) (request_time : float)
| Timeout
| RequestException (message : string).

Definition string_of_Z (z : Z) : string :=
  DecimalString.NilZero.string_of_int (Z.to_int z).

(** [s.endswith(suffix)]: some tail of [s] is [suffix]. *)
Fixpoint endswith (suffix s : string) : bool :=
  String.eqb s suffix ||
  match s with
  | String _ s' => endswith suffix s'
  | EmptyString => false
  end.

(** [s.rstrip(ch)] for a single character [ch]. *)
Fixpoint rstrip_char (ch : ascii) (s : string) : string :=
  match s with
  | String c s' =>
      match rstrip_char ch s' with
      | EmptyString => if Ascii.eqb c ch then EmptyString else String c EmptyString
      | rest => String c rest
      end
  | EmptyString => EmptyString
  end.

(** The date formatting of [get_scalar_data] (lines 193-209). *)
Definition onc_date (d : string) : string :=
  if endswith ".000Z" d then d
  else if py_in "T" d then rstrip_char "Z" d ++ ".000Z"
  else d ++ "T00:00:00.000Z".

Section Client.

(** [self.token] and the remote service. *)
Variable token : string.
Variable session_get : string -> list (string * json) -> http_reply.

Definition base_url : string := "https://data.oceannetworks.ca/api".
Definition timeout : Z := 30.

(** [_make_request(endpoint, params)] (rate limiting only delays the
    call and is left out). *)
Definition _make_request (endpoint : string) (params : list (string * json)) : py json :=
  let params := dict_set "token" (JStr token) params in
  let url := base_url ++ "/" ++ endpoint in
  match session_get url params with
  | Response status_code text body request_time =>
      if negb (status_code =? 200)%Z then
        Ok (JDict [("error", JStr ("HTTP " ++ string_of_Z status_code));
                   ("message", JStr text);
                   ("_debug_info",
                    JDict [("url", JStr url); ("params", JDict params);
                           ("status_code", JInt status_code);
                           ("request_time", JFloat request_time)])])
      else
        match body with
        | Exc e =>
            Ok (JDict [("error", JStr "json_parse_error");
                       ("message", JStr e);
                       ("_debug_info",
                        JDict [("url", JStr url); ("params", JDict params);
                               ("raw_response", JStr (py_prefix 1000 text))])])
        | Ok response_data =>
            let debug_info :=
              JDict [("url", JStr url); ("params", JDict params);
                     ("status_code", JInt status_code);
                     ("request_time", JFloat request_time);
                     ("response_size", JInt (Z.of_nat (String.length text)))] in
            if isinstance_list response_data then
              Ok (JDict [("data", response_data); ("_debug_info", debug_info)])
            else
              match response_data with
              | JDict d => Ok (JDict (dict_set "_debug_info" debug_info d))
              | _ => Exc "TypeError"
              end
        end
  | Timeout =>
      Ok (JDict [("error", JStr "timeout");
                 ("message", JStr "Request timed out");
                 ("_debug_info",
                  JDict [("url", JStr url); ("params", JDict params);
                         ("timeout", JInt timeout)])])
  | RequestException e =>
      Ok (JDict [("error", JStr "request_failed");
                 ("message", JStr e);
                 ("_debug_info",
                  JDict [("url", JStr url); ("params", JDict params);
                         ("exception", JStr e)])])
  end.

(** [bool(device_category)] for the optional argument. *)
Definition given (device_category : option string) : bool :=
  match device_category with
  | Some c => truthy (JStr c)
  | None => false
  end.

(** [get_devices(location_code, device_category=None)] *)
Definition get_devices (location_code : string) (device_category : option string)
    : py (list json) :=
  let params := [("locationCode", JStr location_code)] in
  let params :=
    match device_category with
    | Some c => if given device_category
                then dict_set "deviceCategoryCode" (JStr c) params else params
    | None => params
    end in
  try! response := _make_request "devices" params in
  try! failed := contains response "error" in
  if failed then Ok []
  else
    let devices :=
      match response with
      | JList l => if isinstance_list response then l else []
      | _ => []
      end in
    if given device_category
       && negb (existsb (has_key "deviceCategoryCode") [params])
    then
      try! kept :=
        py_for (fun d => try! c := get d "deviceCategoryCode" JNone in
                         Ok (d, match device_category with
                                | Some c' => eq_str c c'
                                | None => false
                                end)) devices in
      Ok (map fst (filter (fun dk => snd dk = true) kept))
    else Ok devices.

(** The device list [search_data] takes from the same request
    (lines 277-291). *)
Definition search_data_devices (location_code device_category : string) : py json :=
  try! devices_response :=
    _make_request "devices" [("locationCode", JStr location_code);
                             ("deviceCategoryCode", JStr device_category)] in
  match devices_response with
  | JDict d =>
      if has_key "error" d then Ok (JList [])
      else match assoc "data" d with
           | Some devices => Ok devices
           | None => Ok (JList [])
           end
  | JList l => Ok (JList l)
  | _ => Ok (JList [])
  end.

(** [get_scalar_data]: the parameters it sends.  A date that is given (and
    not empty) is brought to the form the service takes. *)
Definition scalar_data_params (device_code : string) (date_from date_to : option string)
    (row_limit : Z) : list (string * json) :=
  let params := [("deviceCode", JStr device_code); ("rowLimit", JInt row_limit)] in
  let params :=
    match date_from with
    | Some d => if truthy (JStr d) then dict_set "dateFrom" (JStr (onc_date d)) params
                else params
    | None => params
    end in
  match date_to with
  | Some d => if truthy (JStr d) then dict_set "dateTo" (JStr (onc_date d)) params
              else params
  | None => params
  end.

(** [get_scalar_data(device_code, property_code, date_from, date_to, row_limit)];
    [property_code] is not used. *)
Definition get_scalar_data (device_code : string) (property_code : option string)
    (date_from date_to : option string) (row_limit : Z) : py json :=
  let params := scalar_data_params device_code date_from date_to row_limit in
  try! response := _make_request "scalardata/device" params in
  try! failed := contains response "error" in
  if failed then Ok (JDict [("sensorData", JList [])]) else Ok response.

(** [get_raw_data(device_code, date_from, date_to, row_limit, output_format)] *)
Definition get_raw_data (device_code : string) (date_from date_to : option string)
    (row_limit : Z) (output_format : string) : py json :=
  let params := [("deviceCode", JStr device_code); ("rowLimit", JInt row_limit);
                 ("outputFormat", JStr output_format)] in
  let params :=
    match date_from with
    | Some d => if truthy (JStr d) then dict_set "dateFrom" (JStr d) params else params
    | None => params
    end in
  let params :=
    match date_to with
    | Some d => if truthy (JStr d) then dict_set "dateTo" (JStr d) params else params
    | None => params
    end in
  try! response := _make_request "rawdata/device" params in
  try! failed := contains response "error" in
  if failed then Ok (JDict [("data", JList [])]) else Ok response.

End Client.

(** [format_sensor_data]: one turn of the loop; [None] is [continue]. *)
Definition format_sensor (sensor : json) : py (option json) :=
  try! sensor_name := get sensor "sensorName" (JStr "Unknown Sensor") in
  try! property_code := get sensor "propertyCode" (JStr "Unknown Property") in
  try! unit := get sensor "unitOfMeasure" (JStr "") in
  try! data := get sensor "data" (JDict []) in
  try! values := get data "values" (JList []) in
  try! sample_times := get data "sampleTimes" (JList []) in
  try! qaqc_flags := get data "qaqcFlags" (JList []) in
  if negb (truthy values) || negb (truthy sample_times) then Ok None
  else
    try! latest_value := (if truthy values then last_item values else Ok JNone) in
    try! latest_time :=
      (if truthy sample_times then last_item sample_times else Ok JNone) in
    try! latest_qaqc :=
      (if truthy qaqc_flags then last_item qaqc_flags else Ok JNone) in
    try! total_readings := len values in
    Ok (Some (JDict [("sensor_name", sensor_name);
                     ("property_code", property_code);
                     ("unit", unit);
                     ("latest_value", latest_value);
                     ("latest_time", latest_time);
                     ("qaqc_flag", latest_qaqc);
                     ("qaqc_status",
                      JStr (if eq_zero latest_qaqc then "Passed" else "Check Required"));
                     ("total_readings", JInt total_readings);
                     ("all_values", values);
                     ("all_times", sample_times)])).

(** [format_sensor_data(sensor_data)] *)
Definition format_sensor_data (sensor_data : list json) : py (list json) :=
  try! formatted := py_for format_sensor sensor_data in
  Ok (omap id formatted).


(** *** What [_make_request] and [get_devices] return *)

Section ClientFacts.

Variable token : string.
Variable session_get : string -> list (string * json) -> http_reply.

(** Whatever the service answers, [_make_request] hands back a dict. *)
Lemma make_request_returns_dict (endpoint : string) (params : list (string * json))
    (r : json) :
  _make_request token session_get endpoint params = Ok r ->
  exists d, r = JDict d.
Proof.
  unfold _make_request.
  destruct (session_get _ _) as [code text body t| |e].
  - destruct (negb (code =? 200)%Z).
    + intros [= <-]. eexists; reflexivity.
    + destruct body as [j|e].
      * destruct (isinstance_list j); [intros [= <-]; eexists; reflexivity|].
        destruct j; try discriminate. intros [= <-]. eexists; reflexivity.
      * intros [= <-]. eexists; reflexivity.
  - intros [= <-]. eexists; reflexivity.
  - intros [= <-]. eexists; reflexivity.
Qed.

Lemma has_key_dict_set (k : string) (v : json) (d : list (string * json)) :
  has_key k (dict_set k v d) = true.
Proof.
  unfold has_key. induction d as [|[k' v'] d IH]; simpl.
  - rewrite String.eqb_refl. reflexivity.
  - destruct (String.eqb k k') eqn:E; simpl.
    + rewrite String.eqb_refl. reflexivity.
    + rewrite E. exact IH.
Qed.

(** [get_devices] never returns a device: when it returns, it returns the
    empty list. *)
Lemma get_devices_empty (location_code : string) (device_category : option string)
    (devices : list json) :
  get_devices token session_get location_code device_category = Ok devices ->
  devices = [].
Proof.
  unfold get_devices.
  set (params := match device_category with Some _ => _ | None => _ end).
  destruct (_make_request token session_get "devices" params) as [r|e] eqn:Hr;
    [|discriminate].
  destruct (make_request_returns_dict _ _ _ Hr) as [d ->].
  cbn [py_bind contains].
  destruct (has_key "error" d); [intros [= <-]; reflexivity|].
  assert (Hcond : given device_category
                  && negb (existsb (has_key "deviceCategoryCode") [params]) = false).
  { subst params. destruct device_category as [c|]; [|reflexivity].
    destruct (given (Some c)); [|reflexivity].
    cbn [existsb]. rewrite has_key_dict_set. reflexivity. }
  rewrite Hcond. intros [= <-]. reflexivity.
Qed.

End ClientFacts.

(** The devices endpoint answering 200 with a list of one CTD. *)
Definition one_ctd : json :=
  JDict [("deviceCode", JStr "SBECTD19p7128"); ("deviceCategoryCode", JStr "CTD")].

Definition devices_ok (url : string) (params : list (string * json)) : http_reply :=
  Response 200 "[{...}]" (Ok (JList [one_ctd])) 0.25%float.

(** C1, at the failing input: the devices endpoint reports one device,
    [search_data] reads it out of the wrapped answer, and [get_devices]
    returns the empty list, with or without a category filter. *)
Theorem get_devices_drops_reported_devices :
  _make_request "t" devices_ok "devices" [("locationCode", JStr "CBYIP")]
  = Ok (JDict [("data", JList [one_ctd]);
               ("_debug_info",
                JDict [("url", JStr "https://data.oceannetworks.ca/api/devices");
                       ("params", JDict [("locationCode", JStr "CBYIP");
                                         ("token", JStr "t")]);
                       ("status_code", JInt 200);
                       ("request_time", JFloat 0.25%float);
                       ("response_size", JInt 7)])])
  /\ search_data_devices "t" devices_ok "CBYIP" "CTD" = Ok (JList [one_ctd])
  /\ get_devices "t" devices_ok "CBYIP" None = Ok []
  /\ get_devices "t" devices_ok "CBYIP" (Some "CTD") = Ok [].
Proof. repeat split; vm_compute; reflexivity. Qed.

(** *** [format_sensor_data] *)

Lemma py_for_ok {A B} (f : A -> py B) (xs : list A) (ys : list B) :
  py_for f xs = Ok ys -> Forall2 (fun x y => f x = Ok y) xs ys.
Proof.
  revert ys; induction xs as [|x xs IH]; intros ys; simpl.
  - intros [= <-]. constructor.
  - destruct (f x) as [y|e] eqn:Hx; [|discriminate]. simpl.
    destruct (py_for f xs) as [ys'|e]; [|discriminate]. simpl.
    intros [= <-]. constructor; [exact Hx | apply IH; reflexivity].
Qed.

(** The reads the loop makes of one raw sensor. *)
Definition readings (sensor : json) (key : string) : py json :=
  try! data := get sensor "data" (JDict []) in
  get data key (JList []).

(** A sensor has no readings under [key] when the list is absent or empty. *)
Definition lacks (sensor : json) (key : string) : Prop :=
  exists v, readings sensor key = Ok v /\ truthy v = false.

(** The flag the loop calls [latest_qaqc]. *)
Definition latest_qaqc (sensor : json) : py json :=
  try! qaqc_flags := readings sensor "qaqcFlags" in
  if truthy qaqc_flags then last_item qaqc_flags else Ok JNone.

Lemma format_sensor_skips (sensor : json) :
  lacks sensor "values" \/ lacks sensor "sampleTimes" ->
  format_sensor sensor = Ok None.
Proof.
  unfold lacks, readings, format_sensor.
  destruct sensor as [| | | | | |d]; try (intros [[v [Hv _]]|[v [Hv _]]]; discriminate).
  cbn [get py_bind].
  destruct (assoc "sensorName" d); destruct (assoc "propertyCode" d);
    destruct (assoc "unitOfMeasure" d); cbn [py_bind];
    (destruct (match assoc "data" d with Some v => Ok v | None => Ok (JDict []) end)
       as [data|e]; cbn [py_bind];
     [|intros [[v [Hv _]]|[v [Hv _]]]; discriminate]);
    (destruct data as [| | | | | |dd];
     try (intros [[v [Hv _]]|[v [Hv _]]]; discriminate));
    cbn [get py_bind];
    intros [[v [Hv Hf]]|[v [Hv Hf]]];
    destruct (assoc "values" dd) as [vs|]; destruct (assoc "sampleTimes" dd) as [ts|];
    destruct (assoc "qaqcFlags" dd); cbn [py_bind] in *;
    injection Hv as <-; rewrite ?Hf; cbn [truthy negb orb];
    rewrite ?orb_true_r; reflexivity.
Qed.

Lemma format_sensor_kept (sensor e : json) :
  format_sensor sensor = Ok (Some e) ->
  exists flag,
    latest_qaqc sensor = Ok flag
    /\ get e "qaqc_flag" JNone = Ok flag
    /\ get e "qaqc_status" JNone
       = Ok (JStr (if eq_zero flag then "Passed" else "Check Required"))
    /\ ~ lacks sensor "values" /\ ~ lacks sensor "sampleTimes".
Proof.
  unfold format_sensor, latest_qaqc, lacks, readings.
  destruct sensor as [| | | | | |d]; try discriminate.
  cbn [get py_bind].
  destruct (assoc "sensorName" d); destruct (assoc "propertyCode" d);
    destruct (assoc "unitOfMeasure" d); cbn [py_bind];
    (destruct (match assoc "data" d with Some v => Ok v | None => Ok (JDict []) end)
       as [data|err]; cbn [py_bind]; [|discriminate]);
    (destruct data as [| | | | | |dd]; try discriminate);
    cbn [get py_bind];
    (destruct (match assoc "values" dd with Some v => Ok v | None => Ok (JList []) end)
       as [values|err] eqn:Hvals; cbn [py_bind]; [|discriminate]);
    (destruct (match assoc "sampleTimes" dd with Some v => Ok v | None => Ok (JList []) end)
       as [times|err] eqn:Htimes; cbn [py_bind]; [|discriminate]);
    (destruct (match assoc "qaqcFlags" dd with Some v => Ok v | None => Ok (JList []) end)
       as [flags|err]; cbn [py_bind]; [|discriminate]);
    (destruct (truthy values) eqn:Tv; cbn [negb orb]; [|discriminate]);
    (destruct (truthy times) eqn:Tt; cbn [negb orb]; [|discriminate]);
    (destruct (last_item values) as [lv|err]; cbn [py_bind]; [|discriminate]);
    (destruct (last_item times) as [lt|err]; cbn [py_bind]; [|discriminate]);
    (destruct (if truthy flags then last_item flags else Ok JNone) as [lq|err];
     cbn [py_bind]; [|discriminate]);
    (destruct (len values) as [n|err]; cbn [py_bind]; [|discriminate]);
    intros [= <-]; exists lq;
    (split; [reflexivity|]); (split; [reflexivity|]); (split; [reflexivity|]);
    (split; intros [v [Hv Hf]]; injection Hv as <-; congruence).
Qed.

Lemma latest_qaqc_absent (sensor : json) :
  lacks sensor "qaqcFlags" -> latest_qaqc sensor = Ok JNone.
Proof.
  intros [v [Hv Hf]]. unfold latest_qaqc. rewrite Hv. cbn [py_bind].
  rewrite Hf. reflexivity.
Qed.

(** C6: [format_sensor_data] skips every sensor that lacks both values and
    sample times, its output is the kept sensors' entries in order, and
    each entry's [qaqc_status] is "Passed" exactly when the latest QA/QC
    flag equals 0 and "Check Required" for any other flag, an absent one
    included. *)
Theorem format_sensor_data_qaqc (sensor_data formatted : list json)
    (Hrun : format_sensor_data sensor_data = Ok formatted) :
  (forall sensor, In sensor sensor_data ->
     lacks sensor "values" -> lacks sensor "sampleTimes" ->
     format_sensor sensor = Ok None)
  /\ (exists entries,
        Forall2 (fun sensor entry => format_sensor sensor = Ok entry) sensor_data entries
        /\ formatted = omap id entries)
  /\ (forall e, In e formatted ->
        exists sensor flag,
          In sensor sensor_data
          /\ format_sensor sensor = Ok (Some e)
          /\ ~ (lacks sensor "values" /\ lacks sensor "sampleTimes")
          /\ latest_qaqc sensor = Ok flag
          /\ get e "qaqc_flag" JNone = Ok flag
          /\ (eq_zero flag = true <-> get e "qaqc_status" JNone = Ok (JStr "Passed"))
          /\ (eq_zero flag = false <->
              get e "qaqc_status" JNone = Ok (JStr "Check Required"))
          /\ (lacks sensor "qaqcFlags" ->
              get e "qaqc_status" JNone = Ok (JStr "Check Required"))).
Proof.
  unfold format_sensor_data in Hrun.
  destruct (py_for format_sensor sensor_data) as [entries|err] eqn:Hfor; [|discriminate].
  cbn [py_bind] in Hrun. injection Hrun as <-.
  apply py_for_ok in Hfor.
  split; [|split].
  - intros sensor _ Hv _. apply format_sensor_skips. left. exact Hv.
  - exists entries. split; [exact Hfor | reflexivity].
  - intros e He. apply list_elem_of_In in He.
    apply list_elem_of_omap in He as [o [Ho Hid]]. cbn in Hid. subst o.
    apply list_elem_of_lookup in Ho as [i Hi].
    destruct (Forall2_lookup_r _ _ _ _ _ Hfor Hi) as [sensor [Hs Hfs]].
    destruct (format_sensor_kept sensor e Hfs) as [flag (Hl & Hflag & Hstatus & Hnv & Hnt)].
    exists sensor, flag.
    split; [apply list_elem_of_In; eapply list_elem_of_lookup_2; exact Hs|].
    split; [exact Hfs|]. split; [intros [Hv _]; exact (Hnv Hv)|].
    split; [exact Hl|]. split; [exact Hflag|].
    rewrite Hstatus.
    split; [|split].
    + destruct (eq_zero flag); split; intros Hx; try reflexivity; discriminate Hx.
    + destruct (eq_zero flag); split; intros Hx; try reflexivity; discriminate Hx.
    + intros Hno. rewrite (latest_qaqc_absent sensor Hno) in Hl.
      injection Hl as <-. reflexivity.
Qed.

(** Four raw sensors: flag 0, flag 1, no flags at all, and no data. *)
Definition raw_sensor (name : string) (data : list (string * json)) : json :=
  JDict [("sensorName", JStr name); ("propertyCode", JStr "seawatertemperature");
         ("unitOfMeasure", JStr "C"); ("data", JDict data)].

Definition raw_example : list json :=
  [ raw_sensor "passed" [("values", JList [JInt 3; JInt 4]);
                         ("sampleTimes", JList [JStr "t1"; JStr "t2"]);
                         ("qaqcFlags", JList [JInt 1; JInt 0])];
    raw_sensor "flagged" [("values", JList [JInt 3; JInt 4]);
                          ("sampleTimes", JList [JStr "t1"; JStr "t2"]);
                          ("qaqcFlags", JList [JInt 0; JInt 1])];
    raw_sensor "unflagged" [("values", JList [JInt 5]);
                            ("sampleTimes", JList [JStr "t1"])];
    raw_sensor "silent" [] ].

Definition status_of (e : json) : py json := get e "qaqc_status" JNone.

Example format_sensor_data_example :
  (try! out := format_sensor_data raw_example in py_for status_of out)
  = Ok [JStr "Passed"; JStr "Check Required"; JStr "Check Required"].
Proof. vm_compute. reflexivity. Qed.

Lemma format_sensor_data_qaqc_witness :
  exists formatted,
    format_sensor_data raw_example = Ok formatted
    /\ length formatted = 3%nat
    /\ forall sensor, In sensor raw_example ->
         lacks sensor "values" -> lacks sensor "sampleTimes" ->
         format_sensor sensor = Ok None.
Proof.
  destruct (format_sensor_data raw_example) as [formatted|err] eqn:Hrun;
    [|vm_compute in Hrun; discriminate Hrun].
  exists formatted. split; [reflexivity|].
  split; [vm_compute in Hrun; injection Hrun as <-; reflexivity|].
  exact (proj1 (format_sensor_data_qaqc raw_example formatted Hrun)).
Defined.

(** *** Dates, failures and the other requests *)

Lemma endswith_app (suffix a b : string) :
  endswith suffix b = true -> endswith suffix (a ++ b) = true.
Proof.
  intros Hb. induction a as [|c a IH]; [exact Hb|].
  change (String c a ++ b) with (String c (a ++ b)).
  cbn [endswith]. rewrite IH. apply orb_true_r.
Qed.

Lemma onc_date_suffix (d : string) : endswith ".000Z" (onc_date d) = true.
Proof.
  unfold onc_date. destruct (endswith ".000Z" d) eqn:E; [exact E|].
  destruct (py_in "T" d); apply endswith_app; reflexivity.
Qed.

(** A formatted date ends in ".000Z"; formatting it again changes nothing;
    and a date that already ends so is sent as it is. *)
Theorem onc_date_ends_000Z (d : string) :
  endswith ".000Z" (onc_date d) = true
  /\ onc_date (onc_date d) = onc_date d
  /\ (endswith ".000Z" d = true -> onc_date d = d).
Proof.
  split; [apply onc_date_suffix|]. split.
  - unfold onc_date at 1. rewrite onc_date_suffix. reflexivity.
  - intros E. unfold onc_date. rewrite E. reflexivity.
Qed.

Lemma assoc_dict_set (k k' : string) (v : json) (d : list (string * json)) :
  assoc k' (dict_set k v d) = if String.eqb k' k then Some v else assoc k' d.
Proof.
  induction d as [|[k0 v0] d IH]; cbn [dict_set assoc].
  - destruct (String.eqb k' k); reflexivity.
  - destruct (String.eqb_spec k k0) as [<- | Hne]; cbn [assoc].
    + destruct (String.eqb k' k); reflexivity.
    + rewrite IH. destruct (String.eqb_spec k' k0) as [-> | Hne'].
      * destruct (String.eqb_spec k0 k) as [E | _]; [congruence | reflexivity].
      * reflexivity.
Qed.

(** The dates among the parameters of [get_scalar_data] end in ".000Z". *)
Theorem scalar_data_dates (device_code : string) (date_from date_to : option string)
    (row_limit : Z) (key : string) (v : json) :
  key = "dateFrom" \/ key = "dateTo" ->
  assoc key (scalar_data_params device_code date_from date_to row_limit) = Some v ->
  exists s, v = JStr s /\ endswith ".000Z" s = true
            /\ (key = "dateFrom" -> Some s = option_map onc_date date_from)
            /\ (key = "dateTo" -> Some s = option_map onc_date date_to).
Proof.
  intros Hkey. unfold scalar_data_params.
  destruct date_from as [f|], date_to as [t|];
    try destruct (truthy (JStr f)); try destruct (truthy (JStr t));
    rewrite ?assoc_dict_set;
    destruct Hkey as [-> | ->]; cbn;
    intros [= <-] || (intros E; discriminate E);
    eexists; (split; [reflexivity|]); (split; [apply onc_date_suffix|]);
    split; intros E; (reflexivity || discriminate E).
Qed.

Section RequestFacts.

Variable token : string.
Variable session_get : string -> list (string * json) -> http_reply.

(** What the service answered was usable: status 200 and a body that
    decodes. *)
Definition usable (reply : http_reply) : bool :=
  match reply with
  | Response status_code _ (Ok _) _ => (status_code =? 200)%Z
  | _ => false
  end.

Lemma make_request_error_key (endpoint : string) (params : list (string * json))
    (d : list (string * json)) :
  _make_request token session_get endpoint params = Ok (JDict d) ->
  usable (session_get (base_url ++ "/" ++ endpoint)
                      (dict_set "token" (JStr token) params)) = false ->
  has_key "error" d = true.
Proof.
  unfold _make_request.
  destruct (session_get _ _) as [code text body t| |e]; cbn [usable].
  - destruct (code =? 200)%Z eqn:Hcode; cbn [negb].
    + destruct body as [j|e]; [intros _ E; discriminate E|].
      intros [= <-] _. reflexivity.
    + intros [= <-] _. reflexivity.
  - intros [= <-] _. reflexivity.
  - intros [= <-] _. reflexivity.
Qed.

(** Every answer of [_make_request] carries [_debug_info]; an answer that
    was not usable is reported under [error], with a [message]. *)
Theorem make_request_reports_failures (endpoint : string)
    (params : list (string * json)) (r : json) :
  _make_request token session_get endpoint params = Ok r ->
  exists d,
    r = JDict d /\ has_key "_debug_info" d = true
    /\ (usable (session_get (base_url ++ "/" ++ endpoint)
                            (dict_set "token" (JStr token) params)) = false ->
        has_key "error" d = true /\ has_key "message" d = true).
Proof.
  unfold _make_request.
  destruct (session_get _ _) as [code text body t| |e]; cbn [usable].
  - destruct (code =? 200)%Z eqn:Hcode; cbn [negb].
    + destruct body as [j|e].
      * destruct (isinstance_list j).
        -- intros [= <-]. eexists. split; [reflexivity|].
           split; [reflexivity | intros E; discriminate E].
        -- destruct j; try (intros E; discriminate E). intros [= <-].
           eexists. split; [reflexivity|].
           split; [apply has_key_dict_set | intros E; discriminate E].
      * intros [= <-]. eexists. repeat split; reflexivity.
    + intros [= <-]. eexists. destruct body; repeat split; reflexivity.
  - intros [= <-]. eexists. repeat split; reflexivity.
  - intros [= <-]. eexists. repeat split; reflexivity.
Qed.

(** Neither [get_scalar_data] nor [get_raw_data] hands an error on: a
    failed request comes back as an empty data set. *)
Theorem data_requests_hide_errors (device_code : string) (property_code : option string)
    (date_from date_to : option string) (row_limit : Z) (output_format : string)
    (r : json) :
  (get_scalar_data token session_get device_code property_code date_from date_to
                   row_limit = Ok r ->
   contains r "error" = Ok false
   /\ (usable (session_get (base_url ++ "/scalardata/device")
                 (dict_set "token" (JStr token)
                    (scalar_data_params device_code date_from date_to row_limit)))
       = false ->
       r = JDict [("sensorData", JList [])]))
  /\ (get_raw_data token session_get device_code date_from date_to row_limit
                   output_format = Ok r ->
      contains r "error" = Ok false).
Proof.
  split.
  - unfold get_scalar_data. cbv zeta.
    destruct (_make_request _ _ _ _) as [resp|e] eqn:Hreq; [|intros E; discriminate E].
    destruct (make_request_returns_dict _ _ _ _ _ Hreq) as (d & ->).
    pose proof (make_request_error_key _ _ _ Hreq) as Hfail.
    cbn [py_bind contains].
    destruct (has_key "error" d) eqn:Herr.
    + intros [= <-]. split; [reflexivity|]. intros _. reflexivity.
    + intros [= <-]. split; [cbn [contains]; rewrite Herr; reflexivity|].
      intros Hu. specialize (Hfail Hu). discriminate Hfail.
  - unfold get_raw_data. cbv zeta.
    destruct (_make_request _ _ _ _) as [resp|e] eqn:Hreq; [|intros E; discriminate E].
    destruct (make_request_returns_dict _ _ _ _ _ Hreq) as (d & ->).
    cbn [py_bind contains].
    destruct (has_key "error" d) eqn:Herr.
    + intros [= <-]. reflexivity.
    + intros [= <-]. cbn [contains]. rewrite Herr. reflexivity.
Qed.

(** When the devices endpoint answers with a list, [search_data] reads the
    devices out of the wrapped answer, and [get_devices] returns none. *)
Theorem search_data_reads_wrapped_list (location_code device_category text : string)
    (devices : list json) (request_time : float) :
  (forall url params,
      session_get url params = Response 200 text (Ok (JList devices)) request_time) ->
  search_data_devices token session_get location_code device_category
  = Ok (JList devices)
  /\ get_devices token session_get location_code (Some device_category) = Ok []
  /\ get_devices token session_get location_code None = Ok [].
Proof.
  intros Hget.
  assert (forall params,
            _make_request token session_get "devices" params
            = Ok (JDict [("data", JList devices);
                         ("_debug_info",
                          JDict [("url", JStr (base_url ++ "/" ++ "devices"));
                                 ("params", JDict (dict_set "token" (JStr token) params));
                                 ("status_code", JInt 200);
                                 ("request_time", JFloat request_time);
                                 ("response_size", JInt (Z.of_nat (String.length text)))])]))
    as Hreq.
  { intros params. unfold _make_request. rewrite Hget. reflexivity. }
  split; [|split].
  - unfold search_data_devices. rewrite Hreq. reflexivity.
  - unfold get_devices. cbv zeta.
    destruct (given (Some device_category)) eqn:G; rewrite Hreq; [|reflexivity].
    cbn [py_bind contains]. change (has_key "error" _) with false. cbv iota.
    cbn [existsb isinstance_list]. rewrite has_key_dict_set. reflexivity.
  - unfold get_devices. cbv zeta. rewrite Hreq. reflexivity.
Qed.

End RequestFacts.

(** *** The entries [format_sensor_data] builds *)

Lemma get_dict (d : list (string * json)) (k : string) (default : json) :
  get (JDict d) k default
  = Ok (match assoc k d with Some v => v | None => default end).
Proof. unfold get. destruct (assoc k d); reflexivity. Qed.

Definition entry_keys : list string :=
  ["sensor_name"; "property_code"; "unit"; "latest_value"; "latest_time";
   "qaqc_flag"; "qaqc_status"; "total_readings"; "all_values"; "all_times"].

(** The entry of a sensor that is kept: its ten keys, the readings as they
    came, their count (at least one), and the last of them as the latest. *)
Lemma format_sensor_entry (sensor e : json) :
  format_sensor sensor = Ok (Some e) ->
  exists d values latest n,
    e = JDict d /\ map fst d = entry_keys
    /\ assoc "all_values" d = Some values
    /\ last_item values = Ok latest /\ assoc "latest_value" d = Some latest
    /\ len values = Ok n /\ assoc "total_readings" d = Some (JInt n)
    /\ (1 <= n)%Z.
Proof.
  unfold format_sensor.
  destruct sensor as [| | | | | |d0]; try (intros E; discriminate E).
  rewrite !get_dict. cbn [py_bind].
  destruct (match assoc "data" d0 with Some v => v | None => JDict [] end)
    as [| | | | | |data]; try (intros E; discriminate E).
  rewrite !get_dict. cbn [py_bind].
  set (values := match assoc "values" data with Some v => v | None => JList [] end).
  set (times := match assoc "sampleTimes" data with Some v => v | None => JList [] end).
  set (flags := match assoc "qaqcFlags" data with Some v => v | None => JList [] end).
  destruct (truthy values) eqn:Tv; [|intros E; discriminate E].
  destruct (truthy times) eqn:Tt; [|intros E; discriminate E].
  cbn [negb orb].
  destruct (last_item values) as [latest|] eqn:Lv; [|intros E; discriminate E].
  cbn [py_bind].
  destruct (last_item times) as [latest_time|]; [|intros E; discriminate E].
  cbn [py_bind].
  destruct (if truthy flags then last_item flags else Ok JNone) as [flag|];
    [|intros E; discriminate E].
  cbn [py_bind].
  destruct (len values) as [n|] eqn:Ln; [|intros E; discriminate E].
  cbn [py_bind]. intros [= <-].
  eexists _, values, latest, n.
  split; [reflexivity|]. split; [reflexivity|]. split; [reflexivity|].
  split; [exact Lv|]. split; [reflexivity|]. split; [exact Ln|].
  split; [reflexivity|].
  clearbody values. clear - Tv Ln.
  destruct values as [| | | |s|l|dd]; try discriminate Ln; injection Ln as <-.
  - destruct s; [discriminate Tv | cbn [String.length]; lia].
  - destruct l; [discriminate Tv | cbn [length]; lia].
  - destruct dd; [discriminate Tv | cbn [length]; lia].
Qed.

Lemma omap_id_length {A} (l : list (option A)) :
  (length (omap id l) <= length l)%nat.
Proof.
  induction l as [|[x|] l IH]; cbn [omap list_omap id length] in *; lia.
Qed.

(** [format_sensor_data] returns at most one entry per sensor, each of the
    shape above. *)
Theorem format_sensor_data_entries (sensor_data formatted : list json) :
  format_sensor_data sensor_data = Ok formatted ->
  (length formatted <= length sensor_data)%nat
  /\ forall e, In e formatted ->
       exists d values latest n,
         e = JDict d /\ map fst d = entry_keys
         /\ assoc "all_values" d = Some values
         /\ last_item values = Ok latest /\ assoc "latest_value" d = Some latest
         /\ len values = Ok n /\ assoc "total_readings" d = Some (JInt n)
         /\ (1 <= n)%Z.
Proof.
  intros Hrun. unfold format_sensor_data in Hrun.
  destruct (py_for format_sensor sensor_data) as [entries|err] eqn:Hfor;
    [|discriminate Hrun].
  cbn [py_bind] in Hrun. injection Hrun as <-.
  apply py_for_ok in Hfor. split.
  - rewrite (Forall2_length _ _ _ Hfor). apply omap_id_length.
  - intros e He. apply list_elem_of_In in He.
    apply list_elem_of_omap in He as [o [Ho Hid]]. cbn in Hid. subst o.
    apply list_elem_of_lookup in Ho as [i Hi].
    destruct (Forall2_lookup_r _ _ _ _ _ Hfor Hi) as [sensor [_ Hfs]].
    destruct (format_sensor_entry sensor e Hfs)
      as (d & values & latest & n & He & Hk & Hrest).
    exists d, values, latest, n. split; [exact He|]. split; [exact Hk|]. exact Hrest.
Qed.

(** *** The further behaviour, on concrete answers *)

Definition timed_out (url : string) (params : list (string * json)) : http_reply :=
  Timeout.

Lemma make_request_reports_failures_witness :
  exists d,
    _make_request "t" timed_out "devices" [] = Ok (JDict d)
    /\ has_key "_debug_info" d = true
    /\ has_key "error" d = true /\ has_key "message" d = true.
Proof.
  destruct (make_request_reports_failures "t" timed_out "devices" []
              (JDict [("error", JStr "timeout");
                      ("message", JStr "Request timed out");
                      ("_debug_info",
                       JDict [("url", JStr "https://data.oceannetworks.ca/api/devices");
                              ("params", JDict [("token", JStr "t")]);
                              ("timeout", JInt 30)])]) eq_refl)
    as (d & Hd & Hdebug & Hfail).
  exists d. split; [rewrite <- Hd; reflexivity|]. split; [exact Hdebug|].
  apply Hfail. reflexivity.
Defined.

Lemma data_requests_hide_errors_witness :
  get_scalar_data "t" timed_out "DEV" None (Some "2023-04-12") None 100
  = Ok (JDict [("sensorData", JList [])])
  /\ contains (JDict [("sensorData", JList [])]) "error" = Ok false
  /\ contains (JDict [("data", JList [])]) "error" = Ok false.
Proof.
  destruct (data_requests_hide_errors "t" timed_out "DEV" None (Some "2023-04-12") None
              100 "object" (JDict [("sensorData", JList [])])) as [Hs _].
  destruct (data_requests_hide_errors "t" timed_out "DEV" None (Some "2023-04-12") None
              100 "object" (JDict [("data", JList [])])) as [_ Hr].
  split; [reflexivity|].
  split; [apply Hs; reflexivity | apply Hr; reflexivity].
Defined.

Lemma scalar_data_dates_witness :
  assoc "dateFrom" (scalar_data_params "DEV" (Some "2023-04-12") None 100)
  = Some (JStr "2023-04-12T00:00:00.000Z")
  /\ exists s, JStr "2023-04-12T00:00:00.000Z" = JStr s /\ endswith ".000Z" s = true.
Proof.
  split; [reflexivity|].
  destruct (scalar_data_dates "DEV" (Some "2023-04-12") None 100 "dateFrom"
              (JStr "2023-04-12T00:00:00.000Z") (or_introl eq_refl) eq_refl)
    as (s & Hs & Hend & _).
  exists s. split; [exact Hs | exact Hend].
Defined.

Lemma search_data_reads_wrapped_list_witness :
  search_data_devices "t" devices_ok "CBYIP" "CTD" = Ok (JList [one_ctd])
  /\ get_devices "t" devices_ok "CBYIP" (Some "CTD") = Ok []
  /\ get_devices "t" devices_ok "CBYIP" None = Ok [].
Proof.
  apply (search_data_reads_wrapped_list "t" devices_ok "CBYIP" "CTD" "[{...}]"
           [one_ctd] 0.25%float).
  intros url params. reflexivity.
Defined.

Lemma get_devices_empty_witness :
  get_devices "t" devices_ok "CBYIP" (Some "CTD") = Ok [] /\ @nil json = [].
Proof.
  split; [reflexivity|].
  apply (get_devices_empty "t" devices_ok "CBYIP" (Some "CTD")). reflexivity.
Defined.

Lemma format_sensor_data_entries_witness :
  exists formatted,
    format_sensor_data raw_example = Ok formatted
    /\ (length formatted <= length raw_example)%nat.
Proof.
  destruct (format_sensor_data raw_example) as [formatted|err] eqn:Hrun;
    [|vm_compute in Hrun; discriminate Hrun].
  exists formatted. split; [reflexivity|].
  exact (proj1 (format_sensor_data_entries raw_example formatted Hrun)).
Defined.

End ONCClient.

#[local] Set Warnings "-inexact-float".

(** * More of Python's [str], for code points below 256 *)

(** [c.isspace()] *)
Definition is_space (c : ascii) : bool :=
  let n := nat_of_ascii c in
  ((9 <=? n) && (n <=? 13) || (28 <=? n) && (n <=? 32)
   || (n =? 133) || (n =? 160))%nat.

(** [c.lower()]: the letters A-Z and the Latin-1 capitals move by 32. *)
Definition lower_char (c : ascii) : ascii :=
  let n := nat_of_ascii c in
  if ((65 <=? n) && (n <=? 90)
      || (192 <=? n) && (n <=? 222) && negb (n =? 215))%nat
  then ascii_of_nat (n + 32) else c.

(** [s.lower()] *)
Fixpoint lower (s : string) : string :=
  match s with
  | EmptyString => EmptyString
  | String c s' => String (lower_char c) (lower s')
  end.

(** [len(s.split())]: the number of maximal runs of non-space characters.
    [in_word] tells whether the previous character was part of a word. *)
Fixpoint count_words (in_word : bool) (s : string) : nat :=
  match s with
  | EmptyString => 0
  | String c s' =>
      if is_space c then count_words false s'
      else if in_word then count_words true s'
      else S (count_words true s')
  end.

Definition word_count (s : string) : nat := count_words false s.

(** [float(z)] for an [int] of less than 63 bits. *)
Definition float_of_Z (z : Z) : float :=
  if (z <? 0)%Z then PrimFloat.opp (PrimFloat.of_uint63 (Uint63.of_Z (- z)%Z))
  else PrimFloat.of_uint63 (Uint63.of_Z z).

(** [min(a, b)] and [max(a, b)] on two floats, as Python evaluates them. *)
Definition float_min (a b : float) : float := if PrimFloat.ltb b a then b else a.

(** * Conversation memory (src/conversation/manager.py) *)

Module Conversation.

Import ONCClient.

Inductive MessageType := USER | ASSISTANT | SYSTEM.

Record ConversationMessage := mkMessage {
  type : MessageType;
  content : string;
  timestamp : Z;                          (* microseconds *)
  metadata : option (list (string * json))
}.

Record ConversationManager := mkManager {
  max_history_length : Z;
  context_window_minutes : Z;
  conversation_history : list ConversationMessage;
  session_start_time : Z
}.

(** [ConversationManager(max_history_length, context_window_minutes)] *)
Definition init (max_history_length context_window_minutes now : Z) : ConversationManager :=
  mkManager max_history_length context_window_minutes [] now.

(** [l[start:]] for an [int] [start] of either sign. *)
Definition slice_from {A} (start : Z) (l : list A) : list A :=
  let n := Z.of_nat (length l) in
  let start := if (start <? 0)%Z then Z.max 0 (start + n)%Z else start in
  drop (Z.to_nat start) l.

Definition set_history (self : ConversationManager) (h : list ConversationMessage)
    : ConversationManager :=
  mkManager (max_history_length self) (context_window_minutes self) h
            (session_start_time self).

(** [_trim_history()] *)
Definition _trim_history (self : ConversationManager) : ConversationManager :=
  if (max_history_length self * 2 <? Z.of_nat (length (conversation_history self)))%Z then
    let messages_to_keep := (max_history_length self * 2)%Z in
    set_history self (slice_from (- messages_to_keep)%Z (conversation_history self))
  else self.

(** [add_user_message(message, metadata)] at time [now] *)
Definition add_user_message (self : ConversationManager) (message : string)
    (metadata : option (list (string * json))) (now : Z) : ConversationManager :=
  let msg := mkMessage USER message now metadata in
  _trim_history (set_history self (conversation_history self ++ [msg])).

(** [add_assistant_message(message, metadata)] at time [now] *)
Definition add_assistant_message (self : ConversationManager) (message : string)
    (metadata : option (list (string * json))) (now : Z) : ConversationManager :=
  let msg := mkMessage ASSISTANT message now metadata in
  _trim_history (set_history self (conversation_history self ++ [msg])).

(** [clear_conversation()] at time [now] *)
Definition clear_conversation (self : ConversationManager) (now : Z) : ConversationManager :=
  mkManager (max_history_length self) (context_window_minutes self) [] now.

Definition is_user (m : ConversationMessage) : bool :=
  match type m with USER => true | _ => false end.

(** [get_last_query_info()]: query, timestamp and metadata of the latest
    user message. *)
Definition get_last_query_info (self : ConversationManager)
    : option (string * Z * list (string * json)) :=
  match find is_user (rev (conversation_history self)) with
  | Some msg => Some (content msg, timestamp msg, default [] (metadata msg))
  | None => None
  end.

Definition follow_up_indicators : list string :=
  [ "it"; "that"; "this"; "them"; "those"; "there";
    "also"; "more"; "again"; "further"; "additional";
    "when"; "before"; "after"; "since"; "during";
    "compared to"; "vs"; "versus"; "difference";
    "what about"; "how about"; "what if" ].

(** [_calculate_follow_up_confidence(has_indicators, is_short, has_recent_context)] *)
Definition _calculate_follow_up_confidence
    (has_indicators is_short has_recent_context : bool) : float :=
  let confidence := 0%float in
  let confidence := if has_indicators then (confidence + 0.5)%float else confidence in
  let confidence := if is_short then (confidence + 0.2)%float else confidence in
  let confidence := if has_recent_context then (confidence + 0.3)%float else confidence in
  float_min confidence 1%float.

(** [timedelta.total_seconds() / 60] of a span given in microseconds. *)
Definition minutes (span : Z) : float :=
  (float_of_Z span / 1000000 / 60)%float.

Record ContextInfo := mkContextInfo {
  last_query : string;
  time_since_last : float;
  last_metadata : list (string * json)
}.

Record FollowUp := mkFollowUp {
  is_follow_up : bool;
  confidence : float;
  indicators_found : list string;
  context_info : option ContextInfo       (* [None] is the empty dict *)
}.

(** [detect_follow_up_question(current_query)] at time [now] *)
Definition detect_follow_up_question (self : ConversationManager)
    (current_query : string) (now : Z) : FollowUp :=
  let query_lower := lower current_query in
  let has_indicators :=
    existsb (fun indicator => py_in indicator query_lower) follow_up_indicators in
  let is_short := (word_count current_query <=? 5)%nat in
  let has_recent_context := (0 <? length (conversation_history self))%nat in
  let context_info :=
    if has_recent_context then
      match get_last_query_info self with
      | Some (query, ts, meta) => Some (mkContextInfo query (minutes (now - ts)%Z) meta)
      | None => None
      end
    else None in
  mkFollowUp (has_indicators && has_recent_context)
             (_calculate_follow_up_confidence has_indicators is_short has_recent_context)
             (filter (fun ind => py_in ind query_lower = true) follow_up_indicators)
             context_info.


(** *** Trimming *)

Lemma trim_history_spec (self : ConversationManager) :
  1 <= max_history_length self ->
  let keep := Z.to_nat (2 * max_history_length self) in
  let h := conversation_history self in
  conversation_history (_trim_history self) = drop (length h - keep) h
  /\ (length (conversation_history (_trim_history self)) <= keep)%nat
  /\ max_history_length (_trim_history self) = max_history_length self.
Proof.
  intros Hmax keep h. unfold _trim_history. fold h.
  destruct (max_history_length self * 2 <? Z.of_nat (length h))%Z eqn:Hlt.
  - apply Z.ltb_lt in Hlt. cbn [conversation_history set_history max_history_length].
    unfold slice_from.
    replace (- (max_history_length self * 2) <? 0)%Z with true
      by (symmetry; apply Z.ltb_lt; lia).
    replace (Z.to_nat (Z.max 0 (- (max_history_length self * 2) + Z.of_nat (length h))))
      with (length h - keep)%nat by (subst keep; lia).
    split; [reflexivity|]. split; [|reflexivity].
    rewrite length_drop. subst keep. lia.
  - apply Z.ltb_ge in Hlt. fold h.
    replace (length h - keep)%nat with 0%nat by (subst keep; lia).
    split; [reflexivity|]. split; [subst keep; lia|reflexivity].
Qed.

(** With a positive limit, every append leaves at most [2 * limit]
    messages: the most recent ones, in their order. *)
Lemma add_user_message_bounded (self : ConversationManager) (message : string)
    (metadata : option (list (string * json))) (now : Z) :
  1 <= max_history_length self ->
  let keep := Z.to_nat (2 * max_history_length self) in
  let h := (conversation_history self ++ [mkMessage USER message now metadata])%list in
  conversation_history (add_user_message self message metadata now)
  = drop (length h - keep) h
  /\ (length (conversation_history (add_user_message self message metadata now))
      <= keep)%nat.
Proof.
  intros Hmax keep h. unfold add_user_message.
  destruct (trim_history_spec
              (set_history self (conversation_history self
                                 ++ [mkMessage USER message now metadata])%list) Hmax)
    as (Heq & Hlen & _).
  split; [exact Heq | exact Hlen].
Qed.

Lemma add_assistant_message_bounded (self : ConversationManager) (message : string)
    (metadata : option (list (string * json))) (now : Z) :
  1 <= max_history_length self ->
  let keep := Z.to_nat (2 * max_history_length self) in
  let h := (conversation_history self ++ [mkMessage ASSISTANT message now metadata])%list in
  conversation_history (add_assistant_message self message metadata now)
  = drop (length h - keep) h
  /\ (length (conversation_history (add_assistant_message self message metadata now))
      <= keep)%nat.
Proof.
  intros Hmax keep h. unfold add_assistant_message.
  destruct (trim_history_spec
              (set_history self (conversation_history self
                                 ++ [mkMessage ASSISTANT message now metadata])%list) Hmax)
    as (Heq & Hlen & _).
  split; [exact Heq | exact Hlen].
Qed.

(** C10, at the failing input: with [max_history_length = 0] the slice
    [history[-0:]] is the whole list, so nothing is ever dropped: after
    one call the history holds one message, after three calls three,
    against a bound of [2 * 0 = 0]. *)
Theorem history_not_trimmed_at_zero :
  let m0 := init 0 30 0 in
  let m1 := add_user_message m0 "hi" None 1 in
  let m2 := add_assistant_message m1 "hello" None 2 in
  let m3 := add_user_message m2 "more" None 3 in
  2 * max_history_length m3 = 0
  /\ length (conversation_history m1) = 1%nat
  /\ length (conversation_history m3) = 3%nat
  /\ map content (conversation_history m3) = ["hi"; "hello"; "more"].
Proof. repeat split. Qed.


(** *** Follow-up detection *)

(** The decimal [k/10] as Python reads the literal: the nearest binary64. *)
Definition tenths (k : Z) : float := (float_of_Z k / 10)%float.

Definition weight (applies : bool) (w : Z) : Z := if applies then w else 0.

Lemma confidence_table (a b c : bool) :
  _calculate_follow_up_confidence a b c
  = tenths (Z.min 10 (weight a 5 + weight b 2 + weight c 3))
  /\ PrimFloat.leb 0 (_calculate_follow_up_confidence a b c) = true
  /\ PrimFloat.leb (_calculate_follow_up_confidence a b c) 1 = true.
Proof. destruct a, b, c; vm_compute; repeat split. Qed.

(** C8: the confidence [detect_follow_up_question] returns is the sum of
    the applicable weights (0.5 for an indicator in the lowercased query,
    0.2 for at most five words, 0.3 for a non-empty history) capped at
    1.0, as the nearest binary64 to that decimal; it lies in [0, 1]; and
    [is_follow_up] holds exactly when an indicator occurs and the history
    is non-empty. *)
Theorem follow_up_confidence (self : ConversationManager) (current_query : string)
    (now : Z) :
  let r := detect_follow_up_question self current_query now in
  let has_indicator :=
    existsb (fun ind => py_in ind (lower current_query)) follow_up_indicators in
  let short := (word_count current_query <=? 5)%nat in
  let has_history := negb (bool_decide (conversation_history self = [])) in
  confidence r
  = tenths (Z.min 10 (weight has_indicator 5 + weight short 2 + weight has_history 3))
  /\ PrimFloat.leb 0 (confidence r) = true
  /\ PrimFloat.leb (confidence r) 1 = true
  /\ (is_follow_up r = true <->
      (exists ind, In ind follow_up_indicators
                   /\ py_in ind (lower current_query) = true)
      /\ conversation_history self <> []).
Proof.
  intros r has_indicator short has_history.
  assert (Hh : (0 <? length (conversation_history self))%nat = has_history).
  { subst has_history. destruct (conversation_history self); reflexivity. }
  subst r. unfold detect_follow_up_question.
  cbn [confidence is_follow_up]. fold has_indicator. fold short. rewrite Hh.
  destruct (confidence_table has_indicator short has_history) as (Heq & Hlo & Hhi).
  split; [exact Heq|]. split; [exact Hlo|]. split; [exact Hhi|].
  rewrite andb_true_iff. subst has_indicator has_history.
  rewrite existsb_exists, negb_true_iff, bool_decide_eq_false. reflexivity.
Qed.

(** *** The rest of the manager *)

(** [_get_relevant_messages()] at time [now]: the messages of the context
    window, or the last six when the window holds none. *)
Definition _get_relevant_messages (self : ConversationManager) (now : Z)
    : list ConversationMessage :=
  let cutoff_time := now - context_window_minutes self * 60 * 1000000 in
  let relevant :=
    filter (fun msg => cutoff_time <= timestamp msg) (conversation_history self) in
  match relevant, conversation_history self with
  | [], _ :: _ => slice_from (-6) (conversation_history self)
  | _, _ => relevant
  end.

Definition topic_keywords : list string :=
  [ "temperature"; "salinity"; "pressure"; "depth"; "oxygen"; "ph";
    "cambridge bay"; "arctic"; "ocean"; "sensor"; "ctd"; "hydrophone";
    "data"; "measurement"; "deployment"; "instrument" ].

(** The inner loop of [_extract_topics] over the keywords, for one message. *)
Definition add_topics (content_lower : string) (topics : list string) : list string :=
  fold_left
    (fun (topics : list string) (keyword : string) =>
       if py_in keyword content_lower && negb (bool_decide (keyword ∈ topics))
       then (topics ++ [keyword])%list else topics)
    topic_keywords topics.

(** [_extract_topics()] *)
Definition _extract_topics (self : ConversationManager) : list string :=
  fold_left
    (fun (topics : list string) (msg : ConversationMessage) =>
       if is_user msg then add_topics (lower (content msg)) topics else topics)
    (conversation_history self) [].

(** The user message just added is the last query, when the limit is
    positive. *)
Theorem last_query_is_the_message_added (self : ConversationManager) (message : string)
    (metadata : option (list (string * json))) (now : Z) :
  1 <= max_history_length self ->
  get_last_query_info (add_user_message self message metadata now)
  = Some (message, now, default [] metadata).
Proof.
  intros Hmax.
  destruct (trim_history_spec
              (set_history self (conversation_history self
                                 ++ [mkMessage USER message now metadata])%list) Hmax)
    as (Heq & _ & _).
  cbv zeta in Heq. cbn [conversation_history max_history_length set_history] in Heq.
  unfold get_last_query_info, add_user_message. rewrite Heq.
  rewrite length_app. cbn [length].
  rewrite drop_app_le by lia. rewrite rev_app_distr. reflexivity.
Qed.

(** After [clear_conversation] no query counts as a follow-up, and there is
    no context to report. *)
Theorem no_follow_up_after_clear (self : ConversationManager) (query : string)
    (cleared now : Z) :
  let r := detect_follow_up_question (clear_conversation self cleared) query now in
  is_follow_up r = false /\ context_info r = None
  /\ PrimFloat.leb (confidence r) 0.7 = true
  /\ get_last_query_info (clear_conversation self cleared) = None.
Proof.
  cbv zeta. unfold detect_follow_up_question, clear_conversation.
  cbn [conversation_history length Nat.ltb Nat.leb is_follow_up context_info confidence].
  rewrite andb_false_r. split; [reflexivity|]. split; [reflexivity|].
  split; [|reflexivity].
  destruct (existsb _ follow_up_indicators), (word_count query <=? 5)%nat;
    vm_compute; reflexivity.
Qed.

(** With any history at all there is context to show: the relevant
    messages are some of the history, in its order, and at least one. *)
Theorem relevant_messages_of_history (self : ConversationManager) (now : Z) :
  sublist (_get_relevant_messages self now) (conversation_history self)
  /\ (conversation_history self <> [] -> _get_relevant_messages self now <> [])
  /\ (forall msg, msg ∈ conversation_history self ->
        now - context_window_minutes self * 60 * 1000000 <= timestamp msg ->
        msg ∈ _get_relevant_messages self now).
Proof.
  unfold _get_relevant_messages. cbv zeta.
  set (cutoff := now - context_window_minutes self * 60 * 1000000).
  set (h := conversation_history self).
  destruct (filter (fun msg => cutoff <= timestamp msg) h) as [|m relevant] eqn:Hf.
  - destruct h as [|m0 h'] eqn:Hh.
    + split; [constructor|]. split; [intros E; contradiction|].
      intros msg Hin. apply elem_of_nil in Hin. contradiction.
    + split; [|split].
      * unfold slice_from. apply sublist_drop.
      * intros _. unfold slice_from.
        replace (-6 <? 0)%Z with true by reflexivity.
        intros E. apply (f_equal length) in E. rewrite length_drop in E.
        cbn [length] in E. lia.
      * intros msg Hin Hrecent. exfalso.
        assert (msg ∈ filter (fun msg => cutoff <= timestamp msg) (m0 :: h')) as Hm
          by (apply list_elem_of_filter; split; assumption).
        rewrite Hf in Hm. apply elem_of_nil in Hm. exact Hm.
  - rewrite <- Hf. split; [apply sublist_filter|]. split.
    + intros _. rewrite Hf. discriminate.
    + intros msg Hin Hrecent. apply list_elem_of_filter. split; assumption.
Qed.

Lemma add_topics_loop (content_lower : string) (keywords topics : list string) :
  NoDup topics ->
  let r :=
    fold_left
      (fun (topics : list string) (keyword : string) =>
         if py_in keyword content_lower && negb (bool_decide (keyword ∈ topics))
         then (topics ++ [keyword])%list else topics)
      keywords topics in
  NoDup r
  /\ forall t, t ∈ r <-> t ∈ topics \/ (t ∈ keywords /\ py_in t content_lower = true).
Proof.
  revert topics. induction keywords as [|k ks IH]; intros topics Hnd; cbv zeta.
  - cbn [fold_left]. split; [exact Hnd|]. intros t. split; [intros Ht; left; exact Ht|].
    intros [Ht | [Ht _]]; [exact Ht|]. apply elem_of_nil in Ht. contradiction.
  - cbn [fold_left].
    destruct (py_in k content_lower) eqn:Hin; cbn [andb].
    + destruct (bool_decide (k ∈ topics)) eqn:Hmem; cbn [negb].
      * apply bool_decide_eq_true in Hmem.
        destruct (IH topics Hnd) as [Hnd' Hiff]. split; [exact Hnd'|].
        intros t. rewrite Hiff, elem_of_cons. split.
        -- intros [Ht | [Ht Hp]]; [left; exact Ht | right; split; [right; exact Ht | exact Hp]].
        -- intros [Ht | [[-> | Ht] Hp]];
             [left; exact Ht | left; exact Hmem | right; split; assumption].
      * apply bool_decide_eq_false in Hmem.
        assert (NoDup (topics ++ [k])%list) as Hnd1.
        { apply NoDup_app. split; [exact Hnd|]. split; [|apply NoDup_singleton].
          intros x Hx Hx'. apply list_elem_of_singleton in Hx'. subst x. exact (Hmem Hx). }
        destruct (IH _ Hnd1) as [Hnd' Hiff]. split; [exact Hnd'|].
        intros t. rewrite Hiff, elem_of_app, list_elem_of_singleton, elem_of_cons. split.
        -- intros [[Ht | ->] | [Ht Hp]];
             [left; exact Ht | right; split; [left; reflexivity | exact Hin]
              | right; split; [right; exact Ht | exact Hp]].
        -- intros [Ht | [[-> | Ht] Hp]];
             [left; left; exact Ht | left; right; reflexivity | right; split; assumption].
    + destruct (IH topics Hnd) as [Hnd' Hiff]. split; [exact Hnd'|].
      intros t. rewrite Hiff, elem_of_cons. split.
      * intros [Ht | [Ht Hp]]; [left; exact Ht | right; split; [right; exact Ht | exact Hp]].
      * intros [Ht | [[-> | Ht] Hp]];
          [left; exact Ht | congruence | right; split; assumption].
Qed.

Lemma extract_topics_loop (history : list ConversationMessage) (topics : list string) :
  NoDup topics ->
  let r :=
    fold_left
      (fun (topics : list string) (msg : ConversationMessage) =>
         if is_user msg then add_topics (lower (content msg)) topics else topics)
      history topics in
  NoDup r
  /\ forall t, t ∈ r <->
       t ∈ topics
       \/ (t ∈ topic_keywords
           /\ exists msg, msg ∈ history /\ is_user msg = true
                          /\ py_in t (lower (content msg)) = true).
Proof.
  revert topics. induction history as [|m h IH]; intros topics Hnd; cbv zeta.
  - cbn [fold_left]. split; [exact Hnd|]. intros t. split; [intros Ht; left; exact Ht|].
    intros [Ht | [_ (msg & Hm & _)]]; [exact Ht|]. apply elem_of_nil in Hm. contradiction.
  - cbn [fold_left]. destruct (is_user m) eqn:Hu.
    + destruct (add_topics_loop (lower (content m)) topic_keywords topics Hnd)
        as [Hnd1 Hiff1].
      destruct (IH _ Hnd1) as [Hnd' Hiff]. split; [exact Hnd'|].
      intros t. rewrite Hiff. unfold add_topics. rewrite Hiff1. split.
      * intros [[Ht | [Hk Hp]] | [Hk (msg & Hm & Hum & Hp)]].
        -- left; exact Ht.
        -- right. split; [exact Hk|]. exists m. split; [left|split; assumption].
        -- right. split; [exact Hk|]. exists msg. split; [right; exact Hm|split; assumption].
      * intros [Ht | [Hk (msg & Hm & Hum & Hp)]]; [left; left; exact Ht|].
        apply elem_of_cons in Hm as [-> | Hm].
        -- left. right. split; assumption.
        -- right. split; [exact Hk|]. exists msg. split; [exact Hm|split; assumption].
    + destruct (IH _ Hnd) as [Hnd' Hiff]. split; [exact Hnd'|].
      intros t. rewrite Hiff. split.
      * intros [Ht | [Hk (msg & Hm & Hum & Hp)]]; [left; exact Ht|].
        right. split; [exact Hk|]. exists msg. split; [right; exact Hm|split; assumption].
      * intros [Ht | [Hk (msg & Hm & Hum & Hp)]]; [left; exact Ht|].
        apply elem_of_cons in Hm as [-> | Hm]; [congruence|].
        right. split; [exact Hk|]. exists msg. split; [exact Hm|split; assumption].
Qed.

(** The topics are the keywords that occur in some user message, each
    named once. *)
Theorem extract_topics_spec (self : ConversationManager) :
  NoDup (_extract_topics self)
  /\ forall t, t ∈ _extract_topics self <->
       t ∈ topic_keywords
       /\ exists msg, msg ∈ conversation_history self /\ is_user msg = true
                      /\ py_in t (lower (content msg)) = true.
Proof.
  destruct (extract_topics_loop (conversation_history self) [] NoDup_nil_2)
    as [Hnd Hiff].
  split; [exact Hnd|]. intros t. unfold _extract_topics. rewrite Hiff. split.
  - intros [Ht | Ht]; [apply elem_of_nil in Ht; contradiction | exact Ht].
  - intros Ht. right. exact Ht.
Qed.

(** *** The manager at work *)

Definition two_messages : ConversationManager :=
  mkManager 1 30 [mkMessage USER "Temperature in Cambridge Bay?" 10 None;
                  mkMessage ASSISTANT "It is 2 C." 20 None] 0.

Lemma add_user_message_bounded_witness :
  map content (conversation_history (add_user_message two_messages "And salinity?" None 30))
  = ["It is 2 C."; "And salinity?"]
  /\ (length (conversation_history (add_user_message two_messages "And salinity?" None 30))
      <= 2)%nat.
Proof.
  split; [reflexivity|].
  apply (add_user_message_bounded two_messages "And salinity?" None 30).
  vm_compute. intros E; discriminate E.
Defined.

Lemma add_assistant_message_bounded_witness :
  (length (conversation_history (add_assistant_message two_messages "Anything else?" None 30))
   <= 2)%nat.
Proof.
  apply (add_assistant_message_bounded two_messages "Anything else?" None 30).
  vm_compute. intros E; discriminate E.
Defined.

Lemma last_query_is_the_message_added_witness :
  get_last_query_info (add_user_message two_messages "And salinity?" None 30)
  = Some ("And salinity?", 30, []).
Proof.
  apply (last_query_is_the_message_added two_messages "And salinity?" None 30).
  vm_compute. intros E; discriminate E.
Defined.

Example topics_of_two_messages :
  _extract_topics (add_user_message two_messages "And the temperature data?" None 30)
  = ["temperature"; "data"].
Proof. vm_compute. reflexivity. Qed.

End Conversation.

(** * Query routing (src/query_routing/router.py) *)

Module Router.

Import ONCClient Conversation.

Inductive QueryType := VECTOR_SEARCH | DATABASE_SEARCH | HYBRID_SEARCH | DIRECT_LLM.

(** A routing decision: the dict the router returns, with the keys the
    tiers set. *)
Record RoutingDecision := mkDecision {
  route : QueryType;                       (* 'type' *)
  vector_score : option float;
  database_score : option float;
  classification : option string;
  parameters : list (string * json)
}.

(** The [context] dict passed to [route_query]; [None] is an absent key. *)
Record Context := mkContext {
  conversation_context : string;
  follow_up_info : option FollowUp;
  has_vector_store : option bool;
  has_database : option bool
}.

(** The router: its keyword lists, thresholds taken from the
    configuration ([None] when the key is absent) and the two switches. *)
Record QueryRouter := mkRouter {
  vector_keywords : list string;
  database_keywords : list string;
  vector_threshold : option float;
  database_threshold : option float;
  hybrid_threshold : option float;
  use_bert_routing : bool;
  use_llm_routing : bool
}.

Definition default_vector_keywords : list string :=
  [ "document"; "paper"; "research"; "study"; "publication";
    "article"; "content"; "text"; "explain"; "describe";
    "what is"; "how does"; "definition"; "overview" ].

Definition default_database_keywords : list string :=
  [ "temperature"; "salinity"; "pressure"; "depth"; "ph"; "oxygen"; "conductivity";
    "chlorophyll"; "turbidity"; "density"; "fluorescence";
    "data"; "measurement"; "sensor"; "instrument"; "value"; "reading";
    "latest"; "current"; "recent"; "today"; "yesterday"; "now";
    "cambridge bay"; "station"; "location"; "coordinates"; "site";
    "time series"; "when"; "since"; "from"; "to"; "between";
    "get"; "show"; "find"; "retrieve"; "what is the"; "how much";
    "give me"; "tell me" ].

(** [follow_up_info.get('is_follow_up')] as a truth value *)
Definition follow_up_flag (info : option FollowUp) : bool :=
  match info with
  | Some f => is_follow_up f
  | None => false
  end.

(** [follow_up_info.get('confidence', 0.0)] *)
Definition follow_up_confidence_of (info : option FollowUp) : float :=
  match info with
  | Some f => confidence f
  | None => 0%float
  end.

(** [follow_up_info.get('context_info', {}).get('last_metadata', {})] *)
Definition last_metadata_of (info : option FollowUp) : list (string * json) :=
  match info with
  | Some f =>
      match context_info f with
      | Some c => last_metadata c
      | None => []
      end
  | None => []
  end.

(** [_adjust_scores_for_follow_up(vector_score, database_score, follow_up_info)] *)
Definition _adjust_scores_for_follow_up (vector_score database_score : float)
    (info : option FollowUp) : float * float :=
  if negb (follow_up_flag info) then (vector_score, database_score)
  else
    let confidence := follow_up_confidence_of info in
    let last_metadata := last_metadata_of info in
    match assoc "route_type" last_metadata with
    | Some last_route =>
        let bias_strength := (confidence * 0.3)%float in
        if eq_str last_route "vector_search" then
          ((vector_score + bias_strength)%float, database_score)
        else if eq_str last_route "database_search" then
          (vector_score, (database_score + bias_strength)%float)
        else if existsb (eq_str last_route) ["hybrid_search"] then
          ((vector_score + bias_strength * 0.5)%float,
           (database_score + bias_strength * 0.5)%float)
        else (vector_score, database_score)
    | None => (vector_score, database_score)
    end.

(** The loop of the two score functions: [score += 1.0] for every keyword
    that occurs in the query. *)
Definition keyword_score (keywords : list string) (query : string) : float :=
  let score :=
    fold_left (fun score keyword =>
                 if py_in keyword query then (score + 1)%float else score)
              keywords 0%float in
  (score / float_of_Z (Z.max (Z.of_nat (word_count query)) 1))%float.

(** [_calculate_vector_score(query)] *)
Definition _calculate_vector_score (self : QueryRouter) (query : string) : float :=
  keyword_score (vector_keywords self) query.

(** [_calculate_database_score(query)] *)
Definition _calculate_database_score (self : QueryRouter) (query : string) : float :=
  keyword_score (database_keywords self) query.

(** [_make_routing_decision(vector_score, database_score, context)] *)
Definition _make_routing_decision (self : QueryRouter)
    (vector_score database_score : float) (context : Context) : RoutingDecision :=
  let has_vector_store := default true (has_vector_store context) in
  let has_database := default false (has_database context) in
  let vector_threshold := default 0.1%float (vector_threshold self) in
  let database_threshold := default 0.05%float (database_threshold self) in
  let hybrid_threshold := default 0.15%float (hybrid_threshold self) in
  if has_database && PrimFloat.ltb 0 database_score then
    if PrimFloat.ltb hybrid_threshold database_score
       && PrimFloat.ltb vector_threshold vector_score
    then mkDecision HYBRID_SEARCH (Some vector_score) (Some database_score) None
           [("vector_weight", JFloat 0.3); ("database_weight", JFloat 0.7)]
    else mkDecision DATABASE_SEARCH None (Some database_score) None
           [("search_type", JStr "structured")]
  else if PrimFloat.ltb vector_threshold vector_score && has_vector_store then
    mkDecision VECTOR_SEARCH (Some vector_score) None None
      [("search_type", JStr "semantic")]
  else
    mkDecision DIRECT_LLM None None None
      [("reason", JStr "No suitable data source or low confidence scores")].

Definition set_parameter (k : string) (v : json) (d : RoutingDecision) : RoutingDecision :=
  mkDecision (route d) (vector_score d) (database_score d) (classification d)
             (dict_set k v (parameters d)).

(** [_enhance_routing_with_context(routing_decision, query, context)] *)
Definition _enhance_routing_with_context (routing_decision : RoutingDecision)
    (context : Context) : RoutingDecision :=
  let info := follow_up_info context in
  let d := set_parameter "has_conversation_context"
             (JBool (truthy (JStr (conversation_context context)))) routing_decision in
  let d := set_parameter "is_follow_up" (JBool (follow_up_flag info)) d in
  let d := set_parameter "follow_up_confidence" (JFloat (follow_up_confidence_of info)) d in
  if follow_up_flag info && PrimFloat.ltb 0.7 (follow_up_confidence_of info) then
    match assoc "classification" (last_metadata_of info) with
    | Some last_classification =>
        let current_classification := default "" (classification d) in
        if negb (eq_str last_classification current_classification)
           && PrimFloat.ltb 0.8 (follow_up_confidence_of info)
        then
          set_parameter "inherited_classification" last_classification
            (set_parameter "original_classification" (JStr current_classification)
               (set_parameter "route_adjustment" (JStr "follow_up_bias") d))
        else d
    | None => d
    end
  else d.

Section Tiers.

(** The two model-based tiers are external: each either yields a decision
    or raises. *)
Variable _bert_route_query : string -> Context -> py RoutingDecision.
Variable _llm_route_query : string -> Context -> py RoutingDecision.

(** One model-based tier of [route_query]: the body of its [try]. *)
Definition model_tier (tier : string -> Context -> py RoutingDecision)
    (query : string) (context : Context) : py RoutingDecision :=
  try! routing_decision := tier query context in
  if truthy (JStr (conversation_context context))
     || follow_up_flag (follow_up_info context)
  then Ok (_enhance_routing_with_context routing_decision context)
  else Ok routing_decision.

(** The keyword tier of [route_query]. *)
Definition keyword_tier (self : QueryRouter) (query : string) (context : Context)
    : RoutingDecision :=
  let query_lower := lower query in
  let vector_score := _calculate_vector_score self query_lower in
  let database_score := _calculate_database_score self query_lower in
  let '(vector_score, database_score) :=
    if follow_up_flag (follow_up_info context)
    then _adjust_scores_for_follow_up vector_score database_score (follow_up_info context)
    else (vector_score, database_score) in
  _make_routing_decision self vector_score database_score context.

(** [route_query(query, context)] *)
Definition route_query (self : QueryRouter) (query : string) (context : Context)
    : RoutingDecision :=
  let after_bert :=
    if use_bert_routing self then model_tier _bert_route_query query context
    else Exc "skipped" in
  match after_bert with
  | Ok d => d
  | Exc _ =>
      let after_llm :=
        if use_llm_routing self then model_tier _llm_route_query query context
        else Exc "skipped" in
      match after_llm with
      | Ok d => d
      | Exc _ => keyword_tier self query context
      end
  end.

End Tiers.


(** *** The keyword tier *)

(** [n] as the float the scoring loop builds: 1.0 added [n] times. *)
Definition float_of_count (n : nat) : float :=
  Nat.iter n (fun score => (score + 1)%float) 0%float.

(** The keywords of a list that occur in the query. *)
Definition matches (keywords : list string) (query : string) : list string :=
  filter (fun keyword => py_in keyword query = true) keywords.

Lemma keyword_score_count (keywords : list string) (query : string) :
  keyword_score keywords query
  = (float_of_count (length (matches keywords query))
     / float_of_Z (Z.max (Z.of_nat (word_count query)) 1))%float.
Proof.
  unfold keyword_score. f_equal.
  change 0%float with (float_of_count 0) at 1.
  change (length (matches keywords query)) with (0 + length (matches keywords query))%nat.
  generalize 0%nat as k.
  induction keywords as [|kw kws IH]; intros k; cbn [fold_left].
  - cbn. rewrite Nat.add_0_r. reflexivity.
  - unfold matches. rewrite filter_cons.
    destruct (py_in kw query) eqn:Hin.
    + rewrite decide_True by reflexivity. cbn [length].
      change (float_of_count k + 1)%float with (float_of_count (S k)).
      rewrite (IH (S k)). unfold matches. f_equal. lia.
    + rewrite decide_False by discriminate. apply IH.
Qed.

(** Up to 64 matches (the default lists hold 14 and 42 keywords) the count
    built by the loop is the integer itself. *)
Lemma float_of_count_exact (n : nat) :
  (n <= 64)%nat -> float_of_count n = float_of_Z (Z.of_nat n).
Proof.
  intros Hn. do 65 (destruct n as [|n]; [vm_compute; reflexivity|]). lia.
Qed.

Lemma no_source_direct_llm (self : QueryRouter) (vector_score database_score : float)
    (context : Context) :
  has_vector_store context = Some false ->
  default false (has_database context) = false ->
  route (_make_routing_decision self vector_score database_score context) = DIRECT_LLM.
Proof.
  intros Hv Hd. unfold _make_routing_decision. rewrite Hv, Hd. cbn [default andb].
  rewrite andb_false_r. reflexivity.
Qed.

Section TierFacts.

Variable _bert_route_query : string -> Context -> py RoutingDecision.
Variable _llm_route_query : string -> Context -> py RoutingDecision.


End TierFacts.

(** The router as built from an empty configuration with neither model
    available, and a context with no source. *)
Definition keyword_only_router : QueryRouter :=
  mkRouter default_vector_keywords default_database_keywords None None None false false.

Definition unavailable (query : string) (context : Context) : py RoutingDecision :=
  Exc "unavailable".

Definition no_source : Context := mkContext "" None (Some false) (Some false).


End Router.

(** * Temporal references (src/database_search/enhanced_parameter_extractor.py) *)

Module Temporal.

Local Open Scope Z_scope.

(** ** [datetime.date], as the standard library computes it *)

Record date := mkDate { year : Z; month : Z; day : Z }.

Definition MINYEAR : Z := 1.
Definition MAXYEAR : Z := 9999.

Definition _is_leap (y : Z) : bool :=
  (y mod 4 =? 0) && (negb (y mod 100 =? 0) || (y mod 400 =? 0)).

(** Days before January 1st of year [y]. *)
Definition _days_before_year (y : Z) : Z :=
  let y := y - 1 in
  y * 365 + y / 4 - y / 100 + y / 400.

(** The tables [_DAYS_IN_MONTH] and [_DAYS_BEFORE_MONTH]. *)
Definition _DAYS_IN_MONTH (m : Z) : Z :=
  match m with
  | 1 => 31 | 2 => 28 | 3 => 31 | 4 => 30 | 5 => 31 | 6 => 30
  | 7 => 31 | 8 => 31 | 9 => 30 | 10 => 31 | 11 => 30 | 12 => 31
  | _ => 0
  end.

Definition _DAYS_BEFORE_MONTH (m : Z) : Z :=
  match m with
  | 1 => 0 | 2 => 31 | 3 => 59 | 4 => 90 | 5 => 120 | 6 => 151
  | 7 => 181 | 8 => 212 | 9 => 243 | 10 => 273 | 11 => 304 | 12 => 334
  | _ => 0
  end.

(** Days in year [y] before the first of month [m]. *)
Definition _days_before_month (y m : Z) : Z :=
  _DAYS_BEFORE_MONTH m + (if (2 <? m) && _is_leap y then 1 else 0).

Definition _days_in_month (y m : Z) : Z :=
  if (m =? 2) && _is_leap y then 29 else _DAYS_IN_MONTH m.

(** [date(y, m, d)]: [None] is [ValueError]. *)
Definition new_date (y m d : Z) : option date :=
  if (MINYEAR <=? y) && (y <=? MAXYEAR) && (1 <=? m) && (m <=? 12)
     && (1 <=? d) && (d <=? _days_in_month y m)
  then Some (mkDate y m d) else None.

(** [d.toordinal()]: January 1st of year 1 is day 1. *)
Definition toordinal (d : date) : Z :=
  _days_before_year (year d) + _days_before_month (year d) (month d) + day d.

Definition _DI400Y : Z := 146097.
Definition _DI100Y : Z := 36524.
Definition _DI4Y : Z := 1461.

(** [_ord2ymd(n)] *)
Definition _ord2ymd (n : Z) : date :=
  let n := n - 1 in
  let n400 := n / _DI400Y in
  let n := n mod _DI400Y in
  let y := n400 * 400 + 1 in
  let n100 := n / _DI100Y in
  let n := n mod _DI100Y in
  let n4 := n / _DI4Y in
  let n := n mod _DI4Y in
  let n1 := n / 365 in
  let n := n mod 365 in
  let y := y + n100 * 100 + n4 * 4 + n1 in
  if (n1 =? 4) || (n100 =? 4) then mkDate (y - 1) 12 31
  else
    let leapyear := (n1 =? 3) && (negb (n4 =? 24) || (n100 =? 3)) in
    let m := Z.shiftr (n + 50) 5 in
    let preceding :=
      _DAYS_BEFORE_MONTH m + (if (2 <? m) && leapyear then 1 else 0) in
    let '(m, preceding) :=
      if n <? preceding then
        (m - 1,
         preceding
         - (_DAYS_IN_MONTH (m - 1) + (if (m - 1 =? 2) && leapyear then 1 else 0)))
      else (m, preceding) in
    mkDate y m (n - preceding + 1).

(** [date.fromordinal(n)]: [None] is the error raised outside years 1-9999. *)
Definition fromordinal (n : Z) : option date :=
  if (1 <=? n) && (n <=? 3652059) then Some (_ord2ymd n) else None.

(** [(a - b).days] *)
Definition days_between (a b : date) : Z := toordinal a - toordinal b.

(** [d + timedelta(days=k)] *)
Definition add_days (d : date) (k : Z) : option date := fromordinal (toordinal d + k).

(** [d.weekday()]: Monday is 0. *)
Definition weekday (d : date) : Z := (toordinal d + 6) mod 7.

(** ** [datetime.datetime]: a date and the microseconds since midnight *)

Record datetime := mkDatetime { date_of : date; microsecond_of_day : Z }.

Definition DAY_US : Z := 86400000000.

(** [t + timedelta(microseconds=us)] *)
Definition add_microseconds (t : datetime) (us : Z) : option datetime :=
  let total := microsecond_of_day t + us in
  match add_days (date_of t) (total / DAY_US) with
  | Some d => Some (mkDatetime d (total mod DAY_US))
  | None => None
  end.

(** [datetime.combine(d, datetime.min.time())] *)
Definition midnight (d : date) : datetime := mkDatetime d 0.

Example toordinal_2023_04_12 : toordinal (mkDate 2023 4 12) = 738622.
Proof. reflexivity. Qed.

Example fromordinal_738622 : fromordinal 738622 = Some (mkDate 2023 4 12).
Proof. reflexivity. Qed.

(** ** The regular expressions the parser uses, matched as [re] does *)

Local Open Scope string_scope.

Definition is_digit (c : ascii) : bool :=
  let n := nat_of_ascii c in ((48 <=? n) && (n <=? 57))%nat.

(** A pattern.  Repetition is greedy; a group carries its number. *)
Inductive regex :=
| Lit (s : string)
| LitI (s : string)                       (* a lower-case literal under re.IGNORECASE *)
| Digit                                   (* \d *)
| Space                                   (* \s *)
| Seq (r1 r2 : regex)
| Alt (r1 r2 : regex)
| Opt (r : regex)                         (* r? *)
| Rep (r : regex) (lo hi : nat)           (* r{lo,hi} *)
| Plus (r : regex)                        (* r+ *)
| Group (i : nat) (r : regex).

(** [s.lower().startswith(p)] *)
Fixpoint startswith_lower (p s : string) : bool :=
  match p, s with
  | EmptyString, _ => true
  | String a p', String b s' => Ascii.eqb a (lower_char b) && startswith_lower p' s'
  | String _ _, EmptyString => false
  end.

(** [s[n:]] *)
Fixpoint str_drop (n : nat) (s : string) : string :=
  match n, s with
  | S n', String _ s' => str_drop n' s'
  | _, _ => s
  end.

Definition groups := list (nat * string).

Fixpoint group (i : nat) (g : groups) : string :=
  match g with
  | [] => ""
  | (j, s) :: g' => if (i =? j)%nat then s else group i g'
  end.

(** Backtracking matcher: [k] is what remains to be matched after [r]. *)
Fixpoint run (r : regex) (s : string) (g : groups)
    (k : string -> groups -> option groups) {struct r} : option groups :=
  match r with
  | Lit l => if startswith l s then k (str_drop (String.length l) s) g else None
  | LitI l => if startswith_lower l s then k (str_drop (String.length l) s) g else None
  | Digit =>
      match s with
      | String c s' => if is_digit c then k s' g else None
      | EmptyString => None
      end
  | Space =>
      match s with
      | String c s' => if is_space c then k s' g else None
      | EmptyString => None
      end
  | Seq r1 r2 => run r1 s g (fun s1 g1 => run r2 s1 g1 k)
  | Alt r1 r2 =>
      match run r1 s g k with
      | Some res => Some res
      | None => run r2 s g k
      end
  | Opt r1 =>
      match run r1 s g k with
      | Some res => Some res
      | None => k s g
      end
  | Rep r1 lo hi =>
      (fix rep (lo hi : nat) (s : string) (g : groups) {struct hi} : option groups :=
         match hi with
         | O => match lo with O => k s g | S _ => None end
         | S hi' =>
             match run r1 s g (fun s1 g1 => rep (pred lo) hi' s1 g1) with
             | Some res => Some res
             | None => match lo with O => k s g | S _ => None end
             end
         end) lo hi s g
  | Plus r1 =>
      (fix rep (lo hi : nat) (s : string) (g : groups) {struct hi} : option groups :=
         match hi with
         | O => match lo with O => k s g | S _ => None end
         | S hi' =>
             match run r1 s g (fun s1 g1 => rep (pred lo) hi' s1 g1) with
             | Some res => Some res
             | None => match lo with O => k s g | S _ => None end
             end
         end) 1%nat (String.length s) s g
  | Group i r1 =>
      run r1 s g
          (fun s1 g1 =>
             k s1 ((i, py_prefix (String.length s - String.length s1) s) :: g1))
  end.

(** [re.match(r, s)] *)
Definition re_match (r : regex) (s : string) : option groups :=
  run r s [] (fun _ g => Some g).

(** [re.search(r, s)]: the leftmost match. *)
Fixpoint re_search (r : regex) (s : string) : option groups :=
  match re_match r s with
  | Some g => Some g
  | None =>
      match s with
      | String _ s' => re_search r s'
      | EmptyString => None
      end
  end.

(** [int(s)] for a string of decimal digits. *)
Definition int_of (s : string) : Z :=
  fold_left (fun acc c => acc * 10 + Z.of_nat (nat_of_ascii c - 48))
            (list_ascii_of_string s) 0%Z.

Definition digits (lo hi : nat) : regex := Rep Digit lo hi.

(** [(?:st|nd|rd|th)?], compiled with [re.IGNORECASE] *)
Definition ordinal_suffix : regex :=
  Opt (Alt (LitI "st") (Alt (LitI "nd") (Alt (LitI "rd") (LitI "th")))).

(** [(\d{4})-(\d{1,2})-(\d{1,2})] *)
Definition iso_pattern : regex :=
  Seq (Group 1 (digits 4 4))
      (Seq (Lit "-") (Seq (Group 2 (digits 1 2)) (Seq (Lit "-") (Group 3 (digits 1 2))))).

(** [{month_name}\s+(\d{1,2})(?:st|nd|rd|th)?], compiled with [re.IGNORECASE] *)
Definition month_day_pattern (month_name : string) : regex :=
  Seq (LitI month_name) (Seq (Plus Space) (Seq (Group 1 (digits 1 2)) ordinal_suffix)).

(** [(\d{1,2})(?:st|nd|rd|th)?\s+{month_name}], compiled with [re.IGNORECASE] *)
Definition day_month_pattern (month_name : string) : regex :=
  Seq (Group 1 (digits 1 2)) (Seq ordinal_suffix (Seq (Plus Space) (LitI month_name))).

(** The four numeric patterns, with the number of groups of each. *)
Definition date_patterns : list (regex * nat) :=
  [ (Seq (Group 1 (digits 1 2))
         (Seq (Lit "/") (Seq (Group 2 (digits 1 2)) (Seq (Lit "/") (Group 3 (digits 4 4))))),
     3%nat);
    (Seq (Group 1 (digits 1 2)) (Seq (Lit "/") (Group 2 (digits 1 2))), 2%nat);
    (Seq (Group 1 (digits 1 2))
         (Seq (Lit "-") (Seq (Group 2 (digits 1 2)) (Seq (Lit "-") (Group 3 (digits 4 4))))),
     3%nat);
    (Seq (Group 1 (digits 1 2)) (Seq (Lit "-") (Group 2 (digits 1 2))), 2%nat) ].

Example iso_groups :
  re_match iso_pattern "2023-04-12 please"
  = Some [(3%nat, "12"); (2%nat, "04"); (1%nat, "2023")].
Proof. reflexivity. Qed.

Example day_month_backtracks :
  re_search (day_month_pattern "april") "on the 112th  april"
  = Some [(1%nat, "12")].
Proof. reflexivity. Qed.

Example month_name_in_capitals :
  re_search (month_day_pattern "april") "On April 12TH" = Some [(1%nat, "12")].
Proof. reflexivity. Qed.

Example month_day_needs_space :
  re_search (month_day_pattern "sep") "sept 5" = None
  /\ re_search (month_day_pattern "sept") "sept 5" = Some [(1%nat, "5")].
Proof. split; reflexivity. Qed.

(** ** [_parse_specific_date] *)

Local Open Scope Z_scope.

(** The [months] dict, in its order. *)
Definition months : list (string * Z) :=
  [ ("january", 1); ("jan", 1); ("february", 2); ("feb", 2);
    ("march", 3); ("mar", 3); ("april", 4); ("apr", 4); ("may", 5);
    ("june", 6); ("jun", 6); ("july", 7); ("jul", 7);
    ("august", 8); ("aug", 8); ("september", 9); ("sep", 9); ("sept", 9);
    ("october", 10); ("oct", 10); ("november", 11); ("nov", 11);
    ("december", 12); ("dec", 12) ].

(** The year rule for a reference that names no year: the candidate in
    [y] moves one year back when it lies more than 180 days after today,
    one year on when it lies more than 180 days before.  [None] is the
    [ValueError] of either [date(...)] call. *)
Definition adjust_year (y m d : Z) (today : date) : option date :=
  match new_date y m d with
  | Some candidate_date =>
      let days_diff := days_between candidate_date today in
      if 180 <? days_diff then new_date (y - 1) m d
      else if days_diff <? -180 then new_date (y + 1) m d
      else Some candidate_date
  | None => None
  end.

(** The body run for one month name: its two patterns in turn; a pattern
    that does not match, or whose date is invalid, lets the next one try. *)
Definition try_month (temporal_ref : string) (today : date) (entry : string * Z)
    : option date :=
  let '(month_name, month_num) := entry in
  let attempt (pattern : regex) : option date :=
    match re_search pattern temporal_ref with
    | Some g => adjust_year (year today) month_num (int_of (group 1 g)) today
    | None => None
    end in
  match attempt (month_day_pattern month_name) with
  | Some d => Some d
  | None => attempt (day_month_pattern month_name)
  end.

(** First result of [f] over a list: a loop that returns from inside. *)
Fixpoint first_some {A B} (f : A -> option B) (l : list A) : option B :=
  match l with
  | [] => None
  | x :: l' =>
      match f x with
      | Some y => Some y
      | None => first_some f l'
      end
  end.

(** The body run for one numeric pattern. *)
Definition try_numeric (temporal_ref : string) (today : date) (entry : regex * nat)
    : option date :=
  let '(pattern, n_groups) := entry in
  match re_search pattern temporal_ref with
  | Some g =>
      let part1 := int_of (group 1 g) in
      let part2 := int_of (group 2 g) in
      let has_year := (n_groups =? 3)%nat in
      let y := if has_year then int_of (group 3 g) else year today in
      first_some
        (fun md : Z * Z =>
           let '(m, d) := md in
           if (1 <=? m) && (m <=? 12) && (1 <=? d) && (d <=? 31) then
             if has_year then new_date y m d else adjust_year y m d today
           else None)
        [(part1, part2); (part2, part1)]
  | None => None
  end.

(** [_parse_specific_date(temporal_ref, now)] *)
Definition _parse_specific_date (temporal_ref : string) (now : datetime) : option date :=
  let today := date_of now in
  let iso :=
    match re_match iso_pattern temporal_ref with
    | Some g => new_date (int_of (group 1 g)) (int_of (group 2 g)) (int_of (group 3 g))
    | None => None
    end in
  match iso with
  | Some d => Some d
  | None =>
      match first_some (try_month temporal_ref today) months with
      | Some d => Some d
      | None => first_some (try_numeric temporal_ref today) date_patterns
      end
  end.

(** ** [_parse_temporal_reference] *)

(** [s.lstrip()], [s.rstrip()] and [s.strip()] *)
Fixpoint lstrip (s : string) : string :=
  match s with
  | String c s' => if is_space c then lstrip s' else s
  | EmptyString => EmptyString
  end.

Fixpoint rstrip (s : string) : string :=
  match s with
  | String c s' =>
      match rstrip s' with
      | EmptyString => if is_space c then EmptyString else String c EmptyString
      | rest => String c rest
      end
  | EmptyString => EmptyString
  end.

Definition strip (s : string) : string := rstrip (lstrip s).

Definition days : list string :=
  ["monday"; "tuesday"; "wednesday"; "thursday"; "friday"; "saturday"; "sunday"].

(** The loop over the day names: the first name found in the reference
    gives the most recent earlier day of that name. *)
Fixpoint find_day (temporal_ref : string) (today : date) (i : Z) (names : list string)
    : option Z :=
  match names with
  | [] => None
  | day :: rest =>
      if py_in day temporal_ref then
        let days_diff := i - weekday today in
        Some (if 0 <=? days_diff then days_diff - 7 else days_diff)
      else find_day temporal_ref today (i + 1) rest
  end.

(** What the relative keywords give: a date, or the week that ends now. *)
Inductive resolved :=
| OnDate (d : date)
| LastWeek.

(** The date the reference resolves to; [None] is the error raised when
    the arithmetic leaves the years 1-9999. *)
Definition resolve (temporal_ref : string) (now : datetime) : option resolved :=
  let today := date_of now in
  match _parse_specific_date temporal_ref now with
  | Some d => Some (OnDate d)
  | None =>
      if py_in "today" temporal_ref then Some (OnDate today)
      else if py_in "yesterday" temporal_ref then option_map OnDate (add_days today (-1))
      else if py_in "last week" temporal_ref then Some LastWeek
      else
        match find_day temporal_ref today 0 days with
        | Some days_diff => option_map OnDate (add_days today days_diff)
        | None => option_map OnDate (add_days today (-1))
        end
  end.

(** [_parse_temporal_reference(temporal_ref, temporal_type)] read at
    time [now]; a missing reference is the empty string. *)
Definition _parse_temporal_reference (temporal_ref temporal_type : string)
    (now : datetime) : option (datetime * datetime) :=
  if String.eqb temporal_ref "" then
    match add_microseconds now (- DAY_US) with
    | Some start_time => Some (start_time, now)
    | None => None
    end
  else
    let temporal_ref := strip (lower temporal_ref) in
    match resolve temporal_ref now with
    | Some LastWeek =>
        match add_microseconds now (- (7 * DAY_US)) with
        | Some start_time => Some (start_time, now)
        | None => None
        end
    | Some (OnDate d) =>
        let start_time := midnight d in
        let span := if String.eqb temporal_type "single_date"
                    then 12 * 3600 * 1000000 else DAY_US in
        match add_microseconds start_time span with
        | Some end_time => Some (start_time, end_time)
        | None => None
        end
    | None => None
    end.

Definition noon (y m d : Z) : datetime := mkDatetime (mkDate y m d) (12 * 3600 * 1000000).

Example iso_reference :
  _parse_temporal_reference "2023-04-12" "single_date" (noon 2025 7 1)
  = Some (midnight (mkDate 2023 4 12), noon 2023 4 12).
Proof. vm_compute. reflexivity. Qed.

Example april_12th_late_in_year :
  _parse_specific_date "april 12th" (noon 2024 12 1) = Some (mkDate 2025 4 12).
Proof. vm_compute. reflexivity. Qed.

Example nonsense_is_yesterday :
  _parse_temporal_reference "whenever" "single_date" (noon 2024 3 1)
  = Some (midnight (mkDate 2024 2 29), noon 2024 2 29).
Proof. vm_compute. reflexivity. Qed.

(** ** Facts about the date arithmetic *)

Lemma new_date_Some (y m d : Z) (dt : date) :
  new_date y m d = Some dt ->
  dt = mkDate y m d /\ 1 <= y <= 9999 /\ 1 <= m <= 12 /\ 1 <= d <= _days_in_month y m.
Proof.
  unfold new_date, MINYEAR, MAXYEAR.
  destruct (_ && _) eqn:Hv; [|discriminate].
  intros [= <-]. repeat rewrite andb_true_iff in Hv. rewrite !Z.leb_le in Hv.
  split; [reflexivity | lia].
Qed.

Lemma days_in_month_bounds (y m : Z) :
  1 <= m <= 12 -> 28 <= _days_in_month y m <= 31.
Proof.
  intros Hm. unfold _days_in_month, _DAYS_IN_MONTH.
  assert (m = 1 \/ m = 2 \/ m = 3 \/ m = 4 \/ m = 5 \/ m = 6 \/ m = 7 \/ m = 8
          \/ m = 9 \/ m = 10 \/ m = 11 \/ m = 12) as Hc by lia.
  destruct (_is_leap y); repeat (destruct Hc as [-> | Hc]); try subst m; cbn; lia.
Qed.

Lemma is_leap_spec (y : Z) :
  _is_leap y = true <-> y mod 4 = 0 /\ (y mod 100 <> 0 \/ y mod 400 = 0).
Proof.
  unfold _is_leap.
  rewrite andb_true_iff, orb_true_iff, negb_true_iff, !Z.eqb_eq, Z.eqb_neq.
  reflexivity.
Qed.

(** One year on, the same month and day lie 365 or 366 days later. *)
Lemma toordinal_next_year (y m d : Z) :
  1 <= y -> 1 <= m <= 12 ->
  365 <= toordinal (mkDate (y + 1) m d) - toordinal (mkDate y m d) <= 366.
Proof.
  intros Hy Hm.
  unfold toordinal, _days_before_year, _days_before_month, _DAYS_BEFORE_MONTH.
  cbn [year month day].
  destruct (_is_leap y) eqn:L0; destruct (_is_leap (y + 1)) eqn:L1.
  - exfalso. apply is_leap_spec in L0, L1. clear - L0 L1. Z.div_mod_to_equations. lia.
  - apply is_leap_spec in L0.
    assert (m = 1 \/ m = 2 \/ m = 3 \/ m = 4 \/ m = 5 \/ m = 6 \/ m = 7 \/ m = 8
            \/ m = 9 \/ m = 10 \/ m = 11 \/ m = 12) as Hcases by lia.
    repeat (destruct Hcases as [-> | Hcases]); try subst m; cbn; Z.div_mod_to_equations; lia.
  - apply is_leap_spec in L1.
    assert (m = 1 \/ m = 2 \/ m = 3 \/ m = 4 \/ m = 5 \/ m = 6 \/ m = 7 \/ m = 8
            \/ m = 9 \/ m = 10 \/ m = 11 \/ m = 12) as Hcases by lia.
    repeat (destruct Hcases as [-> | Hcases]); try subst m; cbn; Z.div_mod_to_equations; lia.
  - assert (m = 1 \/ m = 2 \/ m = 3 \/ m = 4 \/ m = 5 \/ m = 6 \/ m = 7 \/ m = 8
            \/ m = 9 \/ m = 10 \/ m = 11 \/ m = 12) as Hcases by lia.
    assert (y mod 4 <> 0 \/ (y mod 100 = 0 /\ y mod 400 <> 0)) as N0.
    { destruct (Z.eq_dec (y mod 4) 0) as [E4|]; [|left; assumption].
      destruct (Z.eq_dec (y mod 100) 0) as [E100|N100].
      - destruct (Z.eq_dec (y mod 400) 0) as [E400|]; [|right; split; assumption].
        assert (_is_leap y = true) by (apply is_leap_spec; tauto). congruence.
      - assert (_is_leap y = true) by (apply is_leap_spec; tauto). congruence. }
    repeat (destruct Hcases as [-> | Hcases]); try subst m; cbn; Z.div_mod_to_equations; lia.
Qed.

(** Two dates of one year are less than a year apart. *)
Lemma same_year_span (y m d m' d' : Z) :
  1 <= m <= 12 -> 1 <= d <= _days_in_month y m ->
  1 <= m' <= 12 -> 1 <= d' <= _days_in_month y m' ->
  -365 <= toordinal (mkDate y m d) - toordinal (mkDate y m' d') <= 365.
Proof.
  intros Hm Hd Hm' Hd'. unfold toordinal, _days_before_month, _days_in_month,
    _DAYS_BEFORE_MONTH, _DAYS_IN_MONTH in *.
  cbn [year month day].
  assert (m = 1 \/ m = 2 \/ m = 3 \/ m = 4 \/ m = 5 \/ m = 6 \/ m = 7 \/ m = 8
          \/ m = 9 \/ m = 10 \/ m = 11 \/ m = 12) as Hc by lia.
  assert (m' = 1 \/ m' = 2 \/ m' = 3 \/ m' = 4 \/ m' = 5 \/ m' = 6 \/ m' = 7 \/ m' = 8
          \/ m' = 9 \/ m' = 10 \/ m' = 11 \/ m' = 12) as Hc' by lia.
  set (leap := _is_leap y) in *. clearbody leap.
  generalize (_days_before_year y) as base. intros base.
  destruct leap;
    repeat (destruct Hc as [-> | Hc]); try subst m;
    repeat (destruct Hc' as [-> | Hc']); try subst m';
    cbn in *; lia.
Qed.

(** ** The ordinal of a date and back *)

Local Open Scope Z_scope.

(** The years elapsed before ordinal [n], as [_ord2ymd] counts them. *)
Lemma ord2ymd_years (n0 : Z) :
  0 <= n0 ->
  let n400 := n0 / 146097 in
  let r400 := n0 mod 146097 in
  let n100 := r400 / 36524 in
  let r100 := r400 mod 36524 in
  let n4 := r100 / 1461 in
  let r4 := r100 mod 1461 in
  let n1 := r4 / 365 in
  let r := r4 mod 365 in
  let Y := 400 * n400 + 100 * n100 + 4 * n4 + n1 in
  0 <= n400 /\ 0 <= n100 <= 4 /\ 0 <= n4 <= 24 /\ 0 <= n1 <= 4 /\ 0 <= r < 365 /\
  n0 = 146097 * n400 + 36524 * n100 + 1461 * n4 + 365 * n1 + r /\
  (n100 = 4 -> n4 = 0 /\ n1 = 0 /\ r = 0) /\
  (n1 = 4 -> r = 0 /\ n4 <= 23) /\
  (n4 = 24 -> n100 = 3 \/ n1 <= 2 \/ r < 364 \/ n1 <= 3).
Proof.
  intros H0. cbv zeta. Z.div_mod_to_equations. lia.
Qed.

Lemma days_before_year_digits (a b c e : Z) :
  0 <= b <= 3 -> 0 <= c <= 24 -> 0 <= e <= 3 ->
  _days_before_year (400 * a + 100 * b + 4 * c + e + 1)
  = 146097 * a + 36524 * b + 1461 * c + 365 * e.
Proof.
  intros Hb Hc He. unfold _days_before_year. cbv zeta.
  Z.div_mod_to_equations. lia.
Qed.

Lemma is_leap_digits (a b c e : Z) :
  0 <= b <= 3 -> 0 <= c <= 24 -> 0 <= e <= 3 ->
  _is_leap (400 * a + 100 * b + 4 * c + e + 1)
  = (e =? 3) && (negb (c =? 24) || (b =? 3)).
Proof.
  intros Hb Hc He. apply eq_true_iff_eq.
  rewrite is_leap_spec, andb_true_iff, orb_true_iff, negb_true_iff, !Z.eqb_eq, Z.eqb_neq.
  Z.div_mod_to_equations. lia.
Qed.

(** The month found by the estimate [(n + 50) >> 5], corrected once. *)
Lemma ord2ymd_month (r : Z) (leapyear : bool) :
  0 <= r < 365 ->
  let m := Z.shiftr (r + 50) 5 in
  let preceding := _DAYS_BEFORE_MONTH m + (if (2 <? m) && leapyear then 1 else 0) in
  let '(m', preceding') :=
    if r <? preceding then
      (m - 1,
       preceding
       - (_DAYS_IN_MONTH (m - 1) + (if (m - 1 =? 2) && leapyear then 1 else 0)))
    else (m, preceding) in
  1 <= m' <= 12
  /\ preceding' = _DAYS_BEFORE_MONTH m' + (if (2 <? m') && leapyear then 1 else 0)
  /\ 1 <= r - preceding' + 1
     <= _DAYS_IN_MONTH m' + (if (m' =? 2) && leapyear then 1 else 0).
Proof.
  intros Hr. cbv zeta. rewrite Z.shiftr_div_pow2 by lia.
  change (2 ^ 5) with 32.
  assert (1 <= (r + 50) / 32 <= 12) as Hm by (Z.div_mod_to_equations; lia).
  assert (32 * ((r + 50) / 32) <= r + 50 < 32 * ((r + 50) / 32) + 32) as Hq
    by (Z.div_mod_to_equations; lia).
  generalize dependent ((r + 50) / 32). intros m Hm Hq.
  assert (m = 1 \/ m = 2 \/ m = 3 \/ m = 4 \/ m = 5 \/ m = 6 \/ m = 7 \/ m = 8
          \/ m = 9 \/ m = 10 \/ m = 11 \/ m = 12) as Hc by lia.
  destruct leapyear;
    repeat (destruct Hc as [-> | Hc]); try subst m; cbn;
    match goal with |- context [r <? ?p] => destruct (Z.ltb_spec r p) end;
    repeat match goal with
           | |- context [Z.pos ?p - 1] =>
               let x := eval vm_compute in (Z.pos p - 1) in change (Z.pos p - 1) with x
           end;
    cbn; lia.
Qed.

(** A date that [date(y, m, d)] accepts. *)
Definition valid_date (d : date) : Prop :=
  1 <= year d <= 9999 /\ 1 <= month d <= 12
  /\ 1 <= day d <= _days_in_month (year d) (month d).

Lemma new_date_valid (y m d : Z) (dt : date) :
  new_date y m d = Some dt -> valid_date dt.
Proof.
  intros H. apply new_date_Some in H. destruct H as (-> & H). exact H.
Qed.

Lemma valid_new_date (d : date) :
  valid_date d -> new_date (year d) (month d) (day d) = Some d.
Proof.
  intros (Hy & Hm & Hd). unfold new_date, MINYEAR, MAXYEAR.
  destruct d as [y m dd]; cbn [year month day] in *.
  replace (1 <=? y) with true by (symmetry; apply Z.leb_le; lia).
  replace (y <=? 9999) with true by (symmetry; apply Z.leb_le; lia).
  replace (1 <=? m) with true by (symmetry; apply Z.leb_le; lia).
  replace (m <=? 12) with true by (symmetry; apply Z.leb_le; lia).
  replace (1 <=? dd) with true by (symmetry; apply Z.leb_le; lia).
  replace (dd <=? _days_in_month y m) with true by (symmetry; apply Z.leb_le; lia).
  reflexivity.
Qed.

(** [_ord2ymd] gives a date of the calendar, and the one with ordinal [n]. *)
Lemma ord2ymd_spec (n : Z) :
  1 <= n ->
  1 <= year (_ord2ymd n) /\ 1 <= month (_ord2ymd n) <= 12
  /\ 1 <= day (_ord2ymd n) <= _days_in_month (year (_ord2ymd n)) (month (_ord2ymd n))
  /\ toordinal (_ord2ymd n) = n.
Proof.
  intros Hn. unfold _ord2ymd, _DI400Y, _DI100Y, _DI4Y. cbv zeta.
  assert (0 <= n - 1) as H0 by lia.
  pose proof (ord2ymd_years (n - 1) H0) as HY. cbv zeta in HY.
  set (n400 := (n - 1) / 146097) in *.
  set (r400 := (n - 1) mod 146097) in *.
  set (n100 := r400 / 36524) in *.
  set (r100 := r400 mod 36524) in *.
  set (n4 := r100 / 1461) in *.
  set (r4 := r100 mod 1461) in *.
  set (n1 := r4 / 365) in *.
  set (r := r4 mod 365) in *.
  clearbody n400 n100 n4 n1 r. clear r400 r100 r4.
  destruct HY as (H400 & H100 & H4 & H1 & Hr & Hsum & He100 & He1 & _).
  destruct ((n1 =? 4) || (n100 =? 4)) eqn:Hedge.
  - apply orb_true_iff in Hedge. rewrite !Z.eqb_eq in Hedge.
    unfold toordinal. cbn [year month day].
    unfold _days_before_month, _days_in_month, _DAYS_BEFORE_MONTH, _DAYS_IN_MONTH.
    cbn [Z.ltb Z.eqb Z.compare Pos.compare Pos.compare_cont Pos.eqb andb].
    destruct Hedge as [E1 | E100].
    + destruct (He1 E1) as [-> Hn4]. subst n1.
      replace (n400 * 400 + 1 + n100 * 100 + n4 * 4 + 4 - 1)
        with (400 * n400 + 100 * n100 + 4 * n4 + 3 + 1) by lia.
      assert (n100 <= 3) by (destruct (Z.eq_dec n100 4) as [E|]; [apply He100 in E|]; lia).
      rewrite days_before_year_digits, is_leap_digits by lia.
      replace (3 =? 3) with true by reflexivity.
      destruct (Z.eqb_spec n4 24); [lia|]. cbn. lia.
    + destruct (He100 E100) as (-> & -> & ->). subst n100.
      replace (n400 * 400 + 1 + 4 * 100 + 0 * 4 + 0 - 1)
        with (400 * n400 + 100 * 3 + 4 * 24 + 3 + 1) by lia.
      rewrite days_before_year_digits, is_leap_digits by lia.
      cbn. lia.
  - apply orb_false_iff in Hedge. rewrite !Z.eqb_neq in Hedge.
    pose proof (ord2ymd_month r ((n1 =? 3) && (negb (n4 =? 24) || (n100 =? 3))) Hr) as Hm.
    cbv zeta in Hm.
    destruct (if r <? _ then _ else _) as [m' preceding'].
    destruct Hm as (Hm' & Hp & Hd).
    unfold toordinal. cbn [year month day]. unfold _days_before_month, _days_in_month.
    replace (n400 * 400 + 1 + n100 * 100 + n4 * 4 + n1)
      with (400 * n400 + 100 * n100 + 4 * n4 + n1 + 1) by lia.
    rewrite days_before_year_digits, is_leap_digits by lia.
    rewrite <- Hp.
    destruct ((m' =? 2) && _) eqn:Hfeb.
    + apply andb_true_iff in Hfeb. destruct Hfeb as [Hfeb _].
      apply Z.eqb_eq in Hfeb. subst m'. cbn in Hd. lia.
    + lia.
Qed.

(** [date.fromordinal(n).toordinal() == n] *)
Lemma toordinal_ord2ymd (n : Z) : 1 <= n -> toordinal (_ord2ymd n) = n.
Proof. intros Hn. apply ord2ymd_spec, Hn. Qed.

Lemma days_before_year_succ (y : Z) :
  _days_before_year (y + 1)
  = _days_before_year y + 365 + (if _is_leap y then 1 else 0).
Proof.
  unfold _days_before_year. cbv zeta.
  destruct (_is_leap y) eqn:L.
  - apply is_leap_spec in L. Z.div_mod_to_equations. lia.
  - assert (y mod 4 <> 0 \/ (y mod 100 = 0 /\ y mod 400 <> 0)) as N.
    { destruct (Z.eq_dec (y mod 4) 0) as [E4|]; [|left; assumption].
      destruct (Z.eq_dec (y mod 100) 0) as [E100|N100].
      - destruct (Z.eq_dec (y mod 400) 0) as [E400|]; [|right; split; assumption].
        assert (_is_leap y = true) by (apply is_leap_spec; tauto). congruence.
      - assert (_is_leap y = true) by (apply is_leap_spec; tauto). congruence. }
    Z.div_mod_to_equations. lia.
Qed.

Lemma days_before_year_mono (y y' : Z) :
  y <= y' -> _days_before_year y + 365 * (y' - y) <= _days_before_year y'.
Proof.
  intros H. revert y' H. apply Z.le_ind.
  - intros a b ->. reflexivity.
  - lia.
  - intros z Hz IH. unfold Z.succ. rewrite days_before_year_succ.
    destruct (_is_leap z); lia.
Qed.

(** The day of the year lies within the year. *)
Lemma day_of_year_bounds (d : date) :
  valid_date d ->
  1 <= _days_before_month (year d) (month d) + day d
    <= 365 + (if _is_leap (year d) then 1 else 0).
Proof.
  intros (_ & Hm & Hd). destruct d as [y m dd]; cbn [year month day] in *.
  unfold _days_before_month, _days_in_month, _DAYS_BEFORE_MONTH, _DAYS_IN_MONTH in *.
  assert (m = 1 \/ m = 2 \/ m = 3 \/ m = 4 \/ m = 5 \/ m = 6 \/ m = 7 \/ m = 8
          \/ m = 9 \/ m = 10 \/ m = 11 \/ m = 12) as Hc by lia.
  destruct (_is_leap y);
    repeat (destruct Hc as [-> | Hc]); try subst m; cbn in *; lia.
Qed.

(** Every valid date has an ordinal that [fromordinal] accepts. *)
Lemma toordinal_range (d : date) :
  valid_date d -> 1 <= toordinal d <= 3652059.
Proof.
  intros Hv. pose proof (day_of_year_bounds d Hv) as Hd.
  destruct Hv as (Hy & _). unfold toordinal.
  pose proof (days_before_year_mono 1 (year d) ltac:(lia)) as Hlo.
  pose proof (days_before_year_mono (year d + 1) 10000 ltac:(lia)) as Hhi.
  rewrite days_before_year_succ in Hhi.
  change (_days_before_year 1) with 0 in Hlo.
  change (_days_before_year 10000) with 3652059 in Hhi.
  lia.
Qed.

(** Distinct valid dates have distinct ordinals. *)
Lemma toordinal_inj (a b : date) :
  valid_date a -> valid_date b -> toordinal a = toordinal b -> a = b.
Proof.
  intros Ha Hb E.
  pose proof (day_of_year_bounds a Ha) as Da.
  pose proof (day_of_year_bounds b Hb) as Db.
  unfold toordinal in E.
  assert (year a = year b) as Ey.
  { destruct (Z.lt_trichotomy (year a) (year b)) as [L | [-> | L]]; [exfalso|reflexivity|exfalso].
    - pose proof (days_before_year_mono (year a + 1) (year b) ltac:(lia)) as M.
      rewrite days_before_year_succ in M. lia.
    - pose proof (days_before_year_mono (year b + 1) (year a) ltac:(lia)) as M.
      rewrite days_before_year_succ in M. lia. }
  destruct a as [y m d], b as [y' m' d']; cbn [year month day] in *. subst y'.
  destruct Ha as (_ & Hm & Hd), Hb as (_ & Hm' & Hd'). cbn [year month day] in *.
  assert (_days_before_month y m + d = _days_before_month y m' + d') as E' by lia.
  clear E Da Db.
  unfold _days_before_month, _days_in_month, _DAYS_BEFORE_MONTH, _DAYS_IN_MONTH in *.
  assert (m = 1 \/ m = 2 \/ m = 3 \/ m = 4 \/ m = 5 \/ m = 6 \/ m = 7 \/ m = 8
          \/ m = 9 \/ m = 10 \/ m = 11 \/ m = 12) as Hc by lia.
  assert (m' = 1 \/ m' = 2 \/ m' = 3 \/ m' = 4 \/ m' = 5 \/ m' = 6 \/ m' = 7 \/ m' = 8
          \/ m' = 9 \/ m' = 10 \/ m' = 11 \/ m' = 12) as Hc' by lia.
  assert (m = m' /\ d = d') as [-> ->]; [|reflexivity].
  set (leap := _is_leap y) in *. clearbody leap.
  destruct leap;
    repeat (destruct Hc as [-> | Hc]); try subst m;
    repeat (destruct Hc' as [-> | Hc']); try subst m';
    cbn in *; lia.
Qed.

Lemma days_before_month_table (m : Z) :
  1 <= m <= 12 -> 0 <= _DAYS_BEFORE_MONTH m <= 334.
Proof.
  intros Hm.
  assert (m = 1 \/ m = 2 \/ m = 3 \/ m = 4 \/ m = 5 \/ m = 6 \/ m = 7 \/ m = 8
          \/ m = 9 \/ m = 10 \/ m = 11 \/ m = 12) as Hc by lia.
  repeat (destruct Hc as [-> | Hc]); try subst m; cbn; lia.
Qed.

Lemma ord2ymd_valid (n : Z) : 1 <= n <= 3652059 -> valid_date (_ord2ymd n).
Proof.
  intros [Hlo Hhi]. destruct (ord2ymd_spec n Hlo) as (Hy & Hm & Hd & Ho).
  generalize dependent (_ord2ymd n). intros d Hy Hm Hd Ho.
  unfold valid_date. repeat split; try lia.
  destruct (Z.le_gt_cases (year d) 9999) as [|Hbig]; [assumption|exfalso].
  pose proof (days_before_year_mono 10000 (year d) ltac:(lia)) as M.
  change (_days_before_year 10000) with 3652059 in M.
  unfold toordinal, _days_before_month in Ho.
  pose proof (days_before_month_table (month d) Hm).
  destruct ((2 <? _) && _); lia.
Qed.

(** [date.fromordinal(d.toordinal()) == d] *)
Lemma fromordinal_toordinal (d : date) :
  valid_date d -> fromordinal (toordinal d) = Some d.
Proof.
  intros Hv. pose proof (toordinal_range d Hv) as Hr.
  unfold fromordinal.
  replace (1 <=? toordinal d) with true by (symmetry; apply Z.leb_le; lia).
  replace (toordinal d <=? 3652059) with true by (symmetry; apply Z.leb_le; lia).
  cbn [andb]. f_equal.
  apply toordinal_inj; [apply ord2ymd_valid; lia | assumption |].
  apply toordinal_ord2ymd. lia.
Qed.

(** [d + timedelta(days=k)] is the date [k] days on, when there is one. *)
Lemma add_days_Some (d : date) (k : Z) :
  1 <= toordinal d + k <= 3652059 ->
  exists d', add_days d k = Some d' /\ valid_date d' /\ days_between d' d = k.
Proof.
  intros Hr. exists (_ord2ymd (toordinal d + k)).
  unfold add_days, fromordinal, days_between.
  replace (1 <=? toordinal d + k) with true by (symmetry; apply Z.leb_le; lia).
  replace (toordinal d + k <=? 3652059) with true by (symmetry; apply Z.leb_le; lia).
  split; [reflexivity|]. split; [apply ord2ymd_valid; lia|].
  rewrite toordinal_ord2ymd by lia. lia.
Qed.

(** ** ISO references *)

Local Open Scope string_scope.

Definition iso_text (c1 c2 c3 c4 m1 m2 d1 d2 : ascii) (rest : string) : string :=
  String c1 (String c2 (String c3 (String c4 (String "-"
    (String m1 (String m2 (String "-" (String d1 (String d2 rest))))))))).

Lemma iso_match (c1 c2 c3 c4 m1 m2 d1 d2 : ascii) (rest : string) :
  is_digit c1 = true -> is_digit c2 = true -> is_digit c3 = true -> is_digit c4 = true ->
  is_digit m1 = true -> is_digit m2 = true -> is_digit d1 = true -> is_digit d2 = true ->
  re_match iso_pattern (iso_text c1 c2 c3 c4 m1 m2 d1 d2 rest)
  = Some [(3%nat, String d1 (String d2 EmptyString));
          (2%nat, String m1 (String m2 EmptyString));
          (1%nat, String c1 (String c2 (String c3 (String c4 EmptyString))))].
Proof.
  intros H1 H2 H3 H4 H5 H6 H7 H8.
  unfold re_match, iso_pattern, digits, iso_text.
  cbn. rewrite H1, H2, H3, H4. cbn. rewrite H5, H6. cbn. rewrite H7, H8. cbn.
  replace (S (S (String.length rest)) - String.length rest)%nat with 2%nat by lia.
  replace (S (S (S (S (String.length rest)))) - String.length rest)%nat with 4%nat by lia.
  reflexivity.
Qed.

(** [str(k)] for one decimal digit, and [%02d], [%04d]. *)
Definition digit_char (k : Z) : ascii := ascii_of_nat (48 + Z.to_nat k).

Definition two_digits (k : Z) : string :=
  String (digit_char (k / 10)) (String (digit_char (k mod 10)) EmptyString).

Definition four_digits (k : Z) : string :=
  String (digit_char (k / 1000)) (String (digit_char (k / 100 mod 10))
    (String (digit_char (k / 10 mod 10)) (String (digit_char (k mod 10)) EmptyString))).

(** [d.isoformat()] *)
Definition isoformat (d : date) : string :=
  four_digits (year d) ++ "-" ++ two_digits (month d) ++ "-" ++ two_digits (day d).

Lemma digit_char_spec (k : Z) :
  (0 <= k <= 9)%Z ->
  is_digit (digit_char k) = true
  /\ Z.of_nat (nat_of_ascii (digit_char k) - 48) = k
  /\ lower_char (digit_char k) = digit_char k
  /\ is_space (digit_char k) = false.
Proof.
  intros Hk.
  assert (k = 0 \/ k = 1 \/ k = 2 \/ k = 3 \/ k = 4 \/ k = 5 \/ k = 6 \/ k = 7
          \/ k = 8 \/ k = 9)%Z as Hc by lia.
  repeat (destruct Hc as [-> | Hc]); try subst k; repeat split; reflexivity.
Qed.

Lemma int_of_two_digits (k : Z) : (0 <= k <= 99)%Z -> int_of (two_digits k) = k.
Proof.
  intros Hk. unfold int_of, two_digits. cbn [list_ascii_of_string fold_left].
  destruct (digit_char_spec (k / 10)) as (_ & -> & _); [Z.div_mod_to_equations; lia|].
  destruct (digit_char_spec (k mod 10)) as (_ & -> & _); [Z.div_mod_to_equations; lia|].
  Z.div_mod_to_equations; lia.
Qed.

Lemma int_of_four_digits (k : Z) : (0 <= k <= 9999)%Z -> int_of (four_digits k) = k.
Proof.
  intros Hk. unfold int_of, four_digits. cbn [list_ascii_of_string fold_left].
  destruct (digit_char_spec (k / 1000)) as (_ & -> & _); [Z.div_mod_to_equations; lia|].
  destruct (digit_char_spec (k / 100 mod 10)) as (_ & -> & _); [Z.div_mod_to_equations; lia|].
  destruct (digit_char_spec (k / 10 mod 10)) as (_ & -> & _); [Z.div_mod_to_equations; lia|].
  destruct (digit_char_spec (k mod 10)) as (_ & -> & _); [Z.div_mod_to_equations; lia|].
  Z.div_mod_to_equations; lia.
Qed.

(** An ISO date at the head of the reference is the date returned. *)
Lemma parse_isoformat (d : date) (rest : string) (now : datetime) :
  valid_date d -> _parse_specific_date (isoformat d ++ rest) now = Some d.
Proof.
  intros Hv. pose proof Hv as (Hy & Hm & Hd).
  pose proof (days_in_month_bounds (year d) (month d) Hm) as Hdim.
  unfold _parse_specific_date.
  change (isoformat d ++ rest)
    with (iso_text (digit_char (year d / 1000)) (digit_char (year d / 100 mod 10))
            (digit_char (year d / 10 mod 10)) (digit_char (year d mod 10))
            (digit_char (month d / 10)) (digit_char (month d mod 10))
            (digit_char (day d / 10)) (digit_char (day d mod 10)) rest).
  rewrite iso_match; try (apply digit_char_spec; Z.div_mod_to_equations; lia).
  cbn [group Nat.eqb].
  change (String (digit_char (day d / 10)) (String (digit_char (day d mod 10)) EmptyString))
    with (two_digits (day d)).
  change (String (digit_char (month d / 10)) (String (digit_char (month d mod 10)) EmptyString))
    with (two_digits (month d)).
  change (String (digit_char (year d / 1000)) _) with (four_digits (year d)).
  rewrite int_of_four_digits, !int_of_two_digits by lia.
  rewrite (valid_new_date d Hv). reflexivity.
Qed.

(** ** The year given to a reference that names none *)

Local Open Scope Z_scope.

(** The date chosen has the month and day asked for, lies in the current
    year or next to it, and is at most 185 days from today. *)
Lemma adjust_year_spec (m d : Z) (today r : date) :
  valid_date today ->
  adjust_year (year today) m d today = Some r ->
  month r = m /\ day r = d /\ valid_date r
  /\ year today - 1 <= year r <= year today + 1
  /\ -185 <= days_between r today <= 185.
Proof.
  intros (Hy & Hm' & Hd') Hr. unfold adjust_year in Hr.
  destruct (new_date (year today) m d) as [c|] eqn:Hc; [|discriminate Hr].
  pose proof (new_date_valid _ _ _ _ Hc) as Hvc.
  apply new_date_Some in Hc. destruct Hc as (-> & _ & Hm & Hd).
  pose proof (same_year_span (year today) m d (month today) (day today) Hm Hd Hm' Hd') as Hspan.
  unfold days_between in *.
  replace (mkDate (year today) (month today) (day today)) with today in Hspan
    by (destruct today; reflexivity).
  destruct (180 <? _) eqn:Hfar.
  - apply Z.ltb_lt in Hfar. pose proof (new_date_valid _ _ _ _ Hr) as Hvr.
    apply new_date_Some in Hr. destruct Hr as (-> & Hy1 & _).
    pose proof (toordinal_next_year (year today - 1) m d ltac:(lia) Hm) as Hn.
    replace (year today - 1 + 1) with (year today) in Hn by lia.
    cbn [year month day]. repeat split; try assumption; try apply Hvr; lia.
  - apply Z.ltb_ge in Hfar. destruct (_ <? -180) eqn:Hold.
    + apply Z.ltb_lt in Hold. pose proof (new_date_valid _ _ _ _ Hr) as Hvr.
      apply new_date_Some in Hr. destruct Hr as (-> & Hy1 & _).
      pose proof (toordinal_next_year (year today) m d ltac:(lia) Hm) as Hn.
      cbn [year month day]. repeat split; try assumption; try apply Hvr; lia.
    + apply Z.ltb_ge in Hold. injection Hr as <-.
      cbn [year month day]. repeat split; try assumption; try apply Hvc; lia.
Qed.

(** A current-year date within 180 days of today is the one chosen. *)
Lemma adjust_year_near (m d : Z) (today c : date) :
  new_date (year today) m d = Some c ->
  -180 <= days_between c today <= 180 ->
  adjust_year (year today) m d today = Some c.
Proof.
  intros Hc Hnear. unfold adjust_year. rewrite Hc.
  replace (180 <? days_between c today) with false by (symmetry; apply Z.ltb_ge; lia).
  replace (days_between c today <? -180) with false by (symmetry; apply Z.ltb_ge; lia).
  reflexivity.
Qed.

(** ** The window of a resolved date *)

Lemma half_day_window (d : date) :
  valid_date d ->
  add_microseconds (midnight d) (12 * 3600 * 1000000)
  = Some (mkDatetime d (12 * 3600 * 1000000)).
Proof.
  intros Hv. unfold add_microseconds, midnight. cbn [date_of microsecond_of_day].
  change ((0 + 12 * 3600 * 1000000) / DAY_US) with 0.
  change ((0 + 12 * 3600 * 1000000) mod DAY_US) with (12 * 3600 * 1000000).
  unfold add_days. rewrite Z.add_0_r, (fromordinal_toordinal d Hv). reflexivity.
Qed.

Lemma one_day_window (d : date) :
  valid_date d -> toordinal d < 3652059 ->
  exists d', add_days d 1 = Some d' /\ days_between d' d = 1
             /\ add_microseconds (midnight d) DAY_US = Some (midnight d').
Proof.
  intros Hv Hlast. pose proof (toordinal_range d Hv) as Hr.
  destruct (add_days_Some d 1 ltac:(lia)) as (d' & Hd' & _ & Hb).
  exists d'. split; [exact Hd'|]. split; [exact Hb|].
  unfold add_microseconds, midnight. cbn [date_of microsecond_of_day].
  change ((0 + DAY_US) / DAY_US) with 1. change ((0 + DAY_US) mod DAY_US) with 0.
  rewrite Hd'. reflexivity.
Qed.

(** A result whose window opens at midnight of [d]. *)
Definition starts_on (result : option (datetime * datetime)) (d : date) : Prop :=
  exists end_time, result = Some (midnight d, end_time).

Lemma window_starts_on (d : date) (temporal_type : string) :
  valid_date d ->
  temporal_type = "single_date"%string \/ toordinal d < 3652059 ->
  exists end_time,
    add_microseconds (midnight d)
      (if String.eqb temporal_type "single_date" then 12 * 3600 * 1000000 else DAY_US)
    = Some end_time.
Proof.
  intros Hv Hty. destruct (String.eqb temporal_type "single_date") eqn:E.
  - eexists. apply half_day_window, Hv.
  - destruct Hty as [-> | Hlast]; [discriminate E|].
    destruct (one_day_window d Hv Hlast) as (d' & _ & _ & H). eexists. exact H.
Qed.

(** A reference that resolves to a date gives a window opening on it. *)
Lemma resolved_starts_on (temporal_ref temporal_type : string) (now : datetime) (d : date) :
  temporal_ref <> ""%string ->
  resolve (strip (lower temporal_ref)) now = Some (OnDate d) ->
  valid_date d ->
  temporal_type = "single_date"%string \/ toordinal d < 3652059 ->
  starts_on (_parse_temporal_reference temporal_ref temporal_type now) d.
Proof.
  intros Hne Hres Hv Hty. unfold starts_on, _parse_temporal_reference.
  destruct (String.eqb_spec temporal_ref ""); [contradiction|].
  rewrite Hres.
  destruct (window_starts_on d temporal_type Hv Hty) as (e & He).
  exists e. rewrite He. reflexivity.
Qed.

(** ** ISO references, read by [_parse_temporal_reference] *)

Local Open Scope string_scope.

Lemma lstrip_head (c : ascii) (s : string) :
  is_space c = false -> lstrip (String c s) = String c s.
Proof. intros H. cbn [lstrip]. rewrite H. reflexivity. Qed.

Lemma rstrip_head (c : ascii) (s : string) :
  is_space c = false -> rstrip (String c s) = String c (rstrip s).
Proof. intros H. cbn [rstrip]. rewrite H. destruct (rstrip s); reflexivity. Qed.

Lemma isoformat_text (d : date) (rest : string) :
  isoformat d ++ rest
  = iso_text (digit_char (year d / 1000)) (digit_char (year d / 100 mod 10))
      (digit_char (year d / 10 mod 10)) (digit_char (year d mod 10))
      (digit_char (month d / 10)) (digit_char (month d mod 10))
      (digit_char (day d / 10)) (digit_char (day d mod 10)) rest.
Proof. reflexivity. Qed.

(** Lower-casing and stripping leave the date text as it is. *)
Lemma strip_lower_isoformat (d : date) (rest : string) :
  valid_date d ->
  strip (lower (isoformat d ++ rest)) = isoformat d ++ rstrip (lower rest).
Proof.
  intros (Hy & Hm & Hd).
  pose proof (days_in_month_bounds (year d) (month d) Hm) as Hdim.
  rewrite !isoformat_text. unfold iso_text, strip. cbn [lower].
  assert (forall k, (0 <= k <= 9)%Z ->
            lower_char (digit_char k) = digit_char k /\ is_space (digit_char k) = false)
    as Hdigit by (intros k Hk; split; apply digit_char_spec, Hk).
  destruct (Hdigit (year d / 1000)%Z) as [-> S1]; [Z.div_mod_to_equations; lia|].
  destruct (Hdigit (year d / 100 mod 10)%Z) as [-> S2]; [Z.div_mod_to_equations; lia|].
  destruct (Hdigit (year d / 10 mod 10)%Z) as [-> S3]; [Z.div_mod_to_equations; lia|].
  destruct (Hdigit (year d mod 10)%Z) as [-> S4]; [Z.div_mod_to_equations; lia|].
  destruct (Hdigit (month d / 10)%Z) as [-> S5]; [Z.div_mod_to_equations; lia|].
  destruct (Hdigit (month d mod 10)%Z) as [-> S6]; [Z.div_mod_to_equations; lia|].
  destruct (Hdigit (day d / 10)%Z) as [-> S7]; [Z.div_mod_to_equations; lia|].
  destruct (Hdigit (day d mod 10)%Z) as [-> S8]; [Z.div_mod_to_equations; lia|].
  change (lower_char "-") with "-"%char.
  rewrite lstrip_head by exact S1.
  rewrite !rstrip_head by (assumption || reflexivity).
  reflexivity.
Qed.

Lemma iso_reference_starts_on (d : date) (rest temporal_type : string) (now : datetime) :
  valid_date d ->
  temporal_type = "single_date" \/ (toordinal d < 3652059)%Z ->
  starts_on (_parse_temporal_reference (isoformat d ++ rest) temporal_type now) d.
Proof.
  intros Hv Hty. apply resolved_starts_on; try assumption.
  - rewrite isoformat_text. unfold iso_text. intros E; discriminate E.
  - rewrite strip_lower_isoformat by exact Hv.
    unfold resolve. rewrite parse_isoformat by exact Hv. reflexivity.
Qed.

(** ** References that name a month and a day *)

Local Open Scope Z_scope.

(** The day a pattern finds in the reference, if it matches. *)
Definition found (pattern : regex) (temporal_ref : string) : list Z :=
  match re_search pattern temporal_ref with
  | Some g => [int_of (group 1 g)]
  | None => []
  end.

(** The month and day of every match, in the order the loops meet them. *)
Definition candidates (temporal_ref : string) : list (Z * Z) :=
  flat_map
    (fun entry : string * Z =>
       map (pair (snd entry))
           (found (month_day_pattern (fst entry)) temporal_ref
            ++ found (day_month_pattern (fst entry)) temporal_ref)%list)
    months.

Lemma first_some_app {A B} (f : A -> option B) (l1 l2 : list A) :
  first_some f (l1 ++ l2)%list
  = match first_some f l1 with Some y => Some y | None => first_some f l2 end.
Proof.
  induction l1 as [|x l1 IH]; [reflexivity|].
  cbn [first_some app]. destruct (f x); [reflexivity | exact IH].
Qed.

Lemma try_month_found (temporal_ref : string) (today : date) (entry : string * Z) :
  try_month temporal_ref today entry
  = first_some (fun md : Z * Z => adjust_year (year today) (fst md) (snd md) today)
      (map (pair (snd entry))
           (found (month_day_pattern (fst entry)) temporal_ref
            ++ found (day_month_pattern (fst entry)) temporal_ref)%list).
Proof.
  destruct entry as [month_name month_num]. unfold try_month, found.
  cbv beta zeta. cbn [fst snd].
  destruct (re_search (month_day_pattern month_name) temporal_ref) as [g1|];
    destruct (re_search (day_month_pattern month_name) temporal_ref) as [g2|];
    cbn [app map first_some fst snd];
    repeat match goal with |- context [adjust_year ?y ?m ?d ?t] =>
             destruct (adjust_year y m d t)
           end; reflexivity.
Qed.

(** The loop over the month names tries the candidates in turn. *)
Lemma months_loop_candidates (temporal_ref : string) (today : date) :
  first_some (try_month temporal_ref today) months
  = first_some (fun md : Z * Z => adjust_year (year today) (fst md) (snd md) today)
      (candidates temporal_ref).
Proof.
  unfold candidates. induction months as [|entry l IH]; [reflexivity|].
  cbn [first_some flat_map]. rewrite first_some_app, <- try_month_found, IH.
  reflexivity.
Qed.

Lemma first_some_constant {A B} (f : A -> option B) (x : A) (l : list A) :
  l <> [] -> Forall (eq x) l -> first_some f l = f x.
Proof.
  induction l as [|a l IH]; [contradiction|].
  intros _ Hall. apply Forall_cons in Hall. destruct Hall as [<- Hl]. cbn [first_some].
  destruct l as [|b l'].
  - cbn [first_some]. destruct (f x); reflexivity.
  - rewrite IH by (assumption || discriminate). destruct (f x); reflexivity.
Qed.

Definition is_none {A} (o : option A) : bool :=
  match o with None => true | Some _ => false end.

(** What the parser needs of a reference, once lower-cased and stripped,
    to read it as month [num], day [d] and nothing else: it does not start
    with an ISO date, some month pattern matches, every month pattern that
    matches finds this month and this day, and no numeric pattern matches. *)
Definition names_month_and_day (s : string) (num d : Z) : bool :=
  is_none (re_match iso_pattern s)
  && negb (match candidates s with [] => true | _ => false end)
  && forallb (fun md : Z * Z => (fst md =? num) && (snd md =? d)) (candidates s)
  && forallb (fun p : regex * nat => is_none (re_search (fst p) s)) date_patterns.

Lemma numeric_loop_none (s : string) (today : date) (l : list (regex * nat)) :
  forallb (fun p : regex * nat => is_none (re_search (fst p) s)) l = true ->
  first_some (try_numeric s today) l = None.
Proof.
  induction l as [|[pattern n] l IH]; [reflexivity|].
  cbn [forallb first_some fst]. intros H. apply andb_true_iff in H. destruct H as [Hp Hl].
  unfold try_numeric at 1. destruct (re_search pattern s); [discriminate Hp|].
  apply IH, Hl.
Qed.

Lemma names_month_and_day_parse (s : string) (num d : Z) (now : datetime) :
  names_month_and_day s num d = true ->
  _parse_specific_date s now
  = adjust_year (year (date_of now)) num d (date_of now).
Proof.
  unfold names_month_and_day. rewrite !andb_true_iff.
  intros (((Hiso & Hne) & Hall) & Hnum).
  unfold _parse_specific_date. cbv zeta.
  destruct (re_match iso_pattern s); [discriminate Hiso|].
  rewrite months_loop_candidates.
  rewrite (first_some_constant _ (num, d)).
  - cbn [fst snd]. destruct (adjust_year _ _ _ _); [reflexivity|].
    apply numeric_loop_none, Hnum.
  - destruct (candidates s); [discriminate Hne | discriminate].
  - apply Forall_forall. intros [m d'] Hin.
    rewrite forallb_forall in Hall. specialize (Hall (m, d')).
    rewrite <- list_elem_of_In in Hall. specialize (Hall Hin).
    cbn [fst snd] in Hall. apply andb_true_iff in Hall.
    rewrite !Z.eqb_eq in Hall. destruct Hall as [-> ->]. reflexivity.
Qed.

(** Every month name the parser knows, as "april 12", "april 12th",
    "12 april" and "12th april". *)
Definition month_references_checked : bool :=
  forallb (fun entry : string * Z =>
    forallb (fun suffix =>
      names_month_and_day (fst entry ++ " 12" ++ suffix)%string (snd entry) 12
      && names_month_and_day ("12" ++ suffix ++ " " ++ fst entry)%string (snd entry) 12)
    [""; "th"]%string)
  months.

Lemma month_references_ok : month_references_checked = true.
Proof. vm_compute. reflexivity. Qed.

(** ** References that name nothing *)

Definition no_relative_keyword (s : string) : bool :=
  negb (py_in "today" s) && negb (py_in "yesterday" s) && negb (py_in "last week" s)
  && forallb (fun day => negb (py_in day s)) days.

Lemma find_day_none (s : string) (today : date) (i : Z) (names : list string) :
  forallb (fun day => negb (py_in day s)) names = true ->
  find_day s today i names = None.
Proof.
  revert i. induction names as [|day names IH]; intros i H; [reflexivity|].
  cbn [forallb] in H. apply andb_true_iff in H. destruct H as [Hd Hn].
  cbn [find_day]. apply negb_true_iff in Hd. rewrite Hd. apply IH, Hn.
Qed.

(** With no date and no keyword in it, the reference is read as the day
    before today. *)
Lemma default_is_yesterday (temporal_ref temporal_type : string) (now : datetime) :
  temporal_ref <> ""%string ->
  _parse_specific_date (strip (lower temporal_ref)) now = None ->
  no_relative_keyword (strip (lower temporal_ref)) = true ->
  valid_date (date_of now) ->
  2 <= toordinal (date_of now) ->
  exists yesterday,
    starts_on (_parse_temporal_reference temporal_ref temporal_type now) yesterday
    /\ days_between yesterday (date_of now) = -1.
Proof.
  intros Hne Hnone Hkey Hv Hfirst.
  pose proof (toordinal_range _ Hv) as Hr.
  destruct (add_days_Some (date_of now) (-1) ltac:(lia)) as (y & Hy & Hvy & Hby).
  exists y. split; [|exact Hby].
  apply resolved_starts_on; try assumption.
  - unfold no_relative_keyword in Hkey. rewrite !andb_true_iff, !negb_true_iff in Hkey.
    destruct Hkey as (((Ht & Hyd) & Hlw) & Hdays).
    unfold resolve. cbv zeta. rewrite Hnone, Ht, Hyd, Hlw.
    rewrite find_day_none by exact Hdays. rewrite Hy. reflexivity.
  - right. unfold days_between in Hby. lia.
Qed.

(** ** What a reference resolves to *)

(** The date the year rule picks for month [m], day [d]: the one of the
    current year, or of the year before when that lies more than 180 days
    ahead, or of the year after when it lies more than 180 days back. *)
Definition nearest_year (m d : Z) (today : date) : date :=
  let days_diff := days_between (mkDate (year today) m d) today in
  if 180 <? days_diff then mkDate (year today - 1) m d
  else if days_diff <? -180 then mkDate (year today + 1) m d
  else mkDate (year today) m d.

Lemma nearest_year_shape (m d : Z) (today : date) :
  nearest_year m d today = mkDate (year (nearest_year m d today)) m d.
Proof.
  unfold nearest_year. cbv zeta.
  destruct (180 <? _); [reflexivity|]. destruct (_ <? -180); reflexivity.
Qed.

(** When month and day make a date of the current year, the year rule
    returns the date it picks, if there is such a date. *)
Lemma adjust_year_nearest (m d : Z) (today c : date) :
  new_date (year today) m d = Some c ->
  adjust_year (year today) m d today
  = new_date (year (nearest_year m d today)) m d.
Proof.
  intros Hc. unfold adjust_year, nearest_year. rewrite Hc. cbv zeta.
  pose proof Hc as Hc'. apply new_date_Some in Hc' as (-> & _).
  destruct (180 <? _); [reflexivity|]. destruct (_ <? -180); [reflexivity|].
  cbn [year]. symmetry. exact Hc.
Qed.


Ltac calendar :=
  vm_compute; repeat split; intros E; discriminate E.


(** "Feb 29" read on 1 December 2024 is 30 November 2024. *)
Example feb_29_is_yesterday :
  _parse_specific_date "feb 29" (noon 2024 12 1) = None
  /\ days_between (mkDate 2024 2 29) (mkDate 2024 12 1) = -276
  /\ new_date 2025 2 29 = None
  /\ _parse_temporal_reference "Feb 29" "single_date" (noon 2024 12 1)
     = Some (midnight (mkDate 2024 11 30), noon 2024 11 30).
Proof. repeat split; vm_compute; reflexivity. Qed.


(** ** Relative references *)

Lemma weekday_range (d : date) : 0 <= weekday d <= 6.
Proof. unfold weekday. Z.div_mod_to_equations. lia. Qed.

(** What the loop over the day names returns: the first name that occurs
    in the reference, as a number of days back. *)
Lemma find_day_Some (s : string) (today : date) (i : Z) (names : list string)
    (days_diff : Z) :
  find_day s today i names = Some days_diff ->
  exists (j : nat) (name : string),
    names !! j = Some name /\ py_in name s = true
    /\ days_diff = (if 0 <=? i + Z.of_nat j - weekday today
                    then i + Z.of_nat j - weekday today - 7
                    else i + Z.of_nat j - weekday today).
Proof.
  revert i. induction names as [|day names IH]; intros i; cbn [find_day];
    [intros E; discriminate E|].
  destruct (py_in day s) eqn:Hin.
  - intros [= <-]. exists 0%nat, day. split; [reflexivity|]. split; [exact Hin|].
    rewrite Z.add_0_r. reflexivity.
  - intros Hrest. destruct (IH _ Hrest) as (j & name & Hj & Hname & Hdiff).
    exists (S j), name. split; [exact Hj|]. split; [exact Hname|].
    rewrite Hdiff. replace (i + 1 + Z.of_nat j) with (i + Z.of_nat (S j)) by lia.
    reflexivity.
Qed.

(** A reference with no date in it that says "today" is today, whatever
    else it says; one that says "yesterday" is the day before; one that
    says "last week" is the seven days that end now, whatever the type
    asked for. *)
Theorem relative_keywords (temporal_ref temporal_type : string) (now : datetime) :
  temporal_ref <> ""%string ->
  _parse_specific_date (strip (lower temporal_ref)) now = None ->
  valid_date (date_of now) ->
  8 <= toordinal (date_of now) < 3652059 ->
  0 <= microsecond_of_day now < DAY_US ->
  let s := strip (lower temporal_ref) in
  let result := _parse_temporal_reference temporal_ref temporal_type now in
  (py_in "today" s = true -> starts_on result (date_of now))
  /\ (py_in "today" s = false -> py_in "yesterday" s = true ->
      exists d, starts_on result d /\ days_between d (date_of now) = -1)
  /\ (py_in "today" s = false -> py_in "yesterday" s = false ->
      py_in "last week" s = true ->
      exists start_time,
        result = Some (start_time, now)
        /\ days_between (date_of start_time) (date_of now) = -7
        /\ microsecond_of_day start_time = microsecond_of_day now).
Proof.
  intros Hne Hnone Hv Hrange Hus. cbv zeta.
  pose proof (toordinal_range _ Hv) as Hr.
  split; [|split].
  - intros Ht. apply resolved_starts_on; try assumption.
    + unfold resolve. cbv zeta. rewrite Hnone, Ht. reflexivity.
    + right. lia.
  - intros Ht Hy.
    destruct (add_days_Some (date_of now) (-1) ltac:(lia)) as (y & Hyd & Hvy & Hby).
    exists y. split; [|exact Hby].
    apply resolved_starts_on; try assumption.
    + unfold resolve. cbv zeta. rewrite Hnone, Ht, Hy, Hyd. reflexivity.
    + right. unfold days_between in Hby. lia.
  - intros Ht Hy Hw.
    destruct (add_days_Some (date_of now) (-7) ltac:(lia)) as (w & Hwd & _ & Hbw).
    exists (mkDatetime w (microsecond_of_day now)).
    unfold _parse_temporal_reference.
    destruct (String.eqb_spec temporal_ref ""); [contradiction|].
    unfold resolve. cbv zeta. rewrite Hnone, Ht, Hy, Hw.
    unfold add_microseconds.
    replace ((microsecond_of_day now + - (7 * DAY_US)) / DAY_US) with (-7)
      by (unfold DAY_US in *; Z.div_mod_to_equations; lia).
    replace ((microsecond_of_day now + - (7 * DAY_US)) mod DAY_US)
      with (microsecond_of_day now)
      by (unfold DAY_US in *; Z.div_mod_to_equations; lia).
    rewrite Hwd. cbn [date_of microsecond_of_day].
    split; [reflexivity|]. split; [exact Hbw | reflexivity].
Qed.

(** A reference with no date and none of those words that names a day of
    the week is the latest day of that name before today. *)
Theorem weekday_reference_is_past (temporal_ref temporal_type : string)
    (now : datetime) (days_diff : Z) :
  temporal_ref <> ""%string ->
  _parse_specific_date (strip (lower temporal_ref)) now = None ->
  py_in "today" (strip (lower temporal_ref)) = false ->
  py_in "yesterday" (strip (lower temporal_ref)) = false ->
  py_in "last week" (strip (lower temporal_ref)) = false ->
  find_day (strip (lower temporal_ref)) (date_of now) 0 days = Some days_diff ->
  valid_date (date_of now) ->
  8 <= toordinal (date_of now) ->
  -7 <= days_diff <= -1
  /\ exists d name,
       starts_on (_parse_temporal_reference temporal_ref temporal_type now) d
       /\ days_between d (date_of now) = days_diff
       /\ days !! Z.to_nat (weekday d) = Some name
       /\ py_in name (strip (lower temporal_ref)) = true.
Proof.
  intros Hne Hnone Ht Hy Hw Hfind Hv Hfirst.
  pose proof (toordinal_range _ Hv) as Hr.
  pose proof (weekday_range (date_of now)) as Hwd.
  destruct (find_day_Some _ _ _ _ _ Hfind) as (j & name & Hj & Hname & Hdiff).
  assert (j < 7)%nat as Hj7 by (apply lookup_lt_Some in Hj; exact Hj).
  rewrite Z.add_0_l in Hdiff.
  assert (-7 <= days_diff <= -1) as Hbound.
  { rewrite Hdiff. destruct (0 <=? _) eqn:E;
      [apply Z.leb_le in E | apply Z.leb_gt in E]; lia. }
  split; [exact Hbound|].
  destruct (add_days_Some (date_of now) days_diff ltac:(lia)) as (d & Hd & Hvd & Hbd).
  exists d, name. split; [|split; [exact Hbd|split; [|exact Hname]]].
  - apply resolved_starts_on; try assumption.
    + unfold resolve. cbv zeta. rewrite Hnone, Ht, Hy, Hw, Hfind, Hd. reflexivity.
    + right. unfold days_between in Hbd. lia.
  - assert (weekday d = Z.of_nat j) as ->; [|rewrite Nat2Z.id; exact Hj].
    unfold days_between in Hbd. unfold weekday in *.
    replace (toordinal d) with (toordinal (date_of now) + days_diff) by lia.
    rewrite Hdiff. destruct (0 <=? _) eqn:E;
      [apply Z.leb_le in E | apply Z.leb_gt in E]; Z.div_mod_to_equations; lia.
Qed.

(** No reference at all is the day that ends now. *)
Theorem empty_reference_is_last_day (temporal_type : string) (now : datetime) :
  valid_date (date_of now) ->
  2 <= toordinal (date_of now) ->
  0 <= microsecond_of_day now < DAY_US ->
  exists start_time,
    _parse_temporal_reference "" temporal_type now = Some (start_time, now)
    /\ days_between (date_of start_time) (date_of now) = -1
    /\ microsecond_of_day start_time = microsecond_of_day now.
Proof.
  intros Hv Hfirst Hus. pose proof (toordinal_range _ Hv) as Hr.
  destruct (add_days_Some (date_of now) (-1) ltac:(lia)) as (y & Hy & _ & Hby).
  exists (mkDatetime y (microsecond_of_day now)).
  unfold _parse_temporal_reference. cbn [String.eqb].
  unfold add_microseconds.
  replace ((microsecond_of_day now + - DAY_US) / DAY_US) with (-1)
    by (unfold DAY_US in *; Z.div_mod_to_equations; lia).
  replace ((microsecond_of_day now + - DAY_US) mod DAY_US) with (microsecond_of_day now)
    by (unfold DAY_US in *; Z.div_mod_to_equations; lia).
  rewrite Hy. cbn [date_of microsecond_of_day].
  split; [reflexivity|]. split; [exact Hby | reflexivity].
Qed.

(** Friday 1 March 2024, at noon. *)
Lemma relative_keywords_witness :
  starts_on (_parse_temporal_reference "Today, not yesterday" "single_date"
                                       (noon 2024 3 1))
            (mkDate 2024 3 1)
  /\ exists start_time,
       _parse_temporal_reference "last week" "single_date" (noon 2024 3 1)
       = Some (start_time, noon 2024 3 1)
       /\ days_between (date_of start_time) (mkDate 2024 3 1) = -7.
Proof.
  assert (valid_date (date_of (noon 2024 3 1))) as Hv by calendar.
  assert (8 <= toordinal (date_of (noon 2024 3 1)) < 3652059) as Hr
    by (vm_compute; split; [intros E; discriminate E | reflexivity]).
  assert (0 <= microsecond_of_day (noon 2024 3 1) < DAY_US) as Hus
    by (vm_compute; split; [intros E; discriminate E | reflexivity]).
  split.
  - refine (proj1 (relative_keywords "Today, not yesterday" "single_date" (noon 2024 3 1)
                     _ _ Hv Hr Hus) _).
    + intros E; discriminate E.
    + vm_compute. reflexivity.
    + vm_compute. reflexivity.
  - destruct (proj2 (proj2 (relative_keywords "last week" "single_date" (noon 2024 3 1)
                              ltac:(intros E; discriminate E)
                              ltac:(vm_compute; reflexivity) Hv Hr Hus))
                ltac:(vm_compute; reflexivity) ltac:(vm_compute; reflexivity)
                ltac:(vm_compute; reflexivity))
      as (start_time & Hres & Hdays & _).
    exists start_time. split; [exact Hres | exact Hdays].
Defined.

Lemma weekday_reference_is_past_witness :
  exists d name,
    starts_on (_parse_temporal_reference "on Wednesday" "single_date" (noon 2024 3 1)) d
    /\ days_between d (mkDate 2024 3 1) = -2
    /\ days !! Z.to_nat (weekday d) = Some name
    /\ py_in name "on wednesday" = true.
Proof.
  refine (proj2 (weekday_reference_is_past "on Wednesday" "single_date" (noon 2024 3 1)
                   (-2) _ _ _ _ _ _ _ _)).
  - intros E; discriminate E.
  - vm_compute. reflexivity.
  - vm_compute. reflexivity.
  - vm_compute. reflexivity.
  - vm_compute. reflexivity.
  - vm_compute. reflexivity.
  - calendar.
  - vm_compute. intros E; discriminate E.
Defined.

Lemma empty_reference_is_last_day_witness :
  exists start_time,
    _parse_temporal_reference "" "single_date" (noon 2024 3 1)
    = Some (start_time, noon 2024 3 1)
    /\ days_between (date_of start_time) (mkDate 2024 3 1) = -1.
Proof.
  destruct (empty_reference_is_last_day "single_date" (noon 2024 3 1)) as (t & Ht & Hd & _).
  - calendar.
  - vm_compute. intros E; discriminate E.
  - vm_compute. split; [intros E; discriminate E | reflexivity].
  - exists t. split; [exact Ht | exact Hd].
Defined.

End Temporal.
